(** * Announcement filtering and ranking engine of the Airtable tool

    Shallow embedding of the search-and-rank engine of
    [src/src/ai_analysis/tools/airtable_tool.py] ([AirtableTool]):
    [_filter_by_sender], [_filter_by_date], [_filter_by_month],
    [_filter_by_date_range], [_search_and_rank_by_text],
    [_calculate_relevance_score], [get_all_announcements] and
    [combined_filter_announcements].

    Python strings are modelled as Stdlib [string]s (ASCII characters);
    [str.lower], [str.strip], [str.split] and the [in] operator on strings are
    written out below for that alphabet.  Scores are rationals [Q]: Python
    mixes [int] and [float] there, and the [float] values that arise (sums of
    1 and 0.5) are exact.  Exceptions are modelled by a small error monad. *)

From Stdlib Require Import String Ascii List ZArith QArith Bool Lia.
From Stdlib Require Import Sorting.Sorted Permutation Setoid Morphisms.
Import ListNotations.

Open Scope string_scope.

(* ------------------------------------------------------------------ *)
(** ** Python string primitives *)

(** [str.lower] on ASCII characters. *)
Definition lower_ascii (c : ascii) : ascii :=
  let n := nat_of_ascii c in
  if (65 <=? n)%nat && (n <=? 90)%nat then ascii_of_nat (n + 32) else c.

Fixpoint lower (s : string) : string :=
  match s with
  | EmptyString => EmptyString
  | String c r => String (lower_ascii c) (lower r)
  end.

(** [str.isspace] on ASCII: \t \n \v \f \r, the separators \x1c..\x1f and
    the blank. *)
Definition is_space (c : ascii) : bool :=
  let n := nat_of_ascii c in
  ((9 <=? n)%nat && (n <=? 13)%nat) || ((28 <=? n)%nat && (n <=? 32)%nat).

Fixpoint drop_spaces (l : list ascii) : list ascii :=
  match l with
  | [] => []
  | c :: r => if is_space c then drop_spaces r else l
  end.

(** [str.strip()]. *)
Definition strip (s : string) : string :=
  string_of_list_ascii
    (rev (drop_spaces (rev (drop_spaces (list_ascii_of_string s))))).

(** [str.split()] with no separator: runs of whitespace separate words,
    no empty words. [cur] is the current word, reversed. *)
Fixpoint split_words (l : list ascii) (cur : list ascii) : list (list ascii) :=
  match l with
  | [] => match cur with [] => [] | _ => [rev cur] end
  | c :: r =>
      if is_space c then
        match cur with
        | [] => split_words r []
        | _ => rev cur :: split_words r []
        end
      else split_words r (c :: cur)
  end.

Definition py_split (s : string) : list string :=
  map string_of_list_ascii (split_words (list_ascii_of_string s) []).

(** The [needle in hay] operator on strings: [""] is in every string. *)
Fixpoint contains (needle hay : string) : bool :=
  prefix needle hay ||
  match hay with
  | EmptyString => false
  | String _ r => contains needle r
  end.

(** Decimal rendering of a non-negative integer, as in f-strings. *)
Fixpoint digits_aux (fuel n : nat) (acc : string) : string :=
  match fuel with
  | O => acc
  | S f =>
      let acc' := String (ascii_of_nat (48 + n mod 10)) acc in
      if (n <? 10)%nat then acc' else digits_aux f (n / 10) acc'
  end.

Definition str_of_nat (n : nat) : string := digits_aux (S n) n "".

(* ------------------------------------------------------------------ *)
(** ** Exceptions *)

Inductive exn : Type :=
| TypeError (msg : string)
| ValueError (msg : string)
| OverflowError (msg : string).

Definition exn_str (e : exn) : string :=
  match e with TypeError m | ValueError m | OverflowError m => m end.

Inductive result (A : Type) : Type :=
| Ok (a : A)
| Error (e : exn).
Arguments Ok {A} a.
Arguments Error {A} e.

Definition bind {A B} (m : result A) (k : A -> result B) : result B :=
  match m with Ok a => k a | Error e => Error e end.

Notation "x <- m ;; k" := (bind m (fun x => k))
  (at level 61, m at next level, right associativity).

(* ------------------------------------------------------------------ *)
(** ** Announcement records

    A record's [fields] dictionary; the engine reads four keys, each of which
    may be absent ([dict.get] with a default). *)

Record announcement := mk_ann {
  Title : option string;
  Description : option string;
  SentByUser : option string;
  SentTime : option string
}.

(** [d.get(key, "")] *)
Definition get_str (o : option string) : string :=
  match o with Some s => s | None => "" end.

(* ------------------------------------------------------------------ *)
(** ** [_filter_by_sender] *)

Fixpoint filter_by_sender_loop (anns : list announcement) (sender_name_lower : string)
  : list announcement :=
  match anns with
  | [] => []
  | a :: r =>
      let sender := lower (get_str (SentByUser a)) in
      if contains sender_name_lower sender
      then a :: filter_by_sender_loop r sender_name_lower
      else filter_by_sender_loop r sender_name_lower
  end.

Definition filter_by_sender (anns : list announcement) (sender_name : string)
  : list announcement :=
  filter_by_sender_loop anns (lower sender_name).

(* ------------------------------------------------------------------ *)
(** ** [_calculate_relevance_score] *)

Open Scope Q_scope.

(** The multi-keyword loop: [keyword_matches] starts at 0, gains 1 per
    keyword found in [combined_text] and 0.5 more when it is also in the
    title. *)
Definition keyword_matches_loop (combined_text title : string)
  (search_keywords : list string) : Q :=
  fold_left
    (fun keyword_matches keyword =>
       if contains keyword combined_text then
         let keyword_matches := keyword_matches + 1 in
         if contains keyword title then keyword_matches + (1 # 2)
         else keyword_matches
       else keyword_matches)
    search_keywords 0.

(** The single-keyword loop: the first keyword found scores, then [break]. *)
Fixpoint single_keyword_loop (combined_text title : string)
  (search_keywords : list string) : Q :=
  match search_keywords with
  | [] => 0
  | keyword :: rest =>
      if contains keyword combined_text then
        let keyword_score := 20 in
        if contains keyword title then keyword_score + 10 else keyword_score
      else single_keyword_loop combined_text title rest
  end.

Definition calculate_relevance_score (combined_text title original_phrase
  clean_phrase : string) (search_keywords : list string) : Q :=
  let score := 0 in
  if contains original_phrase combined_text then
    let score := score + 100 in
    if contains original_phrase title then score + 50 else score
  else if negb (String.eqb clean_phrase "") && contains clean_phrase combined_text then
    let score := score + 80 in
    if contains clean_phrase title then score + 40 else score
  else if (1 <? length search_keywords)%nat then
    let keyword_matches := keyword_matches_loop combined_text title search_keywords in
    if Qle_bool 2 keyword_matches then
      let base_score := 60 in
      let bonus_score := (keyword_matches - 2) * 10 in
      score + (base_score + bonus_score)
    else score
  else score + single_keyword_loop combined_text title search_keywords.

(* ------------------------------------------------------------------ *)
(** ** [_search_and_rank_by_text] *)

Definition STOP_WORDS : list string :=
  ["a"; "an"; "and"; "are"; "as"; "at"; "be"; "by"; "for"; "from"; "has"; "he";
   "in"; "is"; "it"; "its"; "of"; "on"; "that"; "the"; "to"; "was"; "will";
   "with"; "the"; "this"; "but"; "they"; "have"; "had"; "what"; "said"; "each";
   "which"; "she"; "do"; "how"; "their"; "if"; "up"; "out"; "many"; "then";
   "them"; "these"; "so"; "some"; "her"; "would"; "make"; "like"; "into";
   "him"; "time"; "two"; "more"; "go"; "no"; "way"; "could"; "my"; "than";
   "first"; "been"; "call"; "who"; "oil"; "sit"; "now"; "find"; "down";
   "day"; "did"; "get"; "come"; "made"; "may"; "part"].

Definition not_stop_word (w : string) : bool :=
  negb (existsb (String.eqb w) STOP_WORDS).

Definition clean_phrase_of (search_text_lower : string) : string :=
  String.concat " " (filter not_stop_word (py_split search_text_lower)).

Definition search_keywords_of (search_text_lower : string) : list string :=
  filter (fun w => not_stop_word w && (2 <? String.length w)%nat)
    (py_split search_text_lower).

(** Lower-cased searchable fields of a record and their combination
    [f"{title} {description} {sent_by}"]. *)
Definition title_of (a : announcement) : string := lower (get_str (Title a)).

Definition combined_text_of (a : announcement) : string :=
  title_of a ++ " " ++ lower (get_str (Description a)) ++ " "
  ++ lower (get_str (SentByUser a)).

(** Score of one record for an already lower-cased, stripped phrase, with the
    clean phrase and keywords derived as in [_search_and_rank_by_text]. *)
Definition record_score (search_text_lower : string) (a : announcement) : Q :=
  calculate_relevance_score (combined_text_of a) (title_of a) search_text_lower
    (clean_phrase_of search_text_lower) (search_keywords_of search_text_lower).

(** [list.sort(key=k, reverse=True)]: Python's sort is stable also with
    [reverse=True], so equal keys keep their input order.  Modelled as a
    stable insertion sort: an element goes in front of the first element
    whose key is not larger than its own. *)
Section SortDesc.
Context {A : Type} (key : A -> Q).

Fixpoint insert_desc (x : A) (l : list A) : list A :=
  match l with
  | [] => [x]
  | y :: r => if Qle_bool (key y) (key x) then x :: y :: r else y :: insert_desc x r
  end.

Fixpoint sort_desc (l : list A) : list A :=
  match l with
  | [] => []
  | x :: r => insert_desc x (sort_desc r)
  end.
End SortDesc.

(** The scoring loop: keeps [(announcement, score)] when [score > 0]. *)
Fixpoint score_loop (search_text_lower : string) (anns : list announcement)
  : list (announcement * Q) :=
  match anns with
  | [] => []
  | a :: r =>
      let score := record_score search_text_lower a in
      if negb (Qle_bool score 0) then (a, score) :: score_loop search_text_lower r
      else score_loop search_text_lower r
  end.

Definition search_and_rank_by_text (anns : list announcement) (search_text : string)
  : list announcement :=
  let search_text_lower := strip (lower search_text) in
  if String.eqb search_text_lower "" then anns
  else
    let scored_announcements := score_loop search_text_lower anns in
    map fst (sort_desc snd scored_announcements).

Close Scope Q_scope.

(* ------------------------------------------------------------------ *)
(** ** Python [datetime]

    A [datetime] is its wall-clock time in microseconds since
    0001-01-01T00:00 and its [tzinfo], given by the UTC offset in
    microseconds ([None]: naive).  Constructors and arithmetic follow
    CPython's [datetime] module ([_ymd2ord], range checks). *)

Record datetime := mk_dt { dt_local : Z; dt_tz : option Z }.

Open Scope Z_scope.

Definition DAY : Z := 86400 * 1000000.
Definition HOUR : Z := 3600 * 1000000.
Definition MAXYEAR : Z := 9999.

Definition is_leap (y : Z) : bool :=
  (y mod 4 =? 0) && (negb (y mod 100 =? 0) || (y mod 400 =? 0)).

Definition DAYS_BEFORE_MONTH : list Z :=
  [0; 31; 59; 90; 120; 151; 181; 212; 243; 273; 304; 334].

Definition DAYS_IN_MONTH : list Z :=
  [31; 28; 31; 30; 31; 30; 31; 31; 30; 31; 30; 31].

Definition days_in_month (y m : Z) : Z :=
  if (m =? 2) && is_leap y then 29 else nth (Z.to_nat (m - 1)) DAYS_IN_MONTH 0.

Definition days_before_year (y : Z) : Z :=
  let y1 := y - 1 in y1 * 365 + y1 / 4 - y1 / 100 + y1 / 400.

Definition days_before_month (y m : Z) : Z :=
  nth (Z.to_nat (m - 1)) DAYS_BEFORE_MONTH 0 + (if (2 <? m) && is_leap y then 1 else 0).

(** [_ymd2ord]: 0001-01-01 is day 1. *)
Definition ymd2ord (y m d : Z) : Z := days_before_year y + days_before_month y m + d.

Definition MAX_LOCAL : Z := ymd2ord MAXYEAR 12 31 * DAY.

(** Decimal rendering of an integer, with a leading minus sign. *)
Fixpoint digits_Z (fuel : nat) (n : Z) (acc : string) : string :=
  match fuel with
  | O => acc
  | S f =>
      let acc' := String (ascii_of_nat (Z.to_nat (48 + n mod 10))) acc in
      if n <? 10 then acc' else digits_Z f (n / 10) acc'
  end.

Definition str_of_Z (z : Z) : string :=
  String.append (if z <? 0 then "-"%string else ""%string)
    (digits_Z (S (Z.to_nat (Z.log2 (Z.abs z)))) (Z.abs z) "").

(** [datetime(y, m, d)]: naive midnight, [ValueError] out of range. *)
Definition datetime_new (y m d : Z) : result datetime :=
  if negb ((1 <=? y) && (y <=? MAXYEAR))
  then Error (ValueError ("year " ++ str_of_Z y ++ " is out of range"))
  else if negb ((1 <=? m) && (m <=? 12)) then Error (ValueError "month must be in 1..12")
  else if negb ((1 <=? d) && (d <=? days_in_month y m))
  then Error (ValueError "day is out of range for month")
  else Ok (mk_dt ((ymd2ord y m d - 1) * DAY) None).

(** [dt.replace(tzinfo=tz)] *)
Definition replace_tz (d : datetime) (tz : option Z) : datetime := mk_dt (dt_local d) tz.

(** [dateutil.tz.UTC] *)
Definition UTC : option Z := Some 0.

(** [dt + timedelta(microseconds=delta)]: [OverflowError] out of range. *)
Definition dt_add (d : datetime) (delta : Z) : result datetime :=
  let l := dt_local d + delta in
  if (0 <=? l) && (l <? MAX_LOCAL) then Ok (mk_dt l (dt_tz d))
  else Error (OverflowError "date value out of range").

Definition naive_aware_error : exn :=
  TypeError "can't compare offset-naive and offset-aware datetimes".

(** [a <= b] and [a < b]: aware values compare as UTC instants, naive ones
    by wall clock, a naive against an aware value raises [TypeError]. *)
Definition dt_compare (cmp : Z -> Z -> bool) (a b : datetime) : result bool :=
  match dt_tz a, dt_tz b with
  | Some oa, Some ob => Ok (cmp (dt_local a - oa) (dt_local b - ob))
  | None, None => Ok (cmp (dt_local a) (dt_local b))
  | _, _ => Error naive_aware_error
  end.

Definition dt_le : datetime -> datetime -> result bool := dt_compare Z.leb.
Definition dt_lt : datetime -> datetime -> result bool := dt_compare Z.ltb.

Close Scope Z_scope.

(* ------------------------------------------------------------------ *)
(** ** Date filters

    The timestamp parser [_parse_sent_time] is [dateutil.parser.parse]
    followed by [strptime] fall-backs, all inside a [try] that turns every
    failure into [None]: it is a parameter [parse_sent_time] here, total and
    returning [option datetime].  [DateUtils.extract_date_time_range] and
    [DateUtils.parse_date_time] (regexes, [strptime], [fromisoformat] and
    [datetime.now()]) are parameters as well; they may raise (e.g.
    [OverflowError] from [timedelta] arithmetic), hence [result].
    [now_year] is [datetime.now().year]. *)

Section DateFilters.
Variable parse_sent_time : string -> option datetime.
Variable extract_date_time_range : string -> result (option datetime * option datetime).
Variable parse_date_time : string -> result (option datetime).
Variable now_year : Z.

(** The loop of [_filter_by_date_range]; [start_date <= sent_time < end_date]
    is Python's chained comparison, which short-circuits. *)
Fixpoint filter_by_date_range_loop (anns : list announcement)
  (start_date end_date : datetime) : result (list announcement) :=
  match anns with
  | [] => Ok []
  | a :: r =>
      let keep :=
        match SentTime a with
        | None => Ok false
        | Some sent_time_str =>
            if String.eqb sent_time_str "" then Ok false
            else match parse_sent_time sent_time_str with
                 | None => Ok false
                 | Some sent_time =>
                     b1 <- dt_le start_date sent_time;;
                     if b1 then dt_lt sent_time end_date else Ok false
                 end
        end in
      k <- keep;;
      rest <- filter_by_date_range_loop r start_date end_date;;
      Ok (if k then a :: rest else rest)
  end.

Definition filter_by_date_range (anns : list announcement)
  (start_date end_date : datetime) : result (list announcement) :=
  let start_date :=
    match dt_tz start_date with None => replace_tz start_date UTC | Some _ => start_date end in
  let end_date :=
    match dt_tz end_date with None => replace_tz end_date UTC | Some _ => end_date end in
  filter_by_date_range_loop anns start_date end_date.

Definition filter_by_month (anns : list announcement) (month_num : Z)
  : result (list announcement) :=
  let current_year := now_year in
  s <- datetime_new current_year month_num 1;;
  let start_date := replace_tz s UTC in
  e <- (if (month_num =? 12)%Z then datetime_new (current_year + 1) 1 1
        else datetime_new current_year (month_num + 1) 1);;
  let end_date := replace_tz e UTC in
  filter_by_date_range anns start_date end_date.

(** [{month.lower(): i for i, month in enumerate(calendar.month_name) if month}]
    (English locale), in its iteration order. *)
Definition month_names : list (string * Z) :=
  [("january", 1%Z); ("february", 2%Z); ("march", 3%Z); ("april", 4%Z);
   ("may", 5%Z); ("june", 6%Z); ("july", 7%Z); ("august", 8%Z);
   ("september", 9%Z); ("october", 10%Z); ("november", 11%Z); ("december", 12%Z)].

(** The month-name loop: the first month (in calendar order) whose name is
    in the query. *)
Definition find_month (date_query : string) : option (string * Z) :=
  find (fun p => contains (fst p) date_query) month_names.

Definition filter_by_date (anns : list announcement) (date_query : string)
  : result (list announcement) :=
  let date_query := strip (lower date_query) in
  match find_month date_query with
  | Some (_, month_num) => filter_by_month anns month_num
  | None =>
      r <- extract_date_time_range date_query;;
      match r with
      | (Some start_date, Some end_date) => filter_by_date_range anns start_date end_date
      | _ =>
          single <- parse_date_time date_query;;
          match single with
          | Some single_date =>
              next_day <- dt_add single_date DAY;;
              filter_by_date_range anns single_date next_day
          | None => Ok anns  (* "If no date parsing worked, return original list" *)
          end
      end
  end.
End DateFilters.

(* ------------------------------------------------------------------ *)
(** ** Record store and [get_all_announcements] *)

(** The response dictionary: ["count"], ["announcements"] and one of
    ["message"] / ["error"]. *)
Record response := mk_resp {
  count : Z;
  announcements : list announcement;
  message : option string;
  error : option string
}.

(** The Airtable client: whether [client.airtable] is set, and the outcome
    of [client.get_all_records()]; a raw record is [None] when it has no
    ["fields"] key. *)
Record client := mk_client {
  airtable : bool;
  get_all_records : result (list (option announcement))
}.

(** [[record["fields"] for record in records if "fields" in record]] *)
Definition fields_of (records : list (option announcement)) : list announcement :=
  flat_map (fun r => match r with Some f => [f] | None => [] end) records.

Definition get_all_announcements (c : client) : response :=
  if negb (airtable c) then
    mk_resp 0 [] None (Some "Error: Airtable connection not initialized.")
  else
    match get_all_records c with
    | Error e =>
        mk_resp 0 [] None (Some ("Error fetching all announcements: " ++ exn_str e))
    | Ok [] => mk_resp 0 [] (Some "No announcements found.") None
    | Ok records =>
        let anns := fields_of records in
        mk_resp (Z.of_nat (length anns)) anns
          (Some ("Found " ++ str_of_nat (length anns) ++ " announcements.")) None
    end.

(* ------------------------------------------------------------------ *)
(** ** [combined_filter_announcements] *)

(** [x.strip() if x else None] *)
Definition strip_opt (o : option string) : option string :=
  match o with
  | Some s => if String.eqb s "" then None else Some (strip s)
  | None => None
  end.

(** Truthiness test [if x:] of an optional string: [Some s] for a non-empty
    [s]. *)
Definition given (o : option string) : option string :=
  match o with
  | Some s => if String.eqb s "" then None else Some s
  | None => None
  end.

Definition is_given (o : option string) : bool :=
  match given o with Some _ => true | None => false end.

Section Pipeline.
Variable parse_sent_time : string -> option datetime.
Variable extract_date_time_range : string -> result (option datetime * option datetime).
Variable parse_date_time : string -> result (option datetime).
Variable now_year : Z.

Let filter_by_date' :=
  filter_by_date parse_sent_time extract_date_time_range parse_date_time now_year.

(** STAGE 2: sender filter. *)
Definition sender_stage (anns : list announcement) (sender_name : option string)
  (filter_steps : list string) : list announcement * list string :=
  match given sender_name with
  | Some s => (filter_by_sender anns s, app filter_steps ["sender '" ++ s ++ "'"])
  | None => (anns, filter_steps)
  end.

(** STAGE 3: date filter. *)
Definition date_stage (anns : list announcement) (date_query : option string)
  (filter_steps : list string) : result (list announcement * list string) :=
  match given date_query with
  | Some q =>
      anns' <- filter_by_date' anns q;;
      Ok (anns', app filter_steps ["date '" ++ q ++ "'"])
  | None => Ok (anns, filter_steps)
  end.

(** Stages 2 and 3: the working set the structured filters leave. *)
Definition structured_stages (all : list announcement)
  (sender_name date_query : option string)
  : result (list announcement * list string) :=
  let '(anns, steps) := sender_stage all sender_name [] in
  date_stage anns date_query steps.

(** STAGE 4: text search with ranking, with the fall-back to the whole
    dataset when the previous filters eliminated everything. *)
Definition text_stage (all anns : list announcement)
  (search_text sender_name date_query : option string) (filter_steps : list string)
  : list announcement * list string :=
  match given search_text with
  | Some st =>
      let anns :=
        match anns with
        | [] => if is_given sender_name || is_given date_query then all else anns
        | _ => anns
        end in
      match anns with
      | [] => (anns, filter_steps)
      | _ => (search_and_rank_by_text anns st, app filter_steps ["text '" ++ st ++ "'"])
      end
  | None => (anns, filter_steps)
  end.

(** STAGE 5: the response. *)
Definition prepare_response (anns : list announcement) (filter_steps : list string)
  : response :=
  let n := str_of_nat (length anns) in
  let msg :=
    match filter_steps with
    | [] => "Found " ++ n ++ " announcements."
    | _ => "Found " ++ n ++ " announcements matching "
           ++ String.concat " AND " filter_steps ++ "."
    end in
  mk_resp (Z.of_nat (length anns)) anns (Some msg) None.

(** The body of the [try] block.  The [isinstance] / ["announcements" in]
    check on [all_result] always passes: [get_all_announcements] returns a
    dictionary with an ["announcements"] key on every path. *)
Definition combined_filter_body (c : client)
  (search_text sender_name date_query : option string) : result response :=
  let search_text := strip_opt search_text in
  let sender_name := strip_opt sender_name in
  let date_query := strip_opt date_query in
  let all_result := get_all_announcements c in
  let all := announcements all_result in
  r <- structured_stages all sender_name date_query;;
  let '(anns, steps) := r in
  let '(anns, steps) := text_stage all anns search_text sender_name date_query steps in
  Ok (prepare_response anns steps).

Definition combined_filter_announcements (c : client)
  (search_text sender_name date_query : option string) : response :=
  if negb (airtable c) then
    mk_resp 0 [] None (Some "Error: Airtable connection not initialized.")
  else
    match combined_filter_body c search_text sender_name date_query with
    | Ok resp => resp
    | Error e => mk_resp 0 [] None (Some ("Error filtering announcements: " ++ exn_str e))
    end.
End Pipeline.

(* ================================================================== *)
(** * Notions used by the statements *)

(** [x] is not ranked below [y] for the sort key [key]. *)
Definition ranked {A : Type} (key : A -> Q) (x y : A) : Prop := (key y <= key x)%Q.

(** Elements of one given key [q]. *)
Definition same_score {A : Type} (key : A -> Q) (q : Q) (a : A) : bool :=
  Qeq_bool (key a) q.

(** [score > 0] for the score [_search_and_rank_by_text] computes. *)
Definition positive_score (search_text_lower : string) (a : announcement) : bool :=
  negb (Qle_bool (record_score search_text_lower a) 0).

(** Order-preserving sub-list. *)
Inductive subseq {A : Type} : list A -> list A -> Prop :=
| subseq_nil : subseq [] []
| subseq_skip x l l' : subseq l l' -> subseq l (x :: l')
| subseq_keep x l l' : subseq l l' -> subseq (x :: l) (x :: l').

(** Spec-side count of the multi-keyword tier: 1 per keyword in the
    combined text, plus 0.5 when that keyword is also in the title. *)
Definition keyword_count (combined_text title : string) (kws : list string) : Q :=
  fold_right
    (fun kw acc =>
       ((if contains kw combined_text then 1 + (if contains kw title then 1 # 2 else 0)
         else 0) + acc)%Q)
    0%Q kws.

(** Range [[first day of month m of year y, first day of the next month)]
    in UTC, as the spec describes the month-name case; December wraps to
    January of [y + 1]. *)
Definition month_start (y m : Z) : datetime := mk_dt ((ymd2ord y m 1 - 1) * DAY)%Z UTC.

Definition month_end (y m : Z) : datetime :=
  if (m =? 12)%Z then month_start (y + 1) 1 else month_start y (m + 1).

(** Full (lower-case) name of month [m], 1 <= m <= 12. *)
Definition month_name (m : Z) : string :=
  fst (nth (Z.to_nat (m - 1)) month_names ("", 0%Z)).

(** Normalisation [_filter_by_date] applies to the query. *)
Definition date_query_key (date_query : string) : string := strip (lower date_query).

(** UTC instant of a [datetime], a naive value being taken as UTC. *)
Definition utc_instant (d : datetime) : Z :=
  match dt_tz d with Some o => (dt_local d - o)%Z | None => dt_local d end.

(** The range test the spec describes for the date filter: the record's
    timestamp parses and [start <= parsed < end] as UTC instants. *)
Definition in_range_utc (parse_sent_time : string -> option datetime)
  (start_date end_date : datetime) (a : announcement) : bool :=
  match SentTime a with
  | None => false
  | Some s =>
      if String.eqb s "" then false
      else match parse_sent_time s with
           | None => false
           | Some t => (utc_instant start_date <=? utc_instant t)%Z
                       && (utc_instant t <? utc_instant end_date)%Z
           end
  end.

(** Sample records. *)
Definition lunch_ann : announcement :=
  mk_ann (Some "Pizza lunch on Friday") (Some "Bring a drink") (Some "Sierra Robbins")
    (Some "2025-05-10T10:00:00Z").

Definition trip_ann : announcement :=
  mk_ann (Some "Field trip") (Some "") (Some "Sierra Robbins") (Some "2025-06-10T10:00:00Z").

Definition naive_ann : announcement :=
  mk_ann (Some "Math Test") (Some "") (Some "Sierra Robbins") (Some "2025-05-10").

Definition sample_client : client := mk_client true (Ok [Some lunch_ann]).

(** Values [dateutil.parser.parse] (the first attempt of [_parse_sent_time])
    returns on the sample timestamps: offset-aware (UTC) for the ISO strings
    ending in [Z], naive for the date-only string. *)
Definition sample_parse_sent_time (s : string) : option datetime :=
  if String.eqb s "2025-05-10T10:00:00Z"
  then Some (mk_dt ((ymd2ord 2025 5 10 - 1) * DAY + 10 * HOUR)%Z UTC)
  else if String.eqb s "2025-06-10T10:00:00Z"
  then Some (mk_dt ((ymd2ord 2025 6 10 - 1) * DAY + 10 * HOUR)%Z UTC)
  else if String.eqb s "2025-05-10"
  then Some (mk_dt ((ymd2ord 2025 5 10 - 1) * DAY)%Z None)
  else None.

(** [DateUtils.extract_date_time_range] and [DateUtils.parse_date_time] on a
    query they do not recognise (no relative period, no from/between/on
    pattern, no date format, no natural-language form). *)
Definition no_range (_ : string) : result (option datetime * option datetime) :=
  Ok (None, None).

Definition no_date (_ : string) : result (option datetime) := Ok None.


(* ================================================================== *)
(** * The date utilities and the remaining Airtable tool methods *)

Open Scope Z_scope.

Definition MINUTE : Z := 60 * 1000000.

Definition SECOND : Z := 1000000.

Definition DI400Y : Z := 146097.

Definition DI100Y : Z := 36524.

Definition DI4Y : Z := 1461.

Definition ord2ymd (n : Z) : Z * Z * Z :=
  let n := n - 1 in
  let n400 := n / DI400Y in
  let n := n mod DI400Y in
  let year := n400 * 400 + 1 in
  let n100 := n / DI100Y in
  let n := n mod DI100Y in
  let n4 := n / DI4Y in
  let n := n mod DI4Y in
  let n1 := n / 365 in
  let n := n mod 365 in
  let year := year + n100 * 100 + n4 * 4 + n1 in
  if (n1 =? 4) || (n100 =? 4) then (year - 1, 12, 31)
  else
    let leapyear := (n1 =? 3) && (negb (n4 =? 24) || (n100 =? 3)) in
    let month := Z.shiftr (n + 50) 5 in
    let preceding :=
      nth (Z.to_nat (month - 1)) DAYS_BEFORE_MONTH 0
      + (if (2 <? month) && leapyear then 1 else 0) in
    let '(month, preceding) :=
      if preceding >? n then
        let month := month - 1 in
        (month, preceding - (nth (Z.to_nat (month - 1)) DAYS_IN_MONTH 0
                             + (if (month =? 2) && leapyear then 1 else 0)))
      else (month, preceding) in
    let n := n - preceding in
    (year, month, n + 1).

Definition ymd_tail (leapyear : bool) (n : Z) : Z * Z :=
  let month := Z.shiftr (n + 50) 5 in
  let preceding :=
    nth (Z.to_nat (month - 1)) DAYS_BEFORE_MONTH 0
    + (if (2 <? month) && leapyear then 1 else 0) in
  let '(month, preceding) :=
    if preceding >? n then
      let month := month - 1 in
      (month, preceding - (nth (Z.to_nat (month - 1)) DAYS_IN_MONTH 0
                           + (if (month =? 2) && leapyear then 1 else 0)))
    else (month, preceding) in
  (month, n - preceding + 1).

Definition dim_l (leap : bool) (m : Z) : Z :=
  if (m =? 2) && leap then 29 else nth (Z.to_nat (m - 1)) DAYS_IN_MONTH 0.

Definition dbm_l (leap : bool) (m : Z) : Z :=
  nth (Z.to_nat (m - 1)) DAYS_BEFORE_MONTH 0 + (if (2 <? m) && leap then 1 else 0).

Fixpoint all_range (f : Z -> bool) (lo : Z) (p : positive) : bool :=
  match p with
  | xH => f lo
  | xO q => all_range f lo q && all_range f (lo + Zpos q) q
  | xI q => f lo && all_range f (lo + 1) q && all_range f (lo + 1 + Zpos q) q
  end.

Definition pair_eqb (p q : Z * Z) : bool := (fst p =? fst q) && (snd p =? snd q).

Definition check_tail (leap : bool) (m : Z) : bool :=
  all_range (fun d => pair_eqb (ymd_tail leap (dbm_l leap m + d - 1)) (m, d))
    1 (Z.to_pos (dim_l leap m)).

(** Fields of a [datetime]: the date of day number [dt_local / DAY + 1] and
    the time of day. *)
Definition dt_ymd (d : datetime) : Z * Z * Z := ord2ymd (dt_local d / DAY + 1).
Definition dt_year (d : datetime) : Z := fst (fst (dt_ymd d)).
Definition dt_month (d : datetime) : Z := snd (fst (dt_ymd d)).
Definition dt_day (d : datetime) : Z := snd (dt_ymd d).
Definition dt_hour (d : datetime) : Z := dt_local d mod DAY / HOUR.
Definition dt_minute (d : datetime) : Z := dt_local d mod HOUR / MINUTE.
Definition dt_second (d : datetime) : Z := dt_local d mod MINUTE / SECOND.
Definition dt_microsecond (d : datetime) : Z := dt_local d mod SECOND.

(** [d.toordinal()] and [d.weekday()] (Monday is 0). *)
Definition toordinal (d : datetime) : Z :=
  let '(y, m, dd) := dt_ymd d in ymd2ord y m dd.

Definition weekday (d : datetime) : Z := (toordinal d + 6) mod 7.

(** [datetime(year, month, day, hour, minute, second, microsecond, tzinfo)]
    with the constructor's range checks. *)
Definition datetime_full (y m d hh mi ss us : Z) (tz : option Z) : result datetime :=
  if negb ((1 <=? y) && (y <=? MAXYEAR))
  then Error (ValueError ("year " ++ str_of_Z y ++ " is out of range"))
  else if negb ((1 <=? m) && (m <=? 12)) then Error (ValueError "month must be in 1..12")
  else if negb ((1 <=? d) && (d <=? days_in_month y m))
  then Error (ValueError "day is out of range for month")
  else if negb ((0 <=? hh) && (hh <=? 23)) then Error (ValueError "hour must be in 0..23")
  else if negb ((0 <=? mi) && (mi <=? 59)) then Error (ValueError "minute must be in 0..59")
  else if negb ((0 <=? ss) && (ss <=? 59)) then Error (ValueError "second must be in 0..59")
  else if negb ((0 <=? us) && (us <=? 999999))
  then Error (ValueError "microsecond must be in 0..999999")
  else Ok (mk_dt ((ymd2ord y m d - 1) * DAY + hh * HOUR + mi * MINUTE + ss * SECOND + us) tz).

(** A keyword argument of [replace]: [None] keeps the current value. *)
Definition kwarg (o : option Z) (current : Z) : Z :=
  match o with Some v => v | None => current end.

(** [d.replace(year=.., month=.., day=.., hour=.., minute=.., second=..,
    microsecond=..)] *)
Definition dt_replace (d : datetime) (year month day hour minute second microsecond : option Z)
  : result datetime :=
  let '(y, m, dd) := dt_ymd d in
  datetime_full (kwarg year y) (kwarg month m) (kwarg day dd) (kwarg hour (dt_hour d))
    (kwarg minute (dt_minute d)) (kwarg second (dt_second d))
    (kwarg microsecond (dt_microsecond d)) (dt_tz d).

(** [timedelta(days=n)] in microseconds.  CPython converts the day count to
    a C [int] first, then checks [|days| <= 999999999]. *)
Definition timedelta_days (n : Z) : result Z :=
  if Z.abs n <=? 999999999 then Ok (n * DAY)
  else if (-2147483648 <=? n) && (n <=? 2147483647) then
    Error (OverflowError ("days=" ++ str_of_Z n ++ "; must have magnitude <= 999999999"))
  else Error (OverflowError "Python int too large to convert to C int").

(** [d - delta] *)
Definition dt_sub (d : datetime) (delta : Z) : result datetime := dt_add d (- delta).

(** [calendar.monthrange(year, month)[1]] *)
Definition monthrange_days (y m : Z) : Z := days_in_month y m.

(** [.replace(hour=0, minute=0, second=0, microsecond=0)] and
    [.replace(hour=23, minute=59, second=59, microsecond=999999)]. *)
Definition start_of_day (d : datetime) : result datetime :=
  dt_replace d None None None (Some 0) (Some 0) (Some 0) (Some 0).

Definition end_of_day (d : datetime) : result datetime :=
  dt_replace d None None None (Some 23) (Some 59) (Some 59) (Some 999999).

(** [DateUtils.get_date_range(period, as_timezone_aware)] at the instant
    [now] ([datetime.now()], naive local time). *)
Definition get_date_range (now : datetime) (period : string) (as_timezone_aware : bool)
  : result (datetime * datetime) :=
  r <- (if String.eqb period "today" then
          start_date <- start_of_day now;;
          end_date <- end_of_day now;;
          Ok (start_date, end_date)
        else if String.eqb period "yesterday" then
          yesterday <- dt_sub now DAY;;
          start_date <- start_of_day yesterday;;
          end_date <- end_of_day yesterday;;
          Ok (start_date, end_date)
        else if String.eqb period "this_week" || String.eqb period "this week" then
          td <- timedelta_days (weekday now);;
          start_date <- dt_sub now td;;
          start_date <- start_of_day start_date;;
          end_date <- dt_add start_date (6 * DAY);;
          end_date <- end_of_day end_date;;
          Ok (start_date, end_date)
        else if String.eqb period "last_week" || String.eqb period "last week" then
          td <- timedelta_days (weekday now + 7);;
          start_date <- dt_sub now td;;
          start_date <- start_of_day start_date;;
          end_date <- dt_add start_date (6 * DAY);;
          end_date <- end_of_day end_date;;
          Ok (start_date, end_date)
        else if String.eqb period "next_week" || String.eqb period "next week" then
          td <- timedelta_days (7 - weekday now);;
          start_date <- dt_add now td;;
          start_date <- start_of_day start_date;;
          end_date <- dt_add start_date (6 * DAY);;
          end_date <- end_of_day end_date;;
          Ok (start_date, end_date)
        else if String.eqb period "this_month" || String.eqb period "this month" then
          start_date <- dt_replace now None None (Some 1) (Some 0) (Some 0) (Some 0) (Some 0);;
          let last_day := monthrange_days (dt_year now) (dt_month now) in
          end_date <- dt_replace now None None (Some last_day) (Some 23) (Some 59) (Some 59)
                        (Some 999999);;
          Ok (start_date, end_date)
        else if String.eqb period "last_month" || String.eqb period "last month" then
          first_day_current_month <-
            dt_replace now None None (Some 1) (Some 0) (Some 0) (Some 0) (Some 0);;
          last_day_prev_month <- dt_sub first_day_current_month DAY;;
          start_date <- dt_replace last_day_prev_month None None (Some 1) (Some 0) (Some 0)
                          (Some 0) (Some 0);;
          end_date <- end_of_day last_day_prev_month;;
          Ok (start_date, end_date)
        else if String.eqb period "next_month" || String.eqb period "next month" then
          first_day_current_month <-
            dt_replace now None None (Some 1) (Some 0) (Some 0) (Some 0) (Some 0);;
          start_date <-
            (if dt_month now =? 12 then
               dt_replace first_day_current_month (Some (dt_year now + 1)) (Some 1)
                 None None None None None
             else
               dt_replace first_day_current_month None (Some (dt_month now + 1))
                 None None None None None);;
          let last_day := monthrange_days (dt_year start_date) (dt_month start_date) in
          end_date <- dt_replace start_date None None (Some last_day) (Some 23) (Some 59)
                        (Some 59) (Some 999999);;
          Ok (start_date, end_date)
        else if String.eqb period "this_year" || String.eqb period "this year" then
          start_date <- dt_replace now None (Some 1) (Some 1) (Some 0) (Some 0) (Some 0) (Some 0);;
          end_date <- dt_replace now None (Some 12) (Some 31) (Some 23) (Some 59) (Some 59)
                        (Some 999999);;
          Ok (start_date, end_date)
        else if String.eqb period "last_year" || String.eqb period "last year" then
          start_date <- dt_replace now (Some (dt_year now - 1)) (Some 1) (Some 1) (Some 0)
                          (Some 0) (Some 0) (Some 0);;
          end_date <- dt_replace now (Some (dt_year now - 1)) (Some 12) (Some 31) (Some 23)
                        (Some 59) (Some 59) (Some 999999);;
          Ok (start_date, end_date)
        else
          start_date <- start_of_day now;;
          end_date <- end_of_day now;;
          Ok (start_date, end_date));;
  let '(start_date, end_date) := r in
  if as_timezone_aware then Ok (replace_tz start_date UTC, replace_tz end_date UTC)
  else Ok (start_date, end_date).

(** [d.replace(tzinfo=dateutil.tz.UTC)] when [aware]. *)
Definition as_tz (aware : bool) (d : datetime) : datetime :=
  if aware then replace_tz d UTC else d.

(** The period names [get_date_range] tells apart. *)
Definition named_periods : list string :=
  ["today"; "yesterday"; "this_week"; "this week"; "last_week"; "last week";
   "next_week"; "next week"; "this_month"; "this month"; "last_month"; "last month";
   "next_month"; "next month"; "this_year"; "this year"; "last_year"; "last year"]%string.

(* ------------------------------------------------------------------ *)
(** ** [DateUtils.parse_natural_language_date] *)

(** The class [\d] on ASCII characters. *)
Definition is_digit (c : ascii) : bool :=
  let n := nat_of_ascii c in (48 <=? n)%nat && (n <=? 57)%nat.

(** [p] at the front of [s]: the rest of [s]. *)
Fixpoint drop_prefix (p s : string) : option string :=
  match p, s with
  | EmptyString, _ => Some s
  | String c p', String d s' => if Ascii.eqb c d then drop_prefix p' s' else None
  | String _ _, EmptyString => None
  end.

(** [\d+] at the front of a string: the longest run of digits, and the rest.
    A shorter run never lets the patterns below match, since the item after
    [\d+] there is a blank. *)
Fixpoint take_digits (s : string) : string * string :=
  match s with
  | String c r =>
      if is_digit c then let '(ds, rest) := take_digits r in (String c ds, rest)
      else (EmptyString, s)
  | EmptyString => (EmptyString, EmptyString)
  end.

(** [int(ds)] for a string of decimal digits. *)
Fixpoint decimal_value_aux (s : string) (acc : Z) : Z :=
  match s with
  | EmptyString => acc
  | String c r => decimal_value_aux r (acc * 10 + (Z.of_nat (nat_of_ascii c) - 48))
  end.

Definition decimal_value (s : string) : Z := decimal_value_aux s 0.

(** The alternation [(day|days|week|weeks|month|months)] followed by the
    literal [cont]: the first alternative, in order, for which the whole
    rest of the pattern matches. *)
Definition UNITS : list string := ["day"; "days"; "week"; "weeks"; "month"; "months"].

Definition match_unit (cont s : string) : option string :=
  find (fun u => prefix (u ++ cont) s) UNITS.

(** [re.match(r"in (\d+) (day|days|week|weeks|month|months)", text)]:
    groups 1 and 2. *)
Definition match_in (text : string) : option (string * string) :=
  match drop_prefix "in " text with
  | None => None
  | Some r =>
      let '(ds, r) := take_digits r in
      if String.eqb ds "" then None
      else match drop_prefix " " r with
           | None => None
           | Some r => option_map (fun u => (ds, u)) (match_unit "" r)
           end
  end.

(** [re.match(r"(\d+) (day|days|week|weeks|month|months) ago", text)]:
    groups 1 and 2. *)
Definition match_ago (text : string) : option (string * string) :=
  let '(ds, r) := take_digits text in
  if String.eqb ds "" then None
  else match drop_prefix " " r with
       | None => None
       | Some r => option_map (fun u => (ds, u)) (match_unit " ago" r)
       end.

Definition WEEKDAYS : list string :=
  ["monday"; "tuesday"; "wednesday"; "thursday"; "friday"; "saturday"; "sunday"].

(** [datetime(now.year, now.month, now.day)] *)
Definition today_of (now : datetime) : result datetime :=
  datetime_new (dt_year now) (dt_month now) (dt_day now).

(** The loop over [enumerate(days)]: [None] when no ["next <day>"] or
    ["last <day>"] is in the text. *)
Fixpoint weekday_phrase_loop (now : datetime) (text : string) (days : list string) (i : Z)
  : option (result (option datetime)) :=
  match days with
  | [] => None
  | day :: rest =>
      if contains ("next " ++ day) text then
        let days_ahead := (i - weekday now) mod 7 in
        let days_ahead := if days_ahead =? 0 then 7 else days_ahead in
        Some (today <- today_of now;;
              td <- timedelta_days days_ahead;;
              d <- dt_add today td;;
              Ok (Some d))
      else if contains ("last " ++ day) text then
        let days_behind := (weekday now - i) mod 7 in
        let days_behind := if days_behind =? 0 then 7 else days_behind in
        Some (today <- today_of now;;
              td <- timedelta_days days_behind;;
              d <- dt_sub today td;;
              Ok (Some d))
      else weekday_phrase_loop now text rest (i + 1)
  end.

(** The [if unit in [...]] chain on a matched unit: the day count, [None]
    when no branch is taken. *)
Definition unit_days (unit : string) (num : Z) : option Z :=
  if existsb (String.eqb unit) ["day"; "days"] then Some num
  else if existsb (String.eqb unit) ["week"; "weeks"] then Some (num * 7)
  else if existsb (String.eqb unit) ["month"; "months"] then Some (num * 30)
  else None.

(** [DateUtils.parse_natural_language_date(text)] at the instant [now]
    ([datetime.now()]).  Exceptions propagate: the function has no
    [try]. *)
Definition parse_natural_language_date (now : datetime) (text : string)
  : result (option datetime) :=
  let text := strip (lower text) in
  if String.eqb text "today" then
    d <- today_of now;; Ok (Some d)
  else if String.eqb text "tomorrow" then
    today <- today_of now;; td <- timedelta_days 1;; d <- dt_add today td;; Ok (Some d)
  else if String.eqb text "yesterday" then
    today <- today_of now;; td <- timedelta_days 1;; d <- dt_sub today td;; Ok (Some d)
  else
    match weekday_phrase_loop now text WEEKDAYS 0 with
    | Some r => r
    | None =>
        let in_branch :=
          match match_in text with
          | Some (g1, unit) =>
              match unit_days unit (decimal_value g1) with
              | Some n => Some (td <- timedelta_days n;; d <- dt_add now td;; Ok (Some d))
              | None => None
              end
          | None => None
          end in
        match in_branch with
        | Some r => r
        | None =>
            match match_ago text with
            | Some (g1, unit) =>
                match unit_days unit (decimal_value g1) with
                | Some n => td <- timedelta_days n;; d <- dt_sub now td;; Ok (Some d)
                | None => Ok None
                end
            | None => Ok None
            end
        end
    end.

(* ------------------------------------------------------------------ *)
(** ** [AirtableTool._filter_records_by_date_range]

    [dateutil.parser.parse] is a parameter; [None] stands for the
    exception it raises on a string it cannot parse.  Every exception of the
    loop body (a failed parse, or the [TypeError] of comparing a naive with
    an aware value) is caught and the record skipped.  A raw record is
    [None] when it has no ["fields"] key, so [record.get("fields", {})] has
    no ["SentTime"]. *)

Section RecordsByDate.
Variable dateutil_parse : string -> option datetime.

Fixpoint filter_records_by_date_range (records : list (option announcement))
  (start_date end_date : datetime) : list (option announcement) :=
  match records with
  | [] => []
  | record :: r =>
      let filtered_records := filter_records_by_date_range r start_date end_date in
      let sent_time := match record with Some fields => SentTime fields | None => None end in
      match sent_time with
      | None => filtered_records
      | Some s =>
          if String.eqb s "" then filtered_records
          else match dateutil_parse s with
               | None => filtered_records
               | Some sent_datetime =>
                   let sent_datetime :=
                     match dt_tz sent_datetime with
                     | None => replace_tz sent_datetime UTC
                     | Some _ => sent_datetime
                     end in
                   match (b1 <- dt_le start_date sent_datetime;;
                          if b1 then dt_lt sent_datetime end_date else Ok false) with
                   | Ok true => record :: filtered_records
                   | Ok false => filtered_records
                   | Error _ => filtered_records
                   end
               end
      end
  end.
End RecordsByDate.

(* ------------------------------------------------------------------ *)
(** ** [DateUtils.parse_date_time] and [DateUtils.extract_date_time_range]

    The library calls are parameters: [fromisoformat text]
    ([datetime.fromisoformat]), [strptime text fmt] ([datetime.strptime]),
    [None] standing for the [ValueError] they raise; [re_search pattern
    text] is [re.search(pattern, text, re.IGNORECASE)] returning groups 1
    and 2 of the match.  [now] is [datetime.now()]. *)

Section DateParsing.
Variable fromisoformat : string -> option datetime.
Variable strptime : string -> string -> option datetime.
Variable re_search : string -> string -> option (string * string).
Variable now : datetime.

Definition PARSE_FORMATS : list string :=
  ["%Y-%m-%d %H:%M:%S"; "%Y-%m-%d %H:%M"; "%Y-%m-%d";
   "%m/%d/%Y %H:%M:%S"; "%m/%d/%Y %H:%M"; "%m/%d/%Y";
   "%d-%m-%Y %H:%M:%S"; "%d-%m-%Y %H:%M"; "%d-%m-%Y";
   "%b %d, %Y"; "%d %b %Y"; "%B %d, %Y"; "%d %B %Y"]%string.

(** [for fmt in formats: try: return datetime.strptime(text, fmt)
    except ValueError: continue] *)
Fixpoint try_formats (text : string) (formats : list string) : option datetime :=
  match formats with
  | [] => None
  | fmt :: r =>
      match strptime text fmt with
      | Some d => Some d
      | None => try_formats text r
      end
  end.

Definition parse_date_time (text : string) : result (option datetime) :=
  match fromisoformat text with
  | Some d => Ok (Some d)
  | None =>
      match try_formats text PARSE_FORMATS with
      | Some d => Ok (Some d)
      | None => parse_natural_language_date now text
      end
  end.

Definition RELATIVE_PERIODS : list string :=
  ["today"; "yesterday";
   "this week"; "last week"; "next week";
   "this month"; "last month"; "next month";
   "this year"; "last year";
   "this_week"; "last_week"; "next_week";
   "this_month"; "last_month"; "next_month";
   "this_year"; "last_year"]%string.

Definition FROM_TO_RE : string := "from\s+(.+?)\s+to\s+(.+?)(?:\s|$)".
Definition BETWEEN_RE : string := "between\s+(.+?)\s+and\s+(.+?)(?:\s|$)".
Definition ON_AT_RE : string := "on\s+(.+?)\s+at\s+(.+?)(?:\s|$)".

Definition TIME_FORMATS : list string := ["%H:%M"; "%H:%M:%S"; "%I:%M %p"; "%I:%M:%S %p"]%string.

(** [datetime.combine(date_dt.date(), time_dt.time())]: the date of the
    first, the wall-clock time of the second, no [tzinfo]. *)
Definition combine (date_dt time_dt : datetime) : datetime :=
  mk_dt (dt_local date_dt / DAY * DAY + dt_local time_dt mod DAY) None.

(** The time-format loop of the "on X at Y" case: [Ok None] when no format
    parses.  Only [ValueError] is caught, so the [OverflowError] of
    [start_dt + timedelta(hours=1)] propagates. *)
Fixpoint try_time_formats (date_dt : datetime) (time_text : string) (formats : list string)
  : result (option (datetime * datetime)) :=
  match formats with
  | [] => Ok None
  | fmt :: r =>
      match strptime time_text fmt with
      | None => try_time_formats date_dt time_text r
      | Some time_dt =>
          let start_dt := combine date_dt time_dt in
          end_dt <- dt_add start_dt HOUR;;
          Ok (Some (start_dt, end_dt))
      end
  end.

Definition extract_date_time_range (text : string) : result (option datetime * option datetime) :=
  let text := strip (lower text) in
  match find (fun period => String.eqb text period) RELATIVE_PERIODS with
  | Some period =>
      date_range <- get_date_range now period false;;
      Ok (Some (fst date_range), Some (snd date_range))
  | None =>
      match re_search FROM_TO_RE text with
      | Some (start_text, end_text) =>
          start_dt <- parse_date_time start_text;;
          end_dt <- parse_date_time end_text;;
          Ok (start_dt, end_dt)
      | None =>
          match re_search BETWEEN_RE text with
          | Some (start_text, end_text) =>
              start_dt <- parse_date_time start_text;;
              end_dt <- parse_date_time end_text;;
              Ok (start_dt, end_dt)
          | None =>
              on_at <- match re_search ON_AT_RE text with
                       | Some (date_text, time_text) =>
                           date_dt <- parse_date_time date_text;;
                           match date_dt with
                           | Some date_dt => try_time_formats date_dt time_text TIME_FORMATS
                           | None => Ok None
                           end
                       | None => Ok None
                       end;;
              match on_at with
              | Some (start_dt, end_dt) => Ok (Some start_dt, Some end_dt)
              | None =>
                  single_dt <- parse_date_time text;;
                  match single_dt with
                  | Some single_dt =>
                      start_dt <- start_of_day single_dt;;
                      end_dt <- end_of_day single_dt;;
                      Ok (Some start_dt, Some end_dt)
                  | None => Ok (None, None)
                  end
              end
          end
      end
  end.
End DateParsing.

(* ------------------------------------------------------------------ *)
(** ** [strftime] *)

(** A field of [strftime]: the decimal digits, zero-filled to [w] digits
    ([%Y] to four, as documented, [%m %d %H %M %S] to two).  For years
    below 1000 the C library's [%Y] may print fewer digits; the facts
    below about formatted years assume a year from 1000 on. *)
Definition zero_pad (w : nat) (z : Z) : string :=
  let s := str_of_Z z in
  String.append (string_of_list_ascii (repeat "0"%char (w - String.length s))) s.

(** [d.strftime('%Y-%m-%dT%H:%M:%S.000Z')] *)
Definition strftime_api (d : datetime) : string :=
  let '(y, m, dd) := dt_ymd d in
  (zero_pad 4 y ++ "-" ++ zero_pad 2 m ++ "-" ++ zero_pad 2 dd ++ "T" ++
   zero_pad 2 (dt_hour d) ++ ":" ++ zero_pad 2 (dt_minute d) ++ ":" ++
   zero_pad 2 (dt_second d) ++ ".000Z")%string.

(** [d.strftime('%Y-%m-%d')] *)
Definition strftime_ymd (d : datetime) : string :=
  let '(y, m, dd) := dt_ymd d in
  (zero_pad 4 y ++ "-" ++ zero_pad 2 m ++ "-" ++ zero_pad 2 dd)%string.

(** [calendar.month_name] (English locale), index 1..12. *)
Definition CALENDAR_MONTH_NAME : list string :=
  ["January"; "February"; "March"; "April"; "May"; "June"; "July";
   "August"; "September"; "October"; "November"; "December"]%string.

Definition calendar_month_name (m : Z) : string :=
  nth (Z.to_nat (m - 1)) CALENDAR_MONTH_NAME ""%string.

(* ------------------------------------------------------------------ *)
(** ** [AirtableTool.filter_announcements_by_date] and
    [AirtableTool.search_announcements]

    [client.get_records_with_formula(formula)] is a parameter; it may
    raise.  [extract_date_time_range], [parse_date_time] and [now_year]
    are as in the date filters. *)

Section FormulaTools.
Variable get_records_with_formula : string -> result (list (option announcement)).
Variable extract_date_time_range : string -> result (option datetime * option datetime).
Variable parse_date_time : string -> result (option datetime).
Variable now_year : Z.

(** [f"AND(IS_AFTER({{SentTime}}, '{start_date_str}'), IS_BEFORE({{SentTime}}, '{end_date_str}'))"] *)
Definition date_range_formula (start_date_str end_date_str : string) : string :=
  ("AND(IS_AFTER({SentTime}, '" ++ start_date_str ++ "'), IS_BEFORE({SentTime}, '"
   ++ end_date_str ++ "'))")%string.

(** Fetch with a formula and build the success dictionary; [what] ends the
    message. *)
Definition formula_response (formula what : string) : result response :=
  matched_records <- get_records_with_formula formula;;
  let anns := fields_of matched_records in
  Ok (mk_resp (Z.of_nat (length anns)) anns
        (Some ("Found " ++ str_of_nat (length anns) ++ " announcements " ++ what ++ "."))%string
        None).

(** The body of the [try] block. *)
Definition filter_announcements_by_date_body (date_query : string) : result response :=
  let date_query := strip (lower date_query) in
  match find_month date_query with
  | Some (_, month_num) =>
      let current_year := now_year in
      s <- datetime_new current_year month_num 1;;
      let start_date := replace_tz s UTC in
      e <- (if month_num =? 12 then datetime_new (current_year + 1) 1 1
            else datetime_new current_year (month_num + 1) 1);;
      let end_date := replace_tz e UTC in
      let formula := date_range_formula (strftime_api start_date) (strftime_api end_date) in
      formula_response formula ("from " ++ calendar_month_name month_num)
  | None =>
      r <- extract_date_time_range date_query;;
      match r with
      | (Some start_date, Some end_date) =>
          let start_date := replace_tz start_date UTC in
          let end_date := replace_tz end_date UTC in
          let formula := date_range_formula (strftime_api start_date) (strftime_api end_date) in
          formula_response formula
            ("between " ++ strftime_ymd start_date ++ " and " ++ strftime_ymd end_date)
      | _ =>
          single_date <- parse_date_time date_query;;
          match single_date with
          | Some single_date =>
              let single_date := replace_tz single_date UTC in
              next_day <- dt_add single_date DAY;;
              let formula :=
                date_range_formula (strftime_api single_date) (strftime_api next_day) in
              formula_response formula ("from " ++ strftime_ymd single_date)
          | None =>
              Ok (mk_resp 0 [] None
                    (Some ("Could not parse date query: '" ++ date_query
                           ++ "'. Please try a different format.")))
          end
      end
  end.

Definition filter_announcements_by_date (c : client) (date_query : string) : response :=
  if negb (airtable c) then
    mk_resp 0 [] None (Some "Error: Airtable connection not initialized.")
  else
    match filter_announcements_by_date_body date_query with
    | Ok resp => resp
    | Error e =>
        mk_resp 0 [] None (Some ("Error filtering announcements by date: " ++ exn_str e))
    end.

(** [s.replace(old, new)] for a one-character [old]. *)
Fixpoint replace_char (old : ascii) (new s : string) : string :=
  match s with
  | EmptyString => EmptyString
  | String c r =>
      if Ascii.eqb c old then (new ++ replace_char old new r)%string
      else String c (replace_char old new r)
  end.

(** [search_text.replace("'", "\\'")] *)
Definition escape_search_text (search_text : string) : string :=
  replace_char "'" "\'" search_text.

Definition search_formula (search_text : string) : string :=
  let escaped_search_text := escape_search_text search_text in
  ("OR(" ++
   "FIND(LOWER('" ++ escaped_search_text ++ "'), LOWER({Title})), " ++
   "FIND(LOWER('" ++ escaped_search_text ++ "'), LOWER({Description})), " ++
   "FIND(LOWER('" ++ escaped_search_text ++ "'), LOWER({SentByUser}))" ++
   ")")%string.

(** The method returns either a list of field dictionaries ([inl]) or a
    message string ([inr]). *)
Definition search_announcements (c : client) (search_text : string)
  : list announcement + string :=
  if negb (airtable c) then inr "Error: Airtable connection not initialized."%string
  else
    match get_records_with_formula (search_formula search_text) with
    | Error e =>
        inr ("Error searching announcements for '" ++ search_text ++ "': " ++ exn_str e)%string
    | Ok [] => inr ("No announcements found matching '" ++ search_text ++ "'.")%string
    | Ok matched_records => inl (fields_of matched_records)
    end.
End FormulaTools.

(* ------------------------------------------------------------------ *)
(** ** [AirtableTool._get_first_attachment_url]

    Field values are JSON-like Python values. *)

#[warnings="-register-all"]
Inductive pyval : Type :=
| PNone
| PStr (s : string)
| PList (l : list pyval)
| PDict (kvs : list (string * pyval))
| POther.

(** [d.get(k)] on a dictionary given by its items. *)
Definition dict_get (d : list (string * pyval)) (k : string) : option pyval :=
  option_map snd (find (fun kv => String.eqb (fst kv) k) d).

Definition ATTACHMENT_FIELD_NAMES : list string :=
  ["Attachments"; "Documents"; "Files"; "Attachment"]%string.

(** The loop over the candidate field names; [(PNone, PNone)] is
    [(None, None)]. *)
Fixpoint first_attachment_loop (record_fields : list (string * pyval))
  (field_names : list string) : pyval * pyval :=
  match field_names with
  | [] => (PNone, PNone)
  | field_name :: r =>
      match dict_get record_fields field_name with
      | Some (PList (first_attachment :: _)) =>
          match first_attachment with
          | PDict a =>
              match dict_get a "url" with
              | Some url =>
                  (url, match dict_get a "filename" with
                        | Some filename => filename
                        | None => PStr "downloaded_file"
                        end)
              | None => first_attachment_loop record_fields r
              end
          | _ => first_attachment_loop record_fields r
          end
      | _ => first_attachment_loop record_fields r
      end
  end.

Definition get_first_attachment_url (record_fields : list (string * pyval)) : pyval * pyval :=
  first_attachment_loop record_fields ATTACHMENT_FIELD_NAMES.

(** Helpers naming the branches of [parse_natural_language_date] and the
    filter of [_filter_records_by_date_range]. *)

Definition next_branch (now : datetime) (i : Z) : result (option datetime) :=
  let days_ahead := (i - weekday now) mod 7 in
  let days_ahead := if days_ahead =? 0 then 7 else days_ahead in
  today <- today_of now;; td <- timedelta_days days_ahead;; d <- dt_add today td;; Ok (Some d).

Definition last_branch (now : datetime) (i : Z) : result (option datetime) :=
  let days_behind := (weekday now - i) mod 7 in
  let days_behind := if days_behind =? 0 then 7 else days_behind in
  today <- today_of now;; td <- timedelta_days days_behind;; d <- dt_sub today td;; Ok (Some d).

Definition unit_factors : list (string * Z) :=
  [("day", 1); ("days", 1); ("week", 7); ("weeks", 7); ("month", 30); ("months", 30)]%string.

Definition record_in_range_utc (parse : string -> option datetime) (start_date end_date : datetime)
  (record : option announcement) : bool :=
  match record with Some a => in_range_utc parse start_date end_date a | None => false end.

(** The inverse of the escaping, to state that it loses nothing. *)
Fixpoint unescape_quotes (s : string) : string :=
  match s with
  | EmptyString => EmptyString
  | String c r =>
      match r with
      | String c' r' =>
          if Ascii.eqb c "\" && Ascii.eqb c' "'" then String "'" (unescape_quotes r')
          else String c (unescape_quotes r)
      | EmptyString => String c EmptyString
      end
  end.

(** Sample inputs. *)
Definition sample_now : datetime := mk_dt ((ymd2ord 2024 5 15 - 1) * DAY + 12 * HOUR) None.

Definition no_isoformat (_ : string) : option datetime := None.
Definition no_strptime (_ _ : string) : option datetime := None.
Definition no_search (_ _ : string) : option (string * string) := None.

Definition sample_on_at_search (pattern text : string) : option (string * string) :=
  if String.eqb pattern ON_AT_RE && String.eqb text "on today at 10:30"
  then Some ("today", "10:30")%string else None.

Definition sample_time_strptime (text fmt : string) : option datetime :=
  if String.eqb fmt "%H:%M" && String.eqb text "10:30"
  then Some (mk_dt ((ymd2ord 1900 1 1 - 1) * DAY + 10 * HOUR + 30 * MINUTE) None)
  else None.

Definition sample_attachment_fields : list (string * pyval) :=
  [("Attachments", PList [PDict [("filename", PStr "flyer.pdf")];
                          PDict [("url", PStr "https://example.org/flyer.pdf")]]);
   ("Files", PList [])]%string.

Close Scope Z_scope.

(* ================================================================== *)
(** * Facts about the string primitives *)

Lemma str_app_assoc (a b c : string) : (a ++ b) ++ c = a ++ (b ++ c).
Proof. induction a as [|x a IH]; simpl; [reflexivity | now rewrite IH]. Qed.

Lemma str_app_nil_r (a : string) : a ++ "" = a.
Proof. induction a as [|x a IH]; simpl; [reflexivity | now rewrite IH]. Qed.

Lemma prefix_app_iff (a b : string) : prefix a b = true <-> exists r, b = a ++ r.
Proof.
  revert b; induction a as [|c a IH]; intros b; destruct b as [|d b]; simpl.
  - split; intros; [exists ""; reflexivity | reflexivity].
  - split; intros; [exists (String d b); reflexivity | reflexivity].
  - split; [discriminate | intros [r Hr]; discriminate].
  - destruct (ascii_dec c d) as [->|Hne].
    + rewrite IH. split; intros [r Hr]; exists r; [now subst | now injection Hr].
    + split; [discriminate | intros [r Hr]; injection Hr; intros; congruence].
Qed.

(** [needle in hay] holds exactly when [hay] splits around [needle]. *)
Lemma contains_iff (a b : string) : contains a b = true <-> exists p r, b = p ++ a ++ r.
Proof.
  induction b as [|d b IH]; cbn [contains].
  - rewrite orb_false_r, prefix_app_iff. split.
    + intros [r Hr]. exists "", r. exact Hr.
    + intros [p [r Hr]]. destruct p; [exists r; exact Hr | discriminate].
  - rewrite orb_true_iff, prefix_app_iff, IH. split.
    + intros [[r Hr] | [p [r Hr]]].
      * exists "", r. exact Hr.
      * exists (String d p), r. simpl. now rewrite Hr.
    + intros [p [r Hr]]. destruct p as [|d' p].
      * left. exists r. exact Hr.
      * right. injection Hr as -> Hb. exists p, r. exact Hb.
Qed.

Lemma contains_empty (b : string) : contains "" b = true.
Proof. apply contains_iff. exists "", b. reflexivity. Qed.

Lemma contains_trans (a b c : string) :
  contains a b = true -> contains b c = true -> contains a c = true.
Proof.
  rewrite !contains_iff. intros [p [r ->]] [p' [r' ->]].
  exists (p' ++ p), (r ++ r'). now rewrite !str_app_assoc.
Qed.

Lemma contains_refl (a : string) : contains a a = true.
Proof. apply contains_iff. exists "", "". simpl. now rewrite str_app_nil_r. Qed.

Lemma lower_app (a b : string) : lower (a ++ b) = lower a ++ lower b.
Proof. induction a as [|x a IH]; simpl; [reflexivity | now rewrite IH]. Qed.

Lemma contains_lower (a b : string) :
  contains a b = true -> contains (lower a) (lower b) = true.
Proof.
  rewrite !contains_iff. intros [p [r ->]].
  exists (lower p), (lower r). now rewrite !lower_app.
Qed.

Lemma string_of_list_ascii_app (l1 l2 : list ascii) :
  string_of_list_ascii (l1 ++ l2) = string_of_list_ascii l1 ++ string_of_list_ascii l2.
Proof. induction l1 as [|x l1 IH]; simpl; [reflexivity | now rewrite IH]. Qed.

Lemma drop_spaces_suffix (l : list ascii) : exists p, l = (p ++ drop_spaces l)%list.
Proof.
  induction l as [|c l [p Hp]]; simpl.
  - exists []. reflexivity.
  - destruct (is_space c).
    + exists (c :: p). simpl. now rewrite <- Hp.
    + exists []. reflexivity.
Qed.

(** [s.strip()] is a substring of [s]. *)
Lemma contains_strip (s : string) : contains (strip s) s = true.
Proof.
  apply contains_iff. unfold strip.
  set (l := list_ascii_of_string s).
  destruct (drop_spaces_suffix l) as [p1 H1].
  set (d := drop_spaces l) in *.
  destruct (drop_spaces_suffix (rev d)) as [p2 H2].
  assert (Hd : d = (rev (drop_spaces (rev d)) ++ rev p2)%list).
  { rewrite <- rev_app_distr, <- H2, rev_involutive. reflexivity. }
  exists (string_of_list_ascii p1), (string_of_list_ascii (rev p2)).
  rewrite <- !string_of_list_ascii_app, <- Hd, <- H1.
  unfold l. symmetry. apply string_of_list_ascii_of_string.
Qed.

(* ================================================================== *)
(** * Facts about the stable descending sort *)

Section SortFacts.
Context {A : Type} (key : A -> Q).

Lemma insert_desc_perm (x : A) (l : list A) :
  Permutation (insert_desc key x l) (x :: l).
Proof.
  induction l as [|y r IH]; simpl; [reflexivity|].
  destruct (Qle_bool (key y) (key x)); [reflexivity|].
  rewrite IH. apply perm_swap.
Qed.

Lemma sort_desc_perm (l : list A) : Permutation (sort_desc key l) l.
Proof.
  induction l as [|x r IH]; simpl; [reflexivity|].
  rewrite insert_desc_perm. now apply perm_skip.
Qed.

Lemma Qle_bool_false_lt (a b : Q) : Qle_bool a b = false -> (b < a)%Q.
Proof.
  intros H. apply Qnot_le_lt. intros Hle. apply Qle_bool_iff in Hle. congruence.
Qed.

Lemma insert_desc_sorted (x : A) (l : list A) :
  Sorted (ranked key) l -> Sorted (ranked key) (insert_desc key x l).
Proof.
  induction 1 as [|y r Hs IH Hhd]; simpl.
  - repeat constructor.
  - destruct (Qle_bool (key y) (key x)) eqn:E.
    + constructor; [constructor; auto|].
      constructor. apply Qle_bool_iff. exact E.
    + apply Qle_bool_false_lt in E.
      constructor; [exact IH|].
      destruct r as [|z r']; simpl.
      * constructor. unfold ranked. now apply Qlt_le_weak.
      * destruct (Qle_bool (key z) (key x)); constructor.
        -- unfold ranked. now apply Qlt_le_weak.
        -- now inversion Hhd.
Qed.

Lemma sort_desc_sorted (l : list A) : Sorted (ranked key) (sort_desc key l).
Proof.
  induction l as [|x r IH]; simpl; [constructor|].
  now apply insert_desc_sorted.
Qed.

Lemma filter_insert_desc (q : Q) (x : A) (l : list A) :
  filter (same_score key q) (insert_desc key x l)
  = if same_score key q x then x :: filter (same_score key q) l else filter (same_score key q) l.
Proof.
  induction l as [|y r IH]; simpl.
  - destruct (same_score key q x); reflexivity.
  - destruct (Qle_bool (key y) (key x)) eqn:E; simpl; [reflexivity|].
    apply Qle_bool_false_lt in E.
    rewrite IH.
    destruct (same_score key q x) eqn:Ex; [|reflexivity].
    destruct (same_score key q y) eqn:Ey; [|reflexivity].
    exfalso. unfold same_score in Ex, Ey.
    apply Qeq_bool_iff in Ex, Ey.
    rewrite Ex, Ey in E. exact (Qlt_irrefl _ E).
Qed.

(** Stability: the records of any one score appear in input order. *)
Lemma sort_desc_stable (q : Q) (l : list A) :
  filter (same_score key q) (sort_desc key l) = filter (same_score key q) l.
Proof.
  induction l as [|x r IH]; simpl; [reflexivity|].
  rewrite filter_insert_desc, IH. reflexivity.
Qed.
End SortFacts.

Lemma sort_desc_map {A : Type} (key : A -> Q) (l : list A) :
  sort_desc snd (map (fun a => (a, key a)) l)
  = map (fun a => (a, key a)) (sort_desc key l).
Proof.
  induction l as [|x r IH]; simpl; [reflexivity|].
  rewrite IH. clear IH. generalize (sort_desc key r) as s.
  induction s as [|y s IHs]; simpl; [reflexivity|].
  destruct (Qle_bool (key y) (key x)); simpl; [reflexivity|].
  now rewrite IHs.
Qed.

(* ================================================================== *)
(** * The text stage as "keep positive scores, then stable sort" *)

Lemma score_loop_eq (p : string) (anns : list announcement) :
  score_loop p anns
  = map (fun a => (a, record_score p a)) (filter (positive_score p) anns).
Proof.
  induction anns as [|a r IH]; simpl; [reflexivity|].
  unfold positive_score at 1.
  destruct (negb (Qle_bool (record_score p a) 0)); simpl; now rewrite IH.
Qed.

Lemma map_fst_pair {A B : Type} (f : A -> B) (l : list A) :
  map fst (map (fun a => (a, f a)) l) = l.
Proof. induction l as [|x r IH]; simpl; [reflexivity | now rewrite IH]. Qed.

Lemma search_and_rank_eq (anns : list announcement) (search_text : string) :
  strip (lower search_text) <> "" ->
  search_and_rank_by_text anns search_text
  = sort_desc (record_score (strip (lower search_text)))
      (filter (positive_score (strip (lower search_text))) anns).
Proof.
  intros Hne. unfold search_and_rank_by_text.
  destruct (String.eqb_spec (strip (lower search_text)) "") as [E|_]; [contradiction|].
  rewrite score_loop_eq, sort_desc_map, map_fst_pair. reflexivity.
Qed.

(** With an empty phrase, [""] is in every text: every record scores 150. *)
Lemma record_score_empty (a : announcement) : (record_score "" a == 150)%Q.
Proof.
  unfold record_score, calculate_relevance_score.
  rewrite !contains_empty. reflexivity.
Qed.

Lemma search_and_rank_empty (anns : list announcement) (search_text : string) :
  strip (lower search_text) = "" -> search_and_rank_by_text anns search_text = anns.
Proof.
  intros E. unfold search_and_rank_by_text. rewrite E. reflexivity.
Qed.

Lemma positive_score_empty (a : announcement) : positive_score "" a = true.
Proof.
  unfold positive_score. apply negb_true_iff.
  destruct (Qle_bool (record_score "" a) 0) eqn:E; [|reflexivity].
  apply Qle_bool_iff in E. rewrite record_score_empty in E. destruct (E eq_refl).
Qed.

Lemma filter_positive_empty (anns : list announcement) :
  filter (positive_score "") anns = anns.
Proof.
  induction anns as [|a r IH]; simpl; [reflexivity|].
  now rewrite positive_score_empty, IH.
Qed.

Lemma Sorted_total {A : Type} (R : A -> A -> Prop) (l : list A) :
  (forall x y, R x y) -> Sorted R l.
Proof.
  intros HR. induction l as [|x r IH]; constructor; [exact IH|].
  destruct r; constructor. apply HR.
Qed.

(* ================================================================== *)
(** * Claims *)

(** C8: the text stage returns exactly the records whose relevance score is
    strictly positive (as a multiset), ordered by descending score, and the
    records of any one score keep their input order (stable sort).  The score
    is the one [_search_and_rank_by_text] computes, for the lower-cased,
    stripped phrase. *)
Theorem search_and_rank_positive_sorted_stable (anns : list announcement)
  (search_text : string) :
  Permutation (search_and_rank_by_text anns search_text)
    (filter (positive_score (strip (lower search_text))) anns) /\
  Sorted (ranked (record_score (strip (lower search_text))))
    (search_and_rank_by_text anns search_text) /\
  (forall q : Q,
     filter (same_score (record_score (strip (lower search_text))) q)
       (search_and_rank_by_text anns search_text)
     = filter (same_score (record_score (strip (lower search_text))) q)
         (filter (positive_score (strip (lower search_text))) anns)).
Proof.
  destruct (String.eqb_spec (strip (lower search_text)) "") as [E|Hne].
  - rewrite (search_and_rank_empty anns search_text E), E, filter_positive_empty.
    split; [reflexivity|]. split; [|reflexivity].
    apply Sorted_total. intros x y. unfold ranked.
    rewrite !record_score_empty. apply Qle_refl.
  - rewrite (search_and_rank_eq anns search_text Hne).
    split; [apply sort_desc_perm|]. split; [apply sort_desc_sorted|].
    intros q. apply sort_desc_stable.
Qed.

(** C6: the exact-phrase tier decides alone: when the phrase is a substring
    of the combined text the score is exactly 100, or 150 when the phrase is
    also in the title; the later tiers add nothing. *)
Theorem exact_phrase_tier_score (combined_text title original_phrase clean_phrase : string)
  (search_keywords : list string) :
  contains original_phrase combined_text = true ->
  (calculate_relevance_score combined_text title original_phrase clean_phrase search_keywords
   == if contains original_phrase title then 150 else 100)%Q.
Proof.
  intros H. unfold calculate_relevance_score. rewrite H.
  destruct (contains original_phrase title); reflexivity.
Qed.

Lemma exact_phrase_tier_score_witness :
  contains "math test" "math test  sierra" = true /\
  (calculate_relevance_score "math test  sierra" "math test" "math test" "math test"
     ["math"; "test"] == 150)%Q.
Proof.
  split; [reflexivity|].
  apply (exact_phrase_tier_score "math test  sierra" "math test" "math test" "math test"
           ["math"; "test"]).
  reflexivity.
Defined.

Lemma keyword_matches_loop_count (combined_text title : string) (kws : list string) :
  (keyword_matches_loop combined_text title kws == keyword_count combined_text title kws)%Q.
Proof.
  unfold keyword_matches_loop.
  assert (G : forall acc,
    (fold_left
       (fun keyword_matches keyword =>
          if contains keyword combined_text then
            let keyword_matches := (keyword_matches + 1)%Q in
            if contains keyword title then (keyword_matches + (1 # 2))%Q
            else keyword_matches
          else keyword_matches) kws acc
     == acc + keyword_count combined_text title kws)%Q).
  { induction kws as [|k r IH]; intros acc; simpl.
    - ring.
    - rewrite IH.
      destruct (contains k combined_text), (contains k title); simpl; ring. }
  rewrite G. ring.
Qed.

(** C4: in the multi-keyword tier (the exact phrase and the clean phrase are
    not in the combined text, and there are at least two keywords), with
    [count] the sum of 1 per keyword found in the combined text plus 0.5 per
    such keyword also in the title, accumulated exactly: the score is
    60 + 10 * (count - 2) when count >= 2 and 0 otherwise. *)
Theorem multi_keyword_tier_score (combined_text title original_phrase clean_phrase : string)
  (search_keywords : list string) :
  contains original_phrase combined_text = false ->
  (clean_phrase = "" \/ contains clean_phrase combined_text = false) ->
  (2 <= length search_keywords)%nat ->
  ((2 <= keyword_count combined_text title search_keywords)%Q ->
   (calculate_relevance_score combined_text title original_phrase clean_phrase search_keywords
    == 60 + 10 * (keyword_count combined_text title search_keywords - 2))%Q) /\
  ((keyword_count combined_text title search_keywords < 2)%Q ->
   (calculate_relevance_score combined_text title original_phrase clean_phrase search_keywords
    == 0)%Q).
Proof.
  intros H1 H2 H3.
  assert (Hclean : negb (String.eqb clean_phrase "") && contains clean_phrase combined_text
                   = false).
  { destruct H2 as [-> | ->]; [reflexivity | apply andb_false_r]. }
  assert (Hlen : (1 <? length search_keywords)%nat = true) by (apply Nat.ltb_lt; lia).
  pose proof (keyword_matches_loop_count combined_text title search_keywords) as Hc.
  unfold calculate_relevance_score. rewrite H1, Hclean, Hlen.
  split; intros Hle.
  - assert (Hb : Qle_bool 2 (keyword_matches_loop combined_text title search_keywords) = true).
    { apply Qle_bool_iff. rewrite Hc. exact Hle. }
    rewrite Hb. rewrite Hc. ring.
  - assert (Hb : Qle_bool 2 (keyword_matches_loop combined_text title search_keywords) = false).
    { destruct (Qle_bool _ _) eqn:E; [|reflexivity].
      apply Qle_bool_iff in E. rewrite Hc in E.
      exfalso. exact (Qlt_not_le _ _ Hle E). }
    rewrite Hb. reflexivity.
Qed.

Lemma multi_keyword_tier_score_witness :
  contains "fun cookie sale" "cookie and sale  sierra" = false /\
  ("fun cookie sale" = "" \/ contains "fun cookie sale" "cookie and sale  sierra" = false) /\
  (2 <= length ["fun"; "cookie"; "sale"])%nat /\
  (((2 <= keyword_count "cookie and sale  sierra" "cookie and sale" ["fun"; "cookie"; "sale"])%Q ->
    (calculate_relevance_score "cookie and sale  sierra" "cookie and sale" "fun cookie sale"
       "fun cookie sale" ["fun"; "cookie"; "sale"]
     == 60 + 10 * (keyword_count "cookie and sale  sierra" "cookie and sale"
                     ["fun"; "cookie"; "sale"] - 2))%Q) /\
   ((keyword_count "cookie and sale  sierra" "cookie and sale" ["fun"; "cookie"; "sale"] < 2)%Q ->
    (calculate_relevance_score "cookie and sale  sierra" "cookie and sale" "fun cookie sale"
       "fun cookie sale" ["fun"; "cookie"; "sale"] == 0)%Q)).
Proof.
  split; [reflexivity|]. split; [right; reflexivity|]. split; [simpl; lia|].
  apply multi_keyword_tier_score; [reflexivity | right; reflexivity | simpl; lia].
Defined.

Lemma filter_subseq {A : Type} (f : A -> bool) (l : list A) : subseq (filter f l) l.
Proof.
  induction l as [|x r IH]; simpl; [constructor|].
  destruct (f x); constructor; exact IH.
Qed.

Lemma filter_by_sender_filter (anns : list announcement) (sender_name : string) :
  filter_by_sender anns sender_name
  = filter (fun a => contains (lower sender_name) (lower (get_str (SentByUser a)))) anns.
Proof.
  unfold filter_by_sender. induction anns as [|a r IH]; simpl; [reflexivity|].
  now rewrite IH.
Qed.

(** C9: the sender filter keeps, in input order, exactly the input records
    whose lower-cased [SentByUser] contains the lower-cased sender name (a
    plain substring test, nothing fuzzy): its output is a sub-sequence of
    its input and every output record's sender contains the name. *)
Theorem filter_by_sender_spec (anns : list announcement) (sender_name : string) :
  filter_by_sender anns sender_name
  = filter (fun a => contains (lower sender_name) (lower (get_str (SentByUser a)))) anns /\
  subseq (filter_by_sender anns sender_name) anns /\
  Forall (fun a => contains (lower sender_name) (lower (get_str (SentByUser a))) = true)
    (filter_by_sender anns sender_name).
Proof.
  rewrite filter_by_sender_filter.
  split; [reflexivity|]. split; [apply filter_subseq|].
  apply Forall_forall. intros a Ha. apply filter_In in Ha. apply Ha.
Qed.

Lemma combined_filter_body_count pst ext pdt y c st sn dq r :
  combined_filter_body pst ext pdt y c st sn dq = Ok r ->
  count r = Z.of_nat (length (announcements r)).
Proof.
  unfold combined_filter_body, bind.
  destruct (structured_stages pst ext pdt y _ _ _) as [[anns steps]|e]; [|discriminate].
  destruct (text_stage _ _ _ _ _ _) as [anns' steps'].
  intros E. injection E as <-. reflexivity.
Qed.

(** C10: every dictionary [combined_filter_announcements] returns (success,
    connection not initialized, caught exception) has ["count"] equal to the
    length of its ["announcements"] list; the function is total, so no
    exception escapes.  The same holds for [get_all_announcements]. *)
Theorem combined_filter_count_consistent
  (parse_sent_time : string -> option datetime)
  (extract_date_time_range : string -> result (option datetime * option datetime))
  (parse_date_time : string -> result (option datetime)) (now_year : Z)
  (c : client) (search_text sender_name date_query : option string) :
  let resp := combined_filter_announcements parse_sent_time extract_date_time_range
                parse_date_time now_year c search_text sender_name date_query in
  count resp = Z.of_nat (length (announcements resp)) /\
  count (get_all_announcements c) = Z.of_nat (length (announcements (get_all_announcements c))).
Proof.
  split.
  - unfold combined_filter_announcements.
    destruct (negb (airtable c)); [reflexivity|].
    destruct (combined_filter_body _ _ _ _ c search_text sender_name date_query) eqn:E;
      [|reflexivity].
    exact (combined_filter_body_count _ _ _ _ _ _ _ _ _ E).
  - unfold get_all_announcements.
    destruct (negb (airtable c)); [reflexivity|].
    destruct (get_all_records c) as [[|r rs]|e]; reflexivity.
Qed.

Lemma get_all_announcements_ok (c : client) (raws : list (option announcement)) :
  airtable c = true -> get_all_records c = Ok raws ->
  announcements (get_all_announcements c) = fields_of raws.
Proof.
  intros Ha Hg. unfold get_all_announcements. rewrite Ha, Hg. simpl.
  destruct raws; reflexivity.
Qed.

Lemma given_strip_opt (s : string) :
  strip s <> "" -> given (strip_opt (Some s)) = Some (strip s).
Proof.
  intros Hne. unfold strip_opt.
  destruct (String.eqb_spec s "") as [->|_]; [exfalso; apply Hne; reflexivity|].
  unfold given. destruct (String.eqb_spec (strip s) "") as [E|_]; [contradiction | reflexivity].
Qed.

Lemma search_and_rank_nil (search_text : string) : search_and_rank_by_text [] search_text = [].
Proof.
  unfold search_and_rank_by_text. destruct (String.eqb _ _); reflexivity.
Qed.

Lemma contains_field_combined (x : string) (a : announcement) :
  contains x (lower (get_str (Title a))) = true \/
  contains x (lower (get_str (Description a))) = true \/
  contains x (lower (get_str (SentByUser a))) = true ->
  contains x (combined_text_of a) = true.
Proof.
  intros H. unfold combined_text_of, title_of.
  set (t := lower (get_str (Title a))) in *.
  set (d := lower (get_str (Description a))) in *.
  set (u := lower (get_str (SentByUser a))) in *.
  destruct H as [H | [H | H]]; apply (contains_trans _ _ _ H); apply contains_iff.
  - exists "", (" " ++ d ++ " " ++ u). reflexivity.
  - exists (t ++ " "), (" " ++ u). now rewrite str_app_assoc.
  - exists (t ++ " " ++ d ++ " "), "".
    rewrite str_app_nil_r, !str_app_assoc. reflexivity.
Qed.

(** A record containing the phrase is ranked, so the ranking is not empty. *)
Lemma search_and_rank_nonempty (anns : list announcement) (search_text : string)
  (a : announcement) :
  In a anns -> contains (strip (lower search_text)) (combined_text_of a) = true ->
  search_and_rank_by_text anns search_text <> [].
Proof.
  intros Hin Hc.
  destruct (String.eqb_spec (strip (lower search_text)) "") as [E|Hne].
  - rewrite (search_and_rank_empty anns search_text E). intros ->. destruct Hin.
  - rewrite (search_and_rank_eq anns search_text Hne).
    assert (Hpos : positive_score (strip (lower search_text)) a = true).
    { unfold positive_score, record_score, calculate_relevance_score.
      rewrite Hc. destruct (contains _ (title_of a)); reflexivity. }
    assert (Hf : In a (filter (positive_score (strip (lower search_text))) anns))
      by (apply filter_In; auto).
    intros E.
    apply (Permutation_in _ (Permutation_sym
             (sort_desc_perm (record_score (strip (lower search_text))) _))) in Hf.
    rewrite E in Hf. destruct Hf.
Qed.

(** C7: when a text search is given and the sender and/or date filters were
    applied and left the working set empty, the text search runs on the whole
    record set; so when the search text occurs (case-insensitively) in a
    field of some record, the result is not empty. *)
Theorem combined_filter_fallback
  (parse_sent_time : string -> option datetime)
  (extract_date_time_range : string -> result (option datetime * option datetime))
  (parse_date_time : string -> result (option datetime)) (now_year : Z)
  (c : client) (raws : list (option announcement)) (s : string)
  (sender_name date_query : option string) (steps : list string) :
  airtable c = true ->
  get_all_records c = Ok raws ->
  strip s <> "" ->
  is_given (strip_opt sender_name) || is_given (strip_opt date_query) = true ->
  structured_stages parse_sent_time extract_date_time_range parse_date_time now_year
    (fields_of raws) (strip_opt sender_name) (strip_opt date_query) = Ok ([], steps) ->
  announcements (combined_filter_announcements parse_sent_time extract_date_time_range
                   parse_date_time now_year c (Some s) sender_name date_query)
  = search_and_rank_by_text (fields_of raws) (strip s) /\
  (forall a, In a (fields_of raws) ->
     contains (lower (strip s)) (lower (get_str (Title a))) = true \/
     contains (lower (strip s)) (lower (get_str (Description a))) = true \/
     contains (lower (strip s)) (lower (get_str (SentByUser a))) = true ->
     announcements (combined_filter_announcements parse_sent_time extract_date_time_range
                      parse_date_time now_year c (Some s) sender_name date_query) <> []).
Proof.
  intros Ha Hg Hs Hgiven Hst.
  assert (Hres : announcements (combined_filter_announcements parse_sent_time
                   extract_date_time_range parse_date_time now_year c (Some s)
                   sender_name date_query)
                 = search_and_rank_by_text (fields_of raws) (strip s)).
  { unfold combined_filter_announcements. rewrite Ha. cbn [negb].
    unfold combined_filter_body. rewrite (get_all_announcements_ok c raws Ha Hg), Hst.
    cbn [bind].
    unfold text_stage. rewrite (given_strip_opt s Hs), Hgiven.
    destruct (fields_of raws) as [|r rs]; simpl.
    - symmetry. apply search_and_rank_nil.
    - reflexivity. }
  split; [exact Hres|].
  intros a Hin Hocc. rewrite Hres.
  apply (search_and_rank_nonempty _ _ a Hin).
  apply contains_field_combined.
  pose proof (contains_strip (lower (strip s))) as Hsub.
  destruct Hocc as [H | [H | H]]; [left | right; left | right; right];
    exact (contains_trans _ _ _ Hsub H).
Qed.

(** Evaluate the month name in a hypothesis to its literal. *)
Ltac eval_month_name H :=
  match type of H with
  | context [month_name ?k] =>
      let v := eval vm_compute in (month_name k) in change (month_name k) with v in H
  end.

Lemma find_month_first (q : string) (m : Z) :
  (1 <= m <= 12)%Z ->
  contains (month_name m) q = true ->
  (forall m', (1 <= m' < m)%Z -> contains (month_name m') q = false) ->
  find_month q = Some (month_name m, m).
Proof.
  intros Hm Hc Hprev.
  assert (Hcases : (m = 1 \/ m = 2 \/ m = 3 \/ m = 4 \/ m = 5 \/ m = 6 \/ m = 7 \/
                   m = 8 \/ m = 9 \/ m = 10 \/ m = 11 \/ m = 12)%Z) by lia.
  repeat destruct Hcases as [-> | Hcases]; try subst m;
    cbn [find_month find month_names fst];
    repeat (let E := fresh "E" in
            match goal with
            | |- context [if contains ?n q then _ else _] => destruct (contains n q) eqn:E
            end);
    first
      [ reflexivity
      | match goal with
        | |- Some (_, ?k) = _ =>
            let X := fresh in
            pose proof (Hprev k ltac:(lia)) as X; eval_month_name X; congruence
        end
      | eval_month_name Hc; congruence ].
Qed.

Lemma datetime_new_first (y m : Z) :
  (1 <= y <= MAXYEAR)%Z -> (1 <= m <= 12)%Z ->
  datetime_new y m 1 = Ok (mk_dt ((ymd2ord y m 1 - 1) * DAY) None).
Proof.
  intros Hy Hm. unfold datetime_new.
  assert (Hd : (1 <= days_in_month y m)%Z).
  { assert (Hcases : (m = 1 \/ m = 2 \/ m = 3 \/ m = 4 \/ m = 5 \/ m = 6 \/ m = 7 \/
                     m = 8 \/ m = 9 \/ m = 10 \/ m = 11 \/ m = 12)%Z) by lia.
    unfold days_in_month.
    repeat destruct Hcases as [-> | Hcases]; try subst m; simpl;
      try destruct (is_leap y); simpl; lia. }
  replace ((1 <=? y)%Z && (y <=? MAXYEAR)%Z) with true
    by (symmetry; apply andb_true_iff; split; apply Z.leb_le; lia).
  replace ((1 <=? m)%Z && (m <=? 12)%Z) with true
    by (symmetry; apply andb_true_iff; split; apply Z.leb_le; lia).
  replace ((1 <=? 1)%Z && (1 <=? days_in_month y m)%Z) with true
    by (symmetry; apply andb_true_iff; split; apply Z.leb_le; lia).
  reflexivity.
Qed.

(** C5 (as the code does it): when the lower-cased query contains the full
    name of month [m] and no name of an earlier month, the date filter is the
    range filter over [[first day of m in the current year, first day of the
    next month)] (December: January 1 of the next year), whatever else the
    query says; the current year is a valid [datetime] year below 9999. *)
Theorem filter_by_date_month_name
  (parse_sent_time : string -> option datetime)
  (extract_date_time_range : string -> result (option datetime * option datetime))
  (parse_date_time : string -> result (option datetime)) (now_year : Z)
  (anns : list announcement) (date_query : string) (m : Z) :
  (1 <= now_year < MAXYEAR)%Z ->
  (1 <= m <= 12)%Z ->
  contains (month_name m) (date_query_key date_query) = true ->
  (forall m', (1 <= m' < m)%Z -> contains (month_name m') (date_query_key date_query) = false) ->
  filter_by_date parse_sent_time extract_date_time_range parse_date_time now_year anns date_query
  = filter_by_date_range parse_sent_time anns (month_start now_year m) (month_end now_year m).
Proof.
  intros Hy Hm Hc Hprev.
  unfold filter_by_date. fold (date_query_key date_query).
  rewrite (find_month_first _ m Hm Hc Hprev).
  unfold filter_by_month.
  rewrite (datetime_new_first now_year m) by (unfold MAXYEAR in *; lia).
  cbn [bind]. unfold month_end.
  destruct (Z.eqb_spec m 12) as [->|Hne].
  - rewrite (datetime_new_first (now_year + 1) 1) by (unfold MAXYEAR in *; lia).
    reflexivity.
  - rewrite (datetime_new_first now_year (m + 1)) by (unfold MAXYEAR in *; lia).
    reflexivity.
Qed.

Lemma filter_by_date_month_name_witness :
  (1 <= 2025 < MAXYEAR)%Z /\ (1 <= 5 <= 12)%Z /\
  contains (month_name 5) (date_query_key "last week in May") = true /\
  (forall m', (1 <= m' < 5)%Z -> contains (month_name m') (date_query_key "last week in May") = false) /\
  filter_by_date sample_parse_sent_time no_range no_date 2025 [lunch_ann; trip_ann]
    "last week in May"
  = filter_by_date_range sample_parse_sent_time [lunch_ann; trip_ann]
      (month_start 2025 5) (month_end 2025 5).
Proof.
  assert (Hy : (1 <= 2025 < MAXYEAR)%Z) by (unfold MAXYEAR; lia).
  assert (Hm : (1 <= 5 <= 12)%Z) by lia.
  assert (Hc : contains (month_name 5) (date_query_key "last week in May") = true)
    by reflexivity.
  assert (Hp : forall m', (1 <= m' < 5)%Z ->
                 contains (month_name m') (date_query_key "last week in May") = false).
  { intros m' Hm'.
    assert (Hcases : (m' = 1 \/ m' = 2 \/ m' = 3 \/ m' = 4)%Z) by lia.
    repeat destruct Hcases as [-> | Hcases]; try subst m'; reflexivity. }
  split; [exact Hy|]. split; [exact Hm|]. split; [exact Hc|]. split; [exact Hp|].
  exact (filter_by_date_month_name sample_parse_sent_time no_range no_date 2025
           [lunch_ann; trip_ann] "last week in May" 5 Hy Hm Hc Hp).
Defined.

(** C5, as stated, fails when the query names two months: "from May to June"
    contains "june", but the filter uses May, the first month in calendar
    order, and drops a record sent in June. *)
Lemma month_query_two_months_counterexample :
  contains (month_name 6) (date_query_key "from May to June") = true /\
  filter_by_date sample_parse_sent_time no_range no_date 2025 [trip_ann] "from May to June"
  = Ok [] /\
  filter_by_date_range sample_parse_sent_time [trip_ann] (month_start 2025 6) (month_end 2025 6)
  = Ok [trip_ann].
Proof. split; [reflexivity|]. split; vm_compute; reflexivity. Qed.

Lemma filter_by_date_unparsed
  (parse_sent_time : string -> option datetime)
  (extract_date_time_range : string -> result (option datetime * option datetime))
  (parse_date_time : string -> result (option datetime)) (now_year : Z)
  (anns : list announcement) (date_query : string) (s e : option datetime) :
  find_month (date_query_key date_query) = None ->
  extract_date_time_range (date_query_key date_query) = Ok (s, e) ->
  s = None \/ e = None ->
  parse_date_time (date_query_key date_query) = Ok None ->
  filter_by_date parse_sent_time extract_date_time_range parse_date_time now_year anns date_query
  = Ok anns.
Proof.
  intros Hm Hx Hse Hp. unfold filter_by_date. fold (date_query_key date_query).
  rewrite Hm, Hx. cbn [bind].
  assert (Hr : match (s, e) with
               | (Some start_date, Some end_date) =>
                   filter_by_date_range parse_sent_time anns start_date end_date
               | _ =>
                   single <- parse_date_time (date_query_key date_query);;
                   match single with
                   | Some single_date =>
                       next_day <- dt_add single_date DAY;;
                       filter_by_date_range parse_sent_time anns single_date next_day
                   | None => Ok anns
                   end
               end
               = (single <- parse_date_time (date_query_key date_query);;
                  match single with
                  | Some single_date =>
                      next_day <- dt_add single_date DAY;;
                      filter_by_date_range parse_sent_time anns single_date next_day
                  | None => Ok anns
                  end)).
  { destruct Hse as [-> | ->]; [reflexivity|]. destruct s; reflexivity. }
  rewrite Hr, Hp. reflexivity.
Qed.

(** C1 (as the code does it): when the query names no month and neither
    [DateUtils.extract_date_time_range] nor [DateUtils.parse_date_time]
    yields a date, the date stage returns its working set unchanged (it only
    logs a warning) and still appends ["date '<query>'"] to the filter steps;
    with no other criterion the pipeline returns every record, with the
    success message "Found N announcements matching date '<query>'." and no
    error. *)
Theorem unparsed_date_query_ignored
  (parse_sent_time : string -> option datetime)
  (extract_date_time_range : string -> result (option datetime * option datetime))
  (parse_date_time : string -> result (option datetime)) (now_year : Z)
  (c : client) (raws : list (option announcement)) (date_query : string)
  (s e : option datetime) :
  airtable c = true ->
  get_all_records c = Ok raws ->
  strip date_query <> "" ->
  find_month (date_query_key (strip date_query)) = None ->
  extract_date_time_range (date_query_key (strip date_query)) = Ok (s, e) ->
  s = None \/ e = None ->
  parse_date_time (date_query_key (strip date_query)) = Ok None ->
  (forall anns steps,
     date_stage parse_sent_time extract_date_time_range parse_date_time now_year
       anns (strip_opt (Some date_query)) steps
     = Ok (anns, app steps ["date '" ++ strip date_query ++ "'"])) /\
  combined_filter_announcements parse_sent_time extract_date_time_range
    parse_date_time now_year c None None (Some date_query)
  = mk_resp (Z.of_nat (length (fields_of raws))) (fields_of raws)
      (Some ("Found " ++ str_of_nat (length (fields_of raws))
             ++ " announcements matching date '" ++ strip date_query ++ "'."))
      None.
Proof.
  intros Ha Hg Hne Hm Hx Hse Hp.
  assert (Hq : String.eqb date_query "" = false).
  { destruct (String.eqb_spec date_query "") as [->|]; [|reflexivity].
    exfalso. apply Hne. reflexivity. }
  assert (Hs : String.eqb (strip date_query) "" = false) by (apply String.eqb_neq; exact Hne).
  assert (Hstage : forall anns steps,
     date_stage parse_sent_time extract_date_time_range parse_date_time now_year
       anns (strip_opt (Some date_query)) steps
     = Ok (anns, app steps ["date '" ++ strip date_query ++ "'"])).
  { intros anns steps. unfold date_stage, strip_opt. rewrite Hq.
    unfold given. rewrite Hs.
    rewrite (filter_by_date_unparsed parse_sent_time extract_date_time_range parse_date_time
               now_year anns (strip date_query) s e Hm Hx Hse Hp).
    reflexivity. }
  split; [exact Hstage|].
  unfold combined_filter_announcements. rewrite Ha. cbn [negb].
  unfold combined_filter_body. rewrite (get_all_announcements_ok c raws Ha Hg).
  unfold structured_stages.
  change (sender_stage (fields_of raws) (strip_opt None) []) with (fields_of raws, @nil string).
  cbv beta iota zeta.
  rewrite Hstage. cbn [bind app].
  unfold text_stage, strip_opt, given, prepare_response. cbn [String.concat].
  rewrite !str_app_assoc. reflexivity.
Qed.

Lemma unparsed_date_query_ignored_witness :
  airtable sample_client = true /\
  get_all_records sample_client = Ok [Some lunch_ann] /\
  strip "nonsense query xyz" <> "" /\
  find_month (date_query_key (strip "nonsense query xyz")) = None /\
  no_range (date_query_key (strip "nonsense query xyz")) = Ok (None, None) /\
  ((None : option datetime) = None \/ (None : option datetime) = None) /\
  no_date (date_query_key (strip "nonsense query xyz")) = Ok None /\
  combined_filter_announcements sample_parse_sent_time no_range no_date 2025
    sample_client None None (Some "nonsense query xyz")
  = mk_resp (Z.of_nat (length (fields_of [Some lunch_ann]))) (fields_of [Some lunch_ann])
      (Some ("Found " ++ str_of_nat (length (fields_of [Some lunch_ann]))
             ++ " announcements matching date '" ++ strip "nonsense query xyz" ++ "'."))
      None.
Proof.
  assert (H1 : airtable sample_client = true) by reflexivity.
  assert (H2 : get_all_records sample_client = Ok [Some lunch_ann]) by reflexivity.
  assert (H0 : strip "nonsense query xyz" <> "") by (vm_compute; discriminate).
  assert (H3 : find_month (date_query_key (strip "nonsense query xyz")) = None)
    by (vm_compute; reflexivity).
  assert (H4 : no_range (date_query_key (strip "nonsense query xyz")) = Ok (None, None))
    by reflexivity.
  assert (H5 : (None : option datetime) = None \/ (None : option datetime) = None)
    by (left; reflexivity).
  assert (H6 : no_date (date_query_key (strip "nonsense query xyz")) = Ok None)
    by reflexivity.
  do 7 (split; [assumption|]).
  exact (proj2 (unparsed_date_query_ignored sample_parse_sent_time no_range no_date
                  2025 sample_client [Some lunch_ann] "nonsense query xyz" None None
                  H1 H2 H0 H3 H4 H5 H6)).
Defined.

(** C1, as stated, fails: a query no stage parses ("nonsense query xyz":
    no month name; [DateUtils] finds no period, no from/between/on pattern, no
    date format and no natural-language form in it, so both return nothing)
    yields every record and a success message, not zero results and an
    error. *)
Lemma unparsed_date_query_counterexample :
  combined_filter_announcements sample_parse_sent_time no_range no_date 2025 sample_client
    None None (Some "nonsense query xyz")
  = mk_resp 1 [lunch_ann]
      (Some "Found 1 announcements matching date 'nonsense query xyz'.") None.
Proof. vm_compute. reflexivity. Qed.

(** C2 (as the code does it): a phrase that is empty after [lower().strip()]
    is not scored at all, the text stage returns its input unchanged; with an
    empty keyword list only the exact-phrase and clean-phrase tiers can
    score, so the score is 0 unless one of those phrases occurs. *)
Theorem empty_phrase_or_keywords (anns : list announcement) (search_text p : string)
  (a : announcement) :
  (strip (lower search_text) = "" -> search_and_rank_by_text anns search_text = anns) /\
  (search_keywords_of p = [] ->
   (record_score p a
    == if contains p (combined_text_of a) then
         (if contains p (title_of a) then 150 else 100)
       else if negb (String.eqb (clean_phrase_of p) "")
               && contains (clean_phrase_of p) (combined_text_of a) then
         (if contains (clean_phrase_of p) (title_of a) then 120 else 80)
       else 0)%Q).
Proof.
  split; [apply search_and_rank_empty|].
  intros Hk. unfold record_score, calculate_relevance_score. rewrite Hk. simpl length.
  cbv zeta.
  destruct (contains p (combined_text_of a)); [destruct (contains p (title_of a)); reflexivity|].
  destruct (negb (String.eqb (clean_phrase_of p) "")
            && contains (clean_phrase_of p) (combined_text_of a));
    [destruct (contains (clean_phrase_of p) (title_of a)); reflexivity|].
  reflexivity.
Qed.

Lemma empty_phrase_or_keywords_witness :
  strip (lower "   ") = "" /\ search_and_rank_by_text [naive_ann] "   " = [naive_ann] /\
  search_keywords_of "on" = [] /\ (record_score "on" lunch_ann == 150)%Q.
Proof.
  assert (H1 : strip (lower "   ") = "") by reflexivity.
  assert (H2 : search_keywords_of "on" = []) by reflexivity.
  split; [exact H1|].
  split; [exact (proj1 (empty_phrase_or_keywords [naive_ann] "   " "on" lunch_ann) H1)|].
  split; [exact H2|].
  exact (proj2 (empty_phrase_or_keywords [naive_ann] "   " "on" lunch_ann) H2).
Defined.

(** C2, as stated, fails: "on" is a stop word, so its keyword list is empty,
    yet a record containing "on" scores 150; an empty phrase is contained in
    every text (score 150), and a blank phrase makes the text stage return
    every record. *)
Lemma empty_keywords_counterexample :
  search_keywords_of "on" = [] /\ (record_score "on" lunch_ann == 150)%Q /\
  (record_score "" naive_ann == 150)%Q /\
  search_and_rank_by_text [naive_ann] "   " = [naive_ann].
Proof. split; [|split; [|split]]; reflexivity. Qed.

(** A parsed timestamp without offset makes the range filter raise
    [TypeError]: the bounds are made offset-aware, the parsed value is not. *)
Lemma naive_sent_time_raises (parse_sent_time : string -> option datetime)
  (anns : list announcement) (start_date end_date : datetime) (a : announcement)
  (s : string) (t : datetime) :
  SentTime a = Some s -> s <> "" -> parse_sent_time s = Some t -> dt_tz t = None ->
  filter_by_date_range parse_sent_time (a :: anns) start_date end_date
  = Error naive_aware_error.
Proof.
  intros Hs Hne Hp Ht. unfold filter_by_date_range. cbn [filter_by_date_range_loop].
  rewrite Hs. destruct (String.eqb_spec s "") as [E|_]; [contradiction|].
  rewrite Hp. unfold dt_le, dt_compare. rewrite Ht.
  destruct (dt_tz start_date) eqn:E; cbn [replace_tz dt_tz]; rewrite ?E; reflexivity.
Qed.

Lemma filter_by_date_range_loop_aware (parse_sent_time : string -> option datetime)
  (anns : list announcement) (start_date end_date : datetime) :
  dt_tz start_date <> None -> dt_tz end_date <> None ->
  (forall a s t, In a anns -> SentTime a = Some s -> parse_sent_time s = Some t ->
                 dt_tz t <> None) ->
  filter_by_date_range_loop parse_sent_time anns start_date end_date
  = Ok (filter (in_range_utc parse_sent_time start_date end_date) anns).
Proof.
  intros HA HB. induction anns as [|a r IH]; intros Haw; [reflexivity|].
  cbn [filter_by_date_range_loop filter].
  rewrite IH by (intros a' s t Hin; apply Haw; right; exact Hin).
  unfold in_range_utc.
  destruct (SentTime a) as [s|] eqn:Hs; [|reflexivity].
  destruct (String.eqb s ""); [reflexivity|].
  destruct (parse_sent_time s) as [t|] eqn:Hp; [|reflexivity].
  pose proof (Haw a s t (or_introl eq_refl) Hs Hp) as Ht.
  unfold dt_le, dt_lt, dt_compare, utc_instant.
  destruct (dt_tz start_date) as [oa|]; [|contradiction].
  destruct (dt_tz end_date) as [ob|]; [|contradiction].
  destruct (dt_tz t) as [ot|]; [|contradiction].
  cbn [bind]. destruct (dt_local start_date - oa <=? dt_local t - ot)%Z; reflexivity.
Qed.

Lemma utc_instant_make_aware (d : datetime) :
  utc_instant (match dt_tz d with None => replace_tz d UTC | Some _ => d end) = utc_instant d.
Proof.
  unfold utc_instant. destruct (dt_tz d) eqn:E; cbn [replace_tz dt_tz dt_local UTC];
    rewrite ?E; lia.
Qed.

(** For offset-aware parsed timestamps the range filter is the spec's
    [start <= parsed < end] test on UTC instants. *)
Lemma filter_by_date_range_aware (parse_sent_time : string -> option datetime)
  (anns : list announcement) (start_date end_date : datetime) :
  (forall a s t, In a anns -> SentTime a = Some s -> parse_sent_time s = Some t ->
                 dt_tz t <> None) ->
  filter_by_date_range parse_sent_time anns start_date end_date
  = Ok (filter (in_range_utc parse_sent_time start_date end_date) anns).
Proof.
  intros Haw. unfold filter_by_date_range.
  rewrite filter_by_date_range_loop_aware;
    [| destruct (dt_tz start_date) eqn:E; cbn [replace_tz dt_tz]; rewrite ?E; discriminate
     | destruct (dt_tz end_date) eqn:E; cbn [replace_tz dt_tz]; rewrite ?E; discriminate
     | exact Haw].
  f_equal. apply filter_ext. intros a. unfold in_range_utc.
  rewrite !utc_instant_make_aware. reflexivity.
Qed.

(** C3 (code defect): "2025-05-10" parses (via [dateutil]) to a naive
    value which, taken as UTC, lies in [2025-05-01, 2025-06-01); yet the
    pipeline with date query "May" (current year 2025) fails with
    [TypeError] and returns no record instead of keeping it. *)
Theorem naive_sent_time_pipeline_error :
  sample_parse_sent_time "2025-05-10" = Some (mk_dt ((ymd2ord 2025 5 10 - 1) * DAY)%Z None) /\
  in_range_utc sample_parse_sent_time (month_start 2025 5) (month_end 2025 5) naive_ann = true /\
  combined_filter_announcements sample_parse_sent_time no_range no_date 2025
    (mk_client true (Ok [Some naive_ann])) None None (Some "May")
  = mk_resp 0 [] None
      (Some "Error filtering announcements: can't compare offset-naive and offset-aware datetimes").
Proof. split; [reflexivity|]. split; vm_compute; reflexivity. Qed.

Lemma combined_filter_fallback_witness :
  airtable sample_client = true /\
  get_all_records sample_client = Ok [Some lunch_ann] /\
  strip "lunch" <> "" /\
  is_given (strip_opt (Some "Nonexistent Person")) || is_given (strip_opt None) = true /\
  structured_stages sample_parse_sent_time no_range no_date 2025 (fields_of [Some lunch_ann])
    (strip_opt (Some "Nonexistent Person")) (strip_opt None)
  = Ok ([], ["sender 'Nonexistent Person'"]) /\
  announcements (combined_filter_announcements sample_parse_sent_time no_range no_date 2025
                   sample_client (Some "lunch") (Some "Nonexistent Person") None) <> [].
Proof.
  assert (H1 : airtable sample_client = true) by reflexivity.
  assert (H2 : get_all_records sample_client = Ok [Some lunch_ann]) by reflexivity.
  assert (H3 : strip "lunch" <> "") by (vm_compute; discriminate).
  assert (H4 : is_given (strip_opt (Some "Nonexistent Person")) || is_given (strip_opt None)
               = true) by reflexivity.
  assert (H5 : structured_stages sample_parse_sent_time no_range no_date 2025
                 (fields_of [Some lunch_ann]) (strip_opt (Some "Nonexistent Person"))
                 (strip_opt None)
               = Ok ([], ["sender 'Nonexistent Person'"])) by (vm_compute; reflexivity).
  do 5 (split; [assumption|]).
  apply (proj2 (combined_filter_fallback sample_parse_sent_time no_range no_date 2025
                  sample_client [Some lunch_ann] "lunch" (Some "Nonexistent Person") None
                  ["sender 'Nonexistent Person'"] H1 H2 H3 H4 H5) lunch_ann).
  - left. reflexivity.
  - left. vm_compute. reflexivity.
Defined.

(* ================================================================== *)
(** * Facts about the date utilities and the Airtable tool methods *)

Open Scope Z_scope.

(** [_ord2ymd] *)

(** The month/day part of [_ord2ymd], for a day [n] of a year. *)

Lemma ord2ymd_unfold (n : Z) :
  ord2ymd n =
  (let n := n - 1 in
   let n400 := n / DI400Y in
   let n := n mod DI400Y in
   let n100 := n / DI100Y in
   let n := n mod DI100Y in
   let n4 := n / DI4Y in
   let n := n mod DI4Y in
   let n1 := n / 365 in
   let n := n mod 365 in
   let year := n400 * 400 + 1 + n100 * 100 + n4 * 4 + n1 in
   if (n1 =? 4) || (n100 =? 4) then (year - 1, 12, 31)
   else let '(m, d) := ymd_tail ((n1 =? 3) && (negb (n4 =? 24) || (n100 =? 3))) n in
        (year, m, d)).
Proof.
  unfold ord2ymd, ymd_tail. cbv zeta.
  repeat match goal with |- context [if ?c then _ else _] => destruct c end; reflexivity.
Qed.

Lemma days_in_month_l y m : days_in_month y m = dim_l (is_leap y) m.
Proof. reflexivity. Qed.

Lemma days_before_month_l y m : days_before_month y m = dbm_l (is_leap y) m.
Proof. reflexivity. Qed.

Ltac month_cases m :=
  let H := fresh in
  assert (H : m = 1 \/ m = 2 \/ m = 3 \/ m = 4 \/ m = 5 \/ m = 6 \/ m = 7 \/
              m = 8 \/ m = 9 \/ m = 10 \/ m = 11 \/ m = 12) by lia;
  repeat destruct H as [-> | H]; try subst m.

Lemma dim_l_bounds leap m : 1 <= m <= 12 -> 28 <= dim_l leap m <= 31.
Proof. intros Hm. month_cases m; destruct leap; cbv; split; discriminate. Qed.

Lemma dbm_dim_l leap m : 1 <= m <= 12 ->
  0 <= dbm_l leap m /\ dbm_l leap m + dim_l leap m <= 365 + (if leap then 1 else 0).
Proof. intros Hm. month_cases m; destruct leap; cbv; split; discriminate. Qed.

Lemma dbm_l_succ leap m : 1 <= m < 12 -> dbm_l leap (m + 1) = dbm_l leap m + dim_l leap m.
Proof. intros Hm. month_cases m; try lia; destruct leap; reflexivity. Qed.

Lemma all_range_spec f lo p :
  all_range f lo p = true -> forall n, lo <= n < lo + Zpos p -> f n = true.
Proof.
  revert lo; induction p as [q IH|q IH|]; intros lo H n Hn; simpl in H.
  - apply andb_true_iff in H as [H H3]. apply andb_true_iff in H as [H1 H2].
    rewrite Pos2Z.inj_xI in Hn.
    destruct (Z.eq_dec n lo) as [->|]; [exact H1|].
    destruct (Z_lt_le_dec n (lo + 1 + Zpos q)).
    + apply (IH (lo + 1)); [exact H2| lia].
    + apply (IH (lo + 1 + Zpos q)); [exact H3| lia].
  - apply andb_true_iff in H as [H1 H2]. rewrite Pos2Z.inj_xO in Hn.
    destruct (Z_lt_le_dec n (lo + Zpos q)).
    + apply (IH lo); [exact H1| lia].
    + apply (IH (lo + Zpos q)); [exact H2| lia].
  - assert (n = lo) by lia. subst. exact H.
Qed.

Lemma ymd_tail_dbm leap m d :
  1 <= m <= 12 -> 1 <= d <= dim_l leap m -> ymd_tail leap (dbm_l leap m + d - 1) = (m, d).
Proof.
  intros Hm Hd.
  assert (Hc : check_tail leap m = true) by (month_cases m; destruct leap; reflexivity).
  pose proof (dim_l_bounds leap m Hm) as Hb.
  pose proof (all_range_spec _ _ _ Hc d) as H.
  rewrite Z2Pos.id in H by lia. specialize (H ltac:(lia)).
  unfold pair_eqb in H. destruct (ymd_tail _ _) as [a b].
  apply andb_true_iff in H as [H1 H2]. apply Z.eqb_eq in H1, H2. simpl in *. congruence.
Qed.

Lemma year_decomp (y : Z) :
  exists a b c e, 0 <= b <= 3 /\ 0 <= c <= 24 /\ 0 <= e <= 3 /\
                  y = 400 * a + 100 * b + 4 * c + e + 1.
Proof.
  exists ((y - 1) / 4 / 25 / 4), ((y - 1) / 4 / 25 mod 4), ((y - 1) / 4 mod 25), ((y - 1) mod 4).
  pose proof (Z.div_mod (y - 1) 4 ltac:(lia)).
  pose proof (Z.div_mod ((y - 1) / 4) 25 ltac:(lia)).
  pose proof (Z.div_mod ((y - 1) / 4 / 25) 4 ltac:(lia)).
  pose proof (Z.mod_pos_bound (y - 1) 4 ltac:(lia)).
  pose proof (Z.mod_pos_bound ((y - 1) / 4) 25 ltac:(lia)).
  pose proof (Z.mod_pos_bound ((y - 1) / 4 / 25) 4 ltac:(lia)).
  lia.
Qed.

Lemma dby_decomp a b c e :
  0 <= b <= 3 -> 0 <= c <= 24 -> 0 <= e <= 3 ->
  days_before_year (400 * a + 100 * b + 4 * c + e + 1)
  = DI400Y * a + DI100Y * b + DI4Y * c + 365 * e.
Proof.
  intros Hb Hc He. unfold days_before_year, DI400Y, DI100Y, DI4Y.
  replace (400 * a + 100 * b + 4 * c + e + 1 - 1) with (400 * a + 100 * b + 4 * c + e) by ring.
  rewrite <- (Z.div_unique (400 * a + 100 * b + 4 * c + e) 4 (100 * a + 25 * b + c) e)
    by lia.
  rewrite <- (Z.div_unique (400 * a + 100 * b + 4 * c + e) 100 (4 * a + b) (4 * c + e))
    by lia.
  rewrite <- (Z.div_unique (400 * a + 100 * b + 4 * c + e) 400 a (100 * b + 4 * c + e))
    by lia.
  ring.
Qed.

Lemma mod_eq_0_small (v k : Z) : 1 <= v <= k -> (v mod k =? 0) = (v =? k).
Proof.
  intros H. destruct (Z.eq_dec v k) as [->|Hne].
  - rewrite Z.mod_same by lia. now rewrite !Z.eqb_refl.
  - rewrite Z.mod_small by lia. destruct (Z.eqb_spec v k); [contradiction|].
    apply Z.eqb_neq. lia.
Qed.

Lemma leap_decomp a b c e :
  0 <= b <= 3 -> 0 <= c <= 24 -> 0 <= e <= 3 ->
  is_leap (400 * a + 100 * b + 4 * c + e + 1) = (e =? 3) && (negb (c =? 24) || (b =? 3)).
Proof.
  intros Hb Hc He. unfold is_leap.
  assert (H4 : (400 * a + 100 * b + 4 * c + e + 1) mod 4 = (e + 1) mod 4).
  { rewrite <- (Z_mod_plus_full (e + 1) (100 * a + 25 * b + c) 4). f_equal. ring. }
  assert (H100 : (400 * a + 100 * b + 4 * c + e + 1) mod 100 = (4 * c + e + 1) mod 100).
  { rewrite <- (Z_mod_plus_full (4 * c + e + 1) (4 * a + b) 100). f_equal. ring. }
  assert (H400 : (400 * a + 100 * b + 4 * c + e + 1) mod 400
                 = (100 * b + 4 * c + e + 1) mod 400).
  { rewrite <- (Z_mod_plus_full (100 * b + 4 * c + e + 1) a 400). f_equal. ring. }
  rewrite H4, H100, H400, !mod_eq_0_small by lia.
  destruct (Z.eqb_spec (e + 1) 4), (Z.eqb_spec e 3), (Z.eqb_spec (4 * c + e + 1) 100),
    (Z.eqb_spec c 24), (Z.eqb_spec (100 * b + 4 * c + e + 1) 400), (Z.eqb_spec b 3);
    simpl; try reflexivity; lia.
Qed.

Lemma div_mod_eq (x k q r : Z) : 0 <= r < k -> x = k * q + r -> x / k = q /\ x mod k = r.
Proof.
  intros Hr Hx. split.
  - symmetry. apply (Z.div_unique x k q r); [left; exact Hr | exact Hx].
  - symmetry. apply (Z.mod_unique x k q r); [left; exact Hr | exact Hx].
Qed.

(** [_ord2ymd] inverts [_ymd2ord] on valid dates. *)

Lemma ord2ymd_ymd2ord (y m d : Z) :
  1 <= m <= 12 -> 1 <= d <= days_in_month y m -> ord2ymd (ymd2ord y m d) = (y, m, d).
Proof.
  intros Hm Hd.
  destruct (year_decomp y) as [a [b [c [e [Hb [Hc [He ->]]]]]]].
  rewrite days_in_month_l, leap_decomp in Hd by lia.
  set (lp := (e =? 3) && (negb (c =? 24) || (b =? 3))) in *.
  assert (Hlp : lp = true -> e = 3 /\ (c <> 24 \/ b = 3)).
  { unfold lp. intros H. apply andb_true_iff in H as [H1 H2].
    apply Z.eqb_eq in H1. split; [exact H1|].
    apply orb_true_iff in H2 as [H2|H2]; [left | right].
    - apply negb_true_iff, Z.eqb_neq in H2. exact H2.
    - apply Z.eqb_eq in H2. exact H2. }
  pose proof (dbm_dim_l lp m Hm) as [Hd0 Hd1].
  set (r := dbm_l lp m + d - 1).
  assert (Hr : 0 <= r <= 364 + (if lp then 1 else 0)) by (unfold r; lia).
  assert (Hr365 : r = 365 -> e = 3 /\ (c <> 24 \/ b = 3)).
  { intros E. destruct lp; [apply Hlp; reflexivity | lia]. }
  set (rem := DI100Y * b + DI4Y * c + 365 * e + r).
  assert (Hn : ymd2ord (400 * a + 100 * b + 4 * c + e + 1) m d - 1 = DI400Y * a + rem).
  { unfold ymd2ord. rewrite dby_decomp, days_before_month_l, leap_decomp by lia.
    fold lp. unfold rem, r. ring. }
  assert (Hr2 : r <= 365) by (destruct lp; lia).
  assert (Hrem : 0 <= rem < DI400Y) by (unfold rem, DI100Y, DI4Y, DI400Y; lia).
  destruct (div_mod_eq (DI400Y * a + rem) DI400Y a rem Hrem eq_refl) as [Q1 R1].
  rewrite ord2ymd_unfold. cbv zeta. rewrite Hn, Q1, R1.
  destruct (Z.eq_dec r 365) as [E365|N365].
  - destruct (Hr365 E365) as [-> Hcb].
    assert (Hmd : (m, d) = (12, 31)).
    { rewrite <- (ymd_tail_dbm lp m d Hm Hd). fold r. rewrite E365.
      assert (Elp : lp = true) by (destruct lp; [reflexivity | lia]). rewrite Elp.
      reflexivity. }
    injection Hmd as -> ->.
    destruct (Z.eq_dec b 3) as [->|Nb]; [destruct (Z.eq_dec c 24) as [->|Nc]|].
    + destruct (div_mod_eq rem DI100Y 4 0 ltac:(unfold DI100Y; lia)
                  ltac:(unfold rem, DI100Y, DI4Y; lia)) as [Q2 R2].
      rewrite Q2, R2, ?Zmod_0_l, ?Zdiv_0_l, ?Zmod_0_l, ?Z.eqb_refl, ?orb_true_l, ?orb_true_r.
      f_equal. f_equal. ring.
    + destruct (div_mod_eq rem DI100Y 3 (DI4Y * c + 365 * 3 + r)
                  ltac:(unfold DI100Y, DI4Y; lia) ltac:(unfold rem; ring)) as [Q2 R2].
      rewrite Q2, R2.
      destruct (div_mod_eq (DI4Y * c + 365 * 3 + r) DI4Y c (365 * 3 + r)
                  ltac:(unfold DI4Y; lia) ltac:(ring)) as [Q3 R3].
      rewrite Q3, R3.
      destruct (div_mod_eq (365 * 3 + r) 365 4 0 ltac:(lia) ltac:(lia)) as [Q4 R4].
      rewrite Q4, R4, ?Z.eqb_refl, ?orb_true_l, ?orb_true_r. f_equal. f_equal. ring.
    + destruct Hcb as [Hc' | Hb']; [|contradiction].
      destruct (div_mod_eq rem DI100Y b (DI4Y * c + 365 * 3 + r)
                  ltac:(unfold DI100Y, DI4Y; lia) ltac:(unfold rem; ring)) as [Q2 R2].
      rewrite Q2, R2.
      destruct (div_mod_eq (DI4Y * c + 365 * 3 + r) DI4Y c (365 * 3 + r)
                  ltac:(unfold DI4Y; lia) ltac:(ring)) as [Q3 R3].
      rewrite Q3, R3.
      destruct (div_mod_eq (365 * 3 + r) 365 4 0 ltac:(lia) ltac:(lia)) as [Q4 R4].
      rewrite Q4, R4, ?Z.eqb_refl, ?orb_true_l, ?orb_true_r. f_equal. f_equal. ring.
  - assert (Hr' : r <= 364) by (destruct lp; lia).
    assert (Hb' : DI4Y * c + 365 * e + r < DI100Y) by (unfold DI4Y, DI100Y; lia).
    destruct (div_mod_eq rem DI100Y b (DI4Y * c + 365 * e + r)
                ltac:(unfold DI100Y, DI4Y in *; lia) ltac:(unfold rem; ring)) as [Q2 R2].
    rewrite Q2, R2.
    destruct (div_mod_eq (DI4Y * c + 365 * e + r) DI4Y c (365 * e + r)
                ltac:(unfold DI4Y; lia) ltac:(ring)) as [Q3 R3].
    rewrite Q3, R3.
    destruct (div_mod_eq (365 * e + r) 365 e r ltac:(lia) ltac:(ring)) as [Q4 R4].
    rewrite Q4, R4.
    replace ((e =? 4) || (b =? 4)) with false
      by (symmetry; apply orb_false_iff; split; apply Z.eqb_neq; lia).
    fold lp. unfold r. rewrite (ymd_tail_dbm lp m d Hm Hd).
    f_equal. f_equal. ring.
Qed.

Lemma dby_succ (y : Z) :
  days_before_year (y + 1) = days_before_year y + 365 + (if is_leap y then 1 else 0).
Proof.
  destruct (year_decomp y) as [a [b [c [e [Hb [Hc [He ->]]]]]]].
  rewrite leap_decomp, dby_decomp by lia.
  destruct (Z.eq_dec e 3) as [->|Ne].
  - destruct (Z.eq_dec c 24) as [->|Nc].
    + destruct (Z.eq_dec b 3) as [->|Nb].
      * replace (400 * a + 100 * 3 + 4 * 24 + 3 + 1 + 1) with (400 * (a + 1) + 100 * 0 + 4 * 0 + 0 + 1)
          by ring.
        rewrite dby_decomp by lia.
        change ((3 =? 3) && (negb (24 =? 24) || (3 =? 3))) with true.
        unfold DI400Y, DI100Y, DI4Y. ring.
      * replace (400 * a + 100 * b + 4 * 24 + 3 + 1 + 1) with (400 * a + 100 * (b + 1) + 4 * 0 + 0 + 1)
          by ring.
        rewrite dby_decomp by lia.
        replace ((3 =? 3) && (negb (24 =? 24) || (b =? 3))) with false
          by (destruct (Z.eqb_spec b 3); [contradiction | reflexivity]).
        unfold DI400Y, DI100Y, DI4Y. ring.
    + replace (400 * a + 100 * b + 4 * c + 3 + 1 + 1) with (400 * a + 100 * b + 4 * (c + 1) + 0 + 1)
        by ring.
      rewrite dby_decomp by lia.
      replace ((3 =? 3) && (negb (c =? 24) || (b =? 3))) with true
        by (destruct (Z.eqb_spec c 24); [contradiction | reflexivity]).
      unfold DI400Y, DI100Y, DI4Y. ring.
  - replace (400 * a + 100 * b + 4 * c + e + 1 + 1) with (400 * a + 100 * b + 4 * c + (e + 1) + 1)
      by ring.
    rewrite dby_decomp by lia.
    replace ((e =? 3) && (negb (c =? 24) || (b =? 3))) with false
      by (destruct (Z.eqb_spec e 3); [contradiction | reflexivity]).
    ring.
Qed.

Lemma ymd2ord_exists (n : Z) :
  1 <= n -> exists y m d, 1 <= y /\ 1 <= m <= 12 /\ 1 <= d <= days_in_month y m /\
                          ymd2ord y m d = n.
Proof.
  intros Hn. replace n with (Z.of_nat (Z.to_nat (n - 1)) + 1) by lia.
  induction (Z.to_nat (n - 1)) as [|k IH].
  - exists 1, 1, 1. split; [lia|]. split; [lia|]. split; [cbv; split; discriminate|].
    reflexivity.
  - destruct IH as [y [m [d [Hy [Hm [Hd Ho]]]]]].
    assert (E : Z.of_nat (S k) + 1 = ymd2ord y m d + 1) by lia. rewrite E. clear E Ho.
    destruct (Z_lt_le_dec d (days_in_month y m)) as [Hlt|Hge].
    + exists y, m, (d + 1). split; [lia|]. split; [lia|]. split; [lia|].
      unfold ymd2ord. ring.
    + assert (Hdd : d = days_in_month y m) by lia. subst d.
      destruct (Z_lt_le_dec m 12) as [Hm12|Hm12].
      * exists y, (m + 1), 1. split; [lia|]. split; [lia|].
        split; [rewrite days_in_month_l; pose proof (dim_l_bounds (is_leap y) (m + 1)); lia|].
        unfold ymd2ord. rewrite !days_before_month_l, dbm_l_succ by lia.
        rewrite days_in_month_l. ring.
      * assert (m = 12) by lia. subst m.
        exists (y + 1), 1, 1. split; [lia|]. split; [lia|].
        split; [rewrite days_in_month_l; cbv; split; discriminate|].
        unfold ymd2ord. rewrite dby_succ, !days_before_month_l, days_in_month_l.
        assert (E1 : dbm_l (is_leap (y + 1)) 1 = 0) by (destruct (is_leap (y + 1)); reflexivity).
        assert (E2 : dbm_l (is_leap y) 12 + dim_l (is_leap y) 12
                     = 365 + (if is_leap y then 1 else 0)) by (destruct (is_leap y); reflexivity).
        rewrite E1. lia.
Qed.

Lemma ord2ymd_valid (n : Z) :
  1 <= n ->
  let '(y, m, d) := ord2ymd n in
  1 <= y /\ 1 <= m <= 12 /\ 1 <= d <= days_in_month y m /\ ymd2ord y m d = n.
Proof.
  intros Hn. destruct (ymd2ord_exists n Hn) as [y [m [d [Hy [Hm [Hd Ho]]]]]].
  rewrite <- Ho, ord2ymd_ymd2ord by assumption. auto.
Qed.

Lemma dby_mono (y y' : Z) : y <= y' -> days_before_year y + 365 * (y' - y) <= days_before_year y'.
Proof.
  intros H. replace y' with (y + Z.of_nat (Z.to_nat (y' - y))) by lia.
  induction (Z.to_nat (y' - y)) as [|k IH]; [rewrite Nat2Z.inj_0, Z.add_0_r; lia|].
  assert (E : y + Z.of_nat (S k) = (y + Z.of_nat k) + 1) by lia.
  rewrite E, dby_succ. destruct (is_leap _); lia.
Qed.

Lemma ymd2ord_year_bounds (y m d : Z) :
  1 <= m <= 12 -> 1 <= d <= days_in_month y m ->
  days_before_year y + 1 <= ymd2ord y m d <= days_before_year (y + 1).
Proof.
  intros Hm Hd. unfold ymd2ord. rewrite dby_succ, days_before_month_l.
  rewrite days_in_month_l in Hd. pose proof (dbm_dim_l (is_leap y) m Hm). lia.
Qed.

Lemma ymd2ord_max : ymd2ord MAXYEAR 12 31 = days_before_year (MAXYEAR + 1).
Proof. reflexivity. Qed.

Lemma time_fields (d : datetime) :
  0 <= dt_hour d <= 23 /\ 0 <= dt_minute d <= 59 /\ 0 <= dt_second d <= 59 /\
  0 <= dt_microsecond d <= 999999 /\
  dt_local d / DAY * DAY + dt_hour d * HOUR + dt_minute d * MINUTE + dt_second d * SECOND
  + dt_microsecond d = dt_local d.
Proof.
  unfold dt_hour, dt_minute, dt_second, dt_microsecond, DAY, HOUR, MINUTE, SECOND.
  generalize (dt_local d) as x. intros x.
  change (86400 * 1000000) with 86400000000. change (3600 * 1000000) with 3600000000.
  change (60 * 1000000) with 60000000.
  Z.div_mod_to_equations. lia.
Qed.

Lemma MAX_LOCAL_eq : MAX_LOCAL = days_before_year (MAXYEAR + 1) * DAY.
Proof. reflexivity. Qed.

Lemma dt_ymd_valid (d : datetime) :
  0 <= dt_local d < MAX_LOCAL ->
  let '(y, m, dd) := dt_ymd d in
  1 <= y <= MAXYEAR /\ 1 <= m <= 12 /\ 1 <= dd <= days_in_month y m /\
  ymd2ord y m dd = dt_local d / DAY + 1.
Proof.
  intros Hd. unfold dt_ymd.
  assert (H0 : 0 <= dt_local d / DAY) by (apply Z.div_pos; unfold DAY in *; lia).
  assert (H1 : dt_local d / DAY < days_before_year (MAXYEAR + 1)).
  { apply Z.div_lt_upper_bound; [unfold DAY; lia|].
    rewrite MAX_LOCAL_eq in Hd. lia. }
  pose proof (ord2ymd_valid (dt_local d / DAY + 1) ltac:(lia)) as Hv.
  destruct (ord2ymd _) as [[y m] dd]. destruct Hv as [Hy [Hm [Hdd Ho]]].
  split; [|auto]. split; [exact Hy|].
  destruct (Z_le_gt_dec y MAXYEAR) as [|Hgt]; [assumption|].
  pose proof (ymd2ord_year_bounds y m dd Hm Hdd) as Hb.
  pose proof (dby_mono (MAXYEAR + 1) y ltac:(lia)). lia.
Qed.

Lemma datetime_full_ok (y m d hh mi ss us : Z) (tz : option Z) :
  1 <= y <= MAXYEAR -> 1 <= m <= 12 -> 1 <= d <= days_in_month y m ->
  0 <= hh <= 23 -> 0 <= mi <= 59 -> 0 <= ss <= 59 -> 0 <= us <= 999999 ->
  datetime_full y m d hh mi ss us tz
  = Ok (mk_dt ((ymd2ord y m d - 1) * DAY + hh * HOUR + mi * MINUTE + ss * SECOND + us) tz).
Proof.
  intros Hy Hm Hd Hh Hmi Hs Hus. unfold datetime_full.
  repeat match goal with
  | |- context [negb ((?a <=? ?b) && (?b <=? ?c))] =>
      replace ((a <=? b) && (b <=? c)) with true
        by (symmetry; apply andb_true_iff; split; apply Z.leb_le; lia)
  end.
  reflexivity.
Qed.

Lemma dt_replace_eq (d : datetime) oy om od oh omi os ous :
  dt_replace d oy om od oh omi os ous
  = datetime_full (kwarg oy (dt_year d)) (kwarg om (dt_month d)) (kwarg od (dt_day d))
      (kwarg oh (dt_hour d)) (kwarg omi (dt_minute d)) (kwarg os (dt_second d))
      (kwarg ous (dt_microsecond d)) (dt_tz d).
Proof.
  unfold dt_replace, dt_year, dt_month, dt_day. destruct (dt_ymd d) as [[y m] dd]. reflexivity.
Qed.

Lemma dt_local_floor (d : datetime) (y m dd : Z) :
  0 <= dt_local d < MAX_LOCAL -> dt_ymd d = (y, m, dd) ->
  (ymd2ord y m dd - 1) * DAY = dt_local d / DAY * DAY.
Proof.
  intros Hd E. pose proof (dt_ymd_valid d Hd) as Hv. rewrite E in Hv.
  destruct Hv as [_ [_ [_ Ho]]]. rewrite Ho. ring.
Qed.

Lemma start_of_day_ok (d : datetime) :
  0 <= dt_local d < MAX_LOCAL ->
  start_of_day d = Ok (mk_dt (dt_local d / DAY * DAY) (dt_tz d)).
Proof.
  intros Hd. unfold start_of_day. rewrite dt_replace_eq.
  pose proof (dt_ymd_valid d Hd) as Hv. unfold dt_year, dt_month, dt_day.
  destruct (dt_ymd d) as [[y m] dd] eqn:E. destruct Hv as [Hy [Hm [Hdd Ho]]].
  cbn [kwarg fst snd].
  rewrite datetime_full_ok by lia. f_equal. f_equal.
  rewrite Ho. ring.
Qed.

Lemma end_of_day_ok (d : datetime) :
  0 <= dt_local d < MAX_LOCAL ->
  end_of_day d = Ok (mk_dt (dt_local d / DAY * DAY + DAY - 1) (dt_tz d)).
Proof.
  intros Hd. unfold end_of_day. rewrite dt_replace_eq.
  pose proof (dt_ymd_valid d Hd) as Hv. unfold dt_year, dt_month, dt_day.
  destruct (dt_ymd d) as [[y m] dd] eqn:E. destruct Hv as [Hy [Hm [Hdd Ho]]].
  cbn [kwarg fst snd].
  rewrite datetime_full_ok by lia. f_equal. f_equal.
  rewrite Ho. unfold DAY, HOUR, MINUTE, SECOND. ring.
Qed.

Lemma dt_add_ok (d : datetime) (delta : Z) :
  0 <= dt_local d + delta < MAX_LOCAL -> dt_add d delta = Ok (mk_dt (dt_local d + delta) (dt_tz d)).
Proof.
  intros H. unfold dt_add.
  replace ((0 <=? dt_local d + delta) && (dt_local d + delta <? MAX_LOCAL)) with true
    by (symmetry; apply andb_true_iff; split; [apply Z.leb_le | apply Z.ltb_lt]; lia).
  reflexivity.
Qed.

Lemma weekday_eq (d : datetime) :
  0 <= dt_local d < MAX_LOCAL -> weekday d = (dt_local d / DAY) mod 7.
Proof.
  intros Hd. unfold weekday, toordinal. pose proof (dt_ymd_valid d Hd) as Hv.
  destruct (dt_ymd d) as [[y m] dd]. destruct Hv as [_ [_ [_ ->]]].
  replace (dt_local d / DAY + 1 + 6) with (dt_local d / DAY + 1 * 7) by ring.
  apply Z_mod_plus_full.
Qed.

Lemma DAY_lit : DAY = 86400000000.
Proof. reflexivity. Qed.

Lemma DAYS_MAX : days_before_year (MAXYEAR + 1) = 3652059.
Proof. reflexivity. Qed.

Lemma div_day (k r : Z) : 0 <= r < DAY -> (k * DAY + r) / DAY = k.
Proof. intros Hr. rewrite DAY_lit in *. Z.div_mod_to_equations. lia. Qed.

Lemma dt_add_err (d : datetime) (delta : Z) :
  ~ (0 <= dt_local d + delta < MAX_LOCAL) ->
  dt_add d delta = Error (OverflowError "date value out of range").
Proof.
  intros H. unfold dt_add.
  destruct ((0 <=? dt_local d + delta) && (dt_local d + delta <? MAX_LOCAL)) eqn:E; [|reflexivity].
  exfalso. apply H. apply andb_true_iff in E. destruct E as [E1 E2].
  apply Z.leb_le in E1. apply Z.ltb_lt in E2. lia.
Qed.

Lemma timedelta_days_ok (n : Z) : Z.abs n <= 999999999 -> timedelta_days n = Ok (n * DAY).
Proof. intros H. unfold timedelta_days. apply Z.leb_le in H. now rewrite H. Qed.

Lemma eqb_false_notin (p q : string) (l : list string) :
  ~ In p l -> In q l -> String.eqb p q = false.
Proof. intros Hp Hq. apply String.eqb_neq. intros ->. contradiction. Qed.

Lemma tz_tag (aw : bool) (s e : datetime) :
  (if aw then Ok (replace_tz s UTC, replace_tz e UTC) else Ok (s, e))
  = Ok (as_tz aw s, as_tz aw e).
Proof. destruct aw; reflexivity. Qed.

(** Splitting a local time into its day number and time of day. *)
Ltac split_day l :=
  let o := fresh "o" in let r := fresh "r" in
  let Ho := fresh "Ho" in let Hr := fresh "Hr" in
  pose proof (Z.div_mod l DAY ltac:(rewrite DAY_lit; lia)) as Ho;
  pose proof (Z.mod_pos_bound l DAY ltac:(rewrite DAY_lit; lia)) as Hr;
  set (o := l / DAY) in *; set (r := l mod DAY) in *;
  clearbody o r.

Ltac day_lia := rewrite ?MAX_LOCAL_eq, ?DAYS_MAX, ?DAY_lit in *; lia.

Lemma gdr_today (now : datetime) (p : string) (aw : bool) :
  0 <= dt_local now < MAX_LOCAL ->
  p = "today"%string \/ ~ In p named_periods ->
  get_date_range now p aw =
  Ok (as_tz aw (mk_dt (dt_local now / DAY * DAY) (dt_tz now)),
      as_tz aw (mk_dt (dt_local now / DAY * DAY + DAY - 1) (dt_tz now))).
Proof.
  intros Hv Hp. unfold get_date_range.
  destruct Hp as [->|Hn].
  - cbn [String.eqb Ascii.eqb Bool.eqb orb andb].
    rewrite start_of_day_ok, end_of_day_ok by exact Hv. cbn [bind]. apply tz_tag.
  - rewrite !(eqb_false_notin p _ named_periods Hn) by (cbn; tauto). cbn [orb].
    rewrite start_of_day_ok, end_of_day_ok by exact Hv. cbn [bind]. apply tz_tag.
Qed.

Lemma gdr_yesterday (now : datetime) (aw : bool) :
  0 <= dt_local now < MAX_LOCAL ->
  get_date_range now "yesterday" aw =
  if dt_local now / DAY =? 0 then Error (OverflowError "date value out of range")
  else Ok (as_tz aw (mk_dt ((dt_local now / DAY - 1) * DAY) (dt_tz now)),
           as_tz aw (mk_dt (dt_local now / DAY * DAY - 1) (dt_tz now))).
Proof.
  intros Hv. unfold get_date_range. cbn [String.eqb Ascii.eqb Bool.eqb orb andb].
  unfold dt_sub. destruct now as [l tz]; cbn [dt_local dt_tz] in *.
  split_day l.
  destruct (Z.eqb_spec o 0) as [Ho0|Ho0].
  - rewrite dt_add_err by (cbn [dt_local]; day_lia). reflexivity.
  - rewrite dt_add_ok by (cbn [dt_local]; day_lia). cbn [bind dt_local dt_tz].
    rewrite start_of_day_ok, end_of_day_ok by (cbn [dt_local]; day_lia).
    cbn [bind dt_local dt_tz].
    replace (l + - DAY) with ((o - 1) * DAY + r) by lia.
    rewrite div_day by exact Hr. rewrite tz_tag. do 4 f_equal. lia.
Qed.

Lemma weekday_mk (l : Z) (tz : option Z) :
  0 <= l < MAX_LOCAL -> weekday (mk_dt l tz) = (l / DAY) mod 7.
Proof. intros H. now apply weekday_eq. Qed.

Ltac week_prep :=
  lazymatch goal with
  | |- context [weekday (mk_dt ?l ?tz)] =>
      rewrite (weekday_mk l tz) by assumption
  end.

Lemma get_date_range_this_week_alias (now : datetime) (aw : bool) :
  get_date_range now "this_week" aw = get_date_range now "this week" aw.
Proof. unfold get_date_range. cbn [String.eqb Ascii.eqb Bool.eqb orb andb]. reflexivity. Qed.

Lemma gdr_this_week (now : datetime) (p : string) (aw : bool) :
  0 <= dt_local now < MAX_LOCAL ->
  p = "this_week"%string \/ p = "this week"%string ->
  let monday := dt_local now / DAY - (dt_local now / DAY) mod 7 in
  get_date_range now p aw =
  if (monday + 7) * DAY <=? MAX_LOCAL then
    Ok (as_tz aw (mk_dt (monday * DAY) (dt_tz now)),
        as_tz aw (mk_dt ((monday + 7) * DAY - 1) (dt_tz now)))
  else Error (OverflowError "date value out of range").
Proof.
  intros Hv Hp monday. subst monday.
  replace (get_date_range now p aw) with (get_date_range now "this week" aw)
    by (destruct Hp as [->| ->]; [symmetry; apply get_date_range_this_week_alias | reflexivity]).
  unfold get_date_range. destruct now as [l tz]. cbn [String.eqb Ascii.eqb Bool.eqb orb andb].
  cbn [dt_local dt_tz] in *; week_prep;
  split_day l;
  pose proof (Z.div_mod o 7 ltac:(lia)) as Hw; pose proof (Z.mod_pos_bound o 7 ltac:(lia)) as Hw';
  set (w := o mod 7) in *; set (q := o / 7) in *; clearbody w q;
  rewrite timedelta_days_ok by lia; cbn [bind]; unfold dt_sub;
  rewrite dt_add_ok by (cbn [dt_local]; day_lia); cbn [bind dt_local dt_tz];
  rewrite start_of_day_ok by (cbn [dt_local]; day_lia); cbn [bind dt_local dt_tz];
  replace (l + - (w * DAY)) with ((o - w) * DAY + r) by lia;
  rewrite div_day by exact Hr;
  (destruct ((o - w + 7) * DAY <=? MAX_LOCAL) eqn:E;
   [apply Z.leb_le in E | apply Z.leb_gt in E]);
  [ rewrite dt_add_ok by (cbn [dt_local]; day_lia); cbn [bind dt_local dt_tz];
    rewrite end_of_day_ok by (cbn [dt_local]; day_lia); cbn [bind dt_local dt_tz];
    replace ((o - w) * DAY + 6 * DAY) with ((o - w + 6) * DAY + 0) by ring;
    rewrite div_day by (rewrite DAY_lit; lia);
    rewrite tz_tag; do 4 f_equal; ring
  | rewrite dt_add_err by (cbn [dt_local]; day_lia); reflexivity ].
Qed.

Lemma get_date_range_last_week_alias (now : datetime) (aw : bool) :
  get_date_range now "last_week" aw = get_date_range now "last week" aw.
Proof. unfold get_date_range. cbn [String.eqb Ascii.eqb Bool.eqb orb andb]. reflexivity. Qed.

Lemma gdr_last_week (now : datetime) (p : string) (aw : bool) :
  0 <= dt_local now < MAX_LOCAL ->
  p = "last_week"%string \/ p = "last week"%string ->
  let monday := dt_local now / DAY - (dt_local now / DAY) mod 7 in
  get_date_range now p aw =
  if 7 <=? monday then
    Ok (as_tz aw (mk_dt ((monday - 7) * DAY) (dt_tz now)),
        as_tz aw (mk_dt (monday * DAY - 1) (dt_tz now)))
  else Error (OverflowError "date value out of range").
Proof.
  intros Hv Hp monday. subst monday.
  replace (get_date_range now p aw) with (get_date_range now "last week" aw)
    by (destruct Hp as [->| ->]; [symmetry; apply get_date_range_last_week_alias | reflexivity]).
  unfold get_date_range. destruct now as [l tz]. cbn [String.eqb Ascii.eqb Bool.eqb orb andb].
  cbn [dt_local dt_tz] in *; week_prep;
  split_day l;
  pose proof (Z.div_mod o 7 ltac:(lia)) as Hw; pose proof (Z.mod_pos_bound o 7 ltac:(lia)) as Hw';
  set (w := o mod 7) in *; set (q := o / 7) in *; clearbody w q;
  rewrite timedelta_days_ok by lia; cbn [bind]; unfold dt_sub;
  (destruct (7 <=? o - w) eqn:E; [apply Z.leb_le in E | apply Z.leb_gt in E]);
  [ rewrite dt_add_ok by (cbn [dt_local]; day_lia); cbn [bind dt_local dt_tz];
    rewrite start_of_day_ok by (cbn [dt_local]; day_lia); cbn [bind dt_local dt_tz];
    replace (l + - ((w + 7) * DAY)) with ((o - w - 7) * DAY + r) by lia;
    rewrite div_day by exact Hr;
    rewrite dt_add_ok by (cbn [dt_local]; day_lia); cbn [bind dt_local dt_tz];
    rewrite end_of_day_ok by (cbn [dt_local]; day_lia); cbn [bind dt_local dt_tz];
    replace ((o - w - 7) * DAY + 6 * DAY) with ((o - w - 1) * DAY + 0) by ring;
    rewrite div_day by (rewrite DAY_lit; lia);
    rewrite tz_tag; do 4 f_equal; ring
  | rewrite dt_add_err by (cbn [dt_local]; day_lia); reflexivity ].
Qed.

Lemma get_date_range_next_week_alias (now : datetime) (aw : bool) :
  get_date_range now "next_week" aw = get_date_range now "next week" aw.
Proof. unfold get_date_range. cbn [String.eqb Ascii.eqb Bool.eqb orb andb]. reflexivity. Qed.

Lemma gdr_next_week (now : datetime) (p : string) (aw : bool) :
  0 <= dt_local now < MAX_LOCAL ->
  p = "next_week"%string \/ p = "next week"%string ->
  let monday := dt_local now / DAY - (dt_local now / DAY) mod 7 in
  get_date_range now p aw =
  if (monday + 14) * DAY <=? MAX_LOCAL then
    Ok (as_tz aw (mk_dt ((monday + 7) * DAY) (dt_tz now)),
        as_tz aw (mk_dt ((monday + 14) * DAY - 1) (dt_tz now)))
  else Error (OverflowError "date value out of range").
Proof.
  intros Hv Hp monday. subst monday.
  replace (get_date_range now p aw) with (get_date_range now "next week" aw)
    by (destruct Hp as [->| ->]; [symmetry; apply get_date_range_next_week_alias | reflexivity]).
  unfold get_date_range. destruct now as [l tz]. cbn [String.eqb Ascii.eqb Bool.eqb orb andb].
  cbn [dt_local dt_tz] in *; week_prep;
  split_day l;
  pose proof (Z.div_mod o 7 ltac:(lia)) as Hw; pose proof (Z.mod_pos_bound o 7 ltac:(lia)) as Hw';
  set (w := o mod 7) in *; set (q := o / 7) in *; clearbody w q;
  rewrite timedelta_days_ok by lia; cbn [bind];
  (destruct ((o - w + 14) * DAY <=? MAX_LOCAL) eqn:E;
   [apply Z.leb_le in E | apply Z.leb_gt in E]);
  [ rewrite dt_add_ok by (cbn [dt_local]; day_lia); cbn [bind dt_local dt_tz];
    rewrite start_of_day_ok by (cbn [dt_local]; day_lia); cbn [bind dt_local dt_tz];
    replace (l + (7 - w) * DAY) with ((o - w + 7) * DAY + r) by lia;
    rewrite div_day by exact Hr;
    rewrite dt_add_ok by (cbn [dt_local]; day_lia); cbn [bind dt_local dt_tz];
    rewrite end_of_day_ok by (cbn [dt_local]; day_lia); cbn [bind dt_local dt_tz];
    replace ((o - w + 7) * DAY + 6 * DAY) with ((o - w + 13) * DAY + 0) by ring;
    rewrite div_day by (rewrite DAY_lit; lia);
    rewrite tz_tag; do 4 f_equal; ring
  | idtac ];
  destruct (Z_lt_dec (l + (7 - w) * DAY) MAX_LOCAL) as [Hlt|Hge];
  [ rewrite dt_add_ok by (cbn [dt_local]; day_lia); cbn [bind dt_local dt_tz];
    rewrite start_of_day_ok by (cbn [dt_local]; day_lia); cbn [bind dt_local dt_tz];
    replace (l + (7 - w) * DAY) with ((o - w + 7) * DAY + r) by lia;
    rewrite div_day by exact Hr;
    rewrite dt_add_err by (cbn [dt_local]; day_lia); reflexivity
  | rewrite dt_add_err by (cbn [dt_local]; day_lia); reflexivity ].
Qed.

Lemma dt_ymd_mk (y m d r : Z) (tz : option Z) :
  1 <= m <= 12 -> 1 <= d <= days_in_month y m -> 0 <= r < DAY ->
  dt_ymd (mk_dt ((ymd2ord y m d - 1) * DAY + r) tz) = (y, m, d).
Proof.
  intros Hm Hd Hr. unfold dt_ymd. cbn [dt_local]. rewrite div_day by exact Hr.
  replace (ymd2ord y m d - 1 + 1) with (ymd2ord y m d) by ring.
  now apply ord2ymd_ymd2ord.
Qed.

Lemma dt_fields (d : datetime) (y m dd : Z) :
  dt_ymd d = (y, m, dd) -> dt_year d = y /\ dt_month d = m /\ dt_day d = dd.
Proof. unfold dt_year, dt_month, dt_day. intros ->. auto. Qed.

Lemma midnight_fields (k : Z) (tz : option Z) :
  dt_hour (mk_dt (k * DAY) tz) = 0 /\ dt_minute (mk_dt (k * DAY) tz) = 0 /\
  dt_second (mk_dt (k * DAY) tz) = 0 /\ dt_microsecond (mk_dt (k * DAY) tz) = 0.
Proof.
  unfold dt_hour, dt_minute, dt_second, dt_microsecond, DAY, HOUR, MINUTE, SECOND.
  cbn [dt_local].
  change (86400 * 1000000) with 86400000000. change (3600 * 1000000) with 3600000000.
  change (60 * 1000000) with 60000000.
  repeat split; Z.div_mod_to_equations; lia.
Qed.

Lemma dim_pos (y m : Z) : 1 <= m <= 12 -> 28 <= days_in_month y m <= 31.
Proof. intros Hm. rewrite days_in_month_l. now apply dim_l_bounds. Qed.

Lemma replace_start (d : datetime) oy om od :
  1 <= kwarg oy (dt_year d) <= MAXYEAR -> 1 <= kwarg om (dt_month d) <= 12 ->
  1 <= kwarg od (dt_day d) <= days_in_month (kwarg oy (dt_year d)) (kwarg om (dt_month d)) ->
  dt_replace d oy om od (Some 0) (Some 0) (Some 0) (Some 0)
  = Ok (mk_dt ((ymd2ord (kwarg oy (dt_year d)) (kwarg om (dt_month d)) (kwarg od (dt_day d)) - 1)
               * DAY) (dt_tz d)).
Proof.
  intros Hy Hm Hd. rewrite dt_replace_eq. cbn [kwarg].
  rewrite datetime_full_ok by lia. f_equal. f_equal. ring.
Qed.

Lemma replace_end (d : datetime) oy om od :
  1 <= kwarg oy (dt_year d) <= MAXYEAR -> 1 <= kwarg om (dt_month d) <= 12 ->
  1 <= kwarg od (dt_day d) <= days_in_month (kwarg oy (dt_year d)) (kwarg om (dt_month d)) ->
  dt_replace d oy om od (Some 23) (Some 59) (Some 59) (Some 999999)
  = Ok (mk_dt (ymd2ord (kwarg oy (dt_year d)) (kwarg om (dt_month d)) (kwarg od (dt_day d))
               * DAY - 1) (dt_tz d)).
Proof.
  intros Hy Hm Hd. rewrite dt_replace_eq. cbn [kwarg].
  rewrite datetime_full_ok by lia. f_equal. f_equal.
  unfold DAY, HOUR, MINUTE, SECOND. ring.
Qed.

Lemma replace_date_midnight (y m dd : Z) (tz : option Z) oy om od :
  1 <= m <= 12 -> 1 <= dd <= days_in_month y m ->
  dt_replace (mk_dt ((ymd2ord y m dd - 1) * DAY) tz) oy om od None None None None
  = datetime_full (kwarg oy y) (kwarg om m) (kwarg od dd) 0 0 0 0 tz.
Proof.
  intros Hm Hd. rewrite dt_replace_eq.
  pose proof (dt_ymd_mk y m dd 0 tz Hm Hd ltac:(rewrite DAY_lit; lia)) as E.
  rewrite Z.add_0_r in E. destruct (dt_fields _ _ _ _ E) as [-> [-> ->]].
  destruct (midnight_fields (ymd2ord y m dd - 1) tz) as [-> [-> [-> ->]]].
  reflexivity.
Qed.

Lemma dby_one : days_before_year 1 = 0.
Proof. reflexivity. Qed.

Lemma ymd2ord_pos (y m d : Z) :
  1 <= y -> 1 <= m <= 12 -> 1 <= d <= days_in_month y m -> 1 <= ymd2ord y m d.
Proof.
  intros Hy Hm Hd. pose proof (ymd2ord_year_bounds y m d Hm Hd).
  pose proof (dby_mono 1 y Hy). rewrite dby_one in *. lia.
Qed.

Lemma ymd2ord_first_day (y m : Z) :
  1 <= y -> 1 <= m <= 12 -> (ymd2ord y m 1 = 1 <-> y = 1 /\ m = 1).
Proof.
  intros Hy Hm. unfold ymd2ord. rewrite days_before_month_l.
  pose proof (dby_mono 1 y Hy). rewrite dby_one in *.
  assert (Hb : m = 1 \/ 31 <= dbm_l (is_leap y) m)
    by (month_cases m; try lia; destruct (is_leap y); cbv; first [now left | right; discriminate]).
  assert (Hb0 : 0 <= dbm_l (is_leap y) m) by (apply (dbm_dim_l (is_leap y) m Hm)).
  split.
  - intros Hq. destruct Hb as [->|Hb]; [|lia]. split; [|reflexivity].
    change (dbm_l (is_leap y) 1) with 0 in Hq. lia.
  - intros [-> ->]. reflexivity.
Qed.

Lemma month_12_facts (L : bool) :
  dbm_l L 12 = 334 + (if L then 1 else 0) /\ dim_l L 12 = 31 /\ dbm_l L 1 = 0.
Proof. destruct L; repeat split; reflexivity. Qed.

(** Day number of the first of a month, one past the last of the month before. *)
Lemma ymd2ord_prev_month (y m : Z) :
  1 <= m <= 12 ->
  let '(py, pm) := if m =? 1 then (y - 1, 12) else (y, m - 1) in
  1 <= pm <= 12 /\ ymd2ord py pm (days_in_month py pm) + 1 = ymd2ord y m 1.
Proof.
  intros Hm. destruct (Z.eqb_spec m 1) as [->|Hne].
  - split; [lia|]. unfold ymd2ord. rewrite !days_before_month_l, !days_in_month_l.
    pose proof (dby_succ (y - 1)) as S. replace (y - 1 + 1) with y in S by ring.
    destruct (month_12_facts (is_leap (y - 1))) as [A1 [A2 _]].
    destruct (month_12_facts (is_leap y)) as [_ [_ A3]].
    rewrite A1, A2, A3. destruct (is_leap (y - 1)); lia.
  - split; [lia|]. unfold ymd2ord. rewrite !days_before_month_l, !days_in_month_l.
    pose proof (dbm_l_succ (is_leap y) (m - 1) ltac:(lia)) as S.
    replace (m - 1 + 1) with m in S by ring. lia.
Qed.

Lemma ymd2ord_year_end (y : Z) : ymd2ord y 12 31 = days_before_year (y + 1).
Proof.
  unfold ymd2ord. rewrite days_before_month_l, dby_succ.
  destruct (month_12_facts (is_leap y)) as [A1 _]. rewrite A1. destruct (is_leap y); lia.
Qed.

Lemma ymd2ord_year_start (y : Z) : ymd2ord y 1 1 = days_before_year y + 1.
Proof. unfold ymd2ord. change (days_before_month y 1) with 0. ring. Qed.

Ltac period_branch :=
  unfold get_date_range; cbn [String.eqb Ascii.eqb Bool.eqb orb andb].

Lemma ymd2ord_mono_day (y m d d' : Z) : d <= d' -> ymd2ord y m d <= ymd2ord y m d'.
Proof. unfold ymd2ord. lia. Qed.

(** The first of [now]'s month at midnight is within the range. *)
Lemma first_of_month_bounds (now : datetime) (y m d : Z) :
  0 <= dt_local now < MAX_LOCAL -> dt_ymd now = (y, m, d) ->
  0 <= (ymd2ord y m 1 - 1) * DAY <= dt_local now.
Proof.
  intros Hv E. pose proof (dt_ymd_valid now Hv) as V. rewrite E in V.
  destruct V as [Hy [Hm [Hd _]]].
  pose proof (dt_local_floor now y m d Hv E) as F.
  pose proof (ymd2ord_mono_day y m 1 d ltac:(lia)).
  pose proof (ymd2ord_pos y m 1 ltac:(lia) Hm ltac:(pose proof (dim_pos y m Hm); lia)).
  pose proof (Z.mul_div_le (dt_local now) DAY ltac:(rewrite DAY_lit; lia)).
  rewrite DAY_lit in *. lia.
Qed.

Lemma gdr_this_month (now : datetime) (p : string) (aw : bool) (y m d : Z) :
  0 <= dt_local now < MAX_LOCAL -> dt_ymd now = (y, m, d) ->
  p = "this_month"%string \/ p = "this month"%string ->
  get_date_range now p aw =
  Ok (as_tz aw (mk_dt ((ymd2ord y m 1 - 1) * DAY) (dt_tz now)),
      as_tz aw (mk_dt (ymd2ord y m (days_in_month y m) * DAY - 1) (dt_tz now))).
Proof.
  intros Hv E Hp.
  replace (get_date_range now p aw) with (get_date_range now "this month" aw)
    by (destruct Hp as [->| ->]; [period_branch; reflexivity | reflexivity]).
  period_branch.
  pose proof (dt_ymd_valid now Hv) as V. rewrite E in V. destruct V as [Hy [Hm [Hd _]]].
  destruct (dt_fields _ _ _ _ E) as [Ey [Em _]].
  pose proof (dim_pos y m Hm).
  rewrite replace_start by (cbn [kwarg]; rewrite ?Ey, ?Em; lia). cbn [bind kwarg].
  unfold monthrange_days. rewrite Ey, Em.
  rewrite replace_end by (cbn [kwarg]; rewrite ?Ey, ?Em; lia). cbn [bind kwarg].
  rewrite Ey, Em. apply tz_tag.
Qed.

Lemma gdr_last_month (now : datetime) (p : string) (aw : bool) (y m d : Z) :
  0 <= dt_local now < MAX_LOCAL -> dt_ymd now = (y, m, d) ->
  p = "last_month"%string \/ p = "last month"%string ->
  get_date_range now p aw =
  if (y =? 1) && (m =? 1) then Error (OverflowError "date value out of range")
  else
    let '(py, pm) := if m =? 1 then (y - 1, 12) else (y, m - 1) in
    Ok (as_tz aw (mk_dt ((ymd2ord py pm 1 - 1) * DAY) (dt_tz now)),
        as_tz aw (mk_dt ((ymd2ord y m 1 - 1) * DAY - 1) (dt_tz now))).
Proof.
  intros Hv E Hp.
  replace (get_date_range now p aw) with (get_date_range now "last month" aw)
    by (destruct Hp as [->| ->]; [period_branch; reflexivity | reflexivity]).
  period_branch.
  pose proof (first_of_month_bounds now y m d Hv E) as B.
  pose proof (dt_ymd_valid now Hv) as V. rewrite E in V. destruct V as [Hy [Hm [Hd _]]].
  destruct (dt_fields _ _ _ _ E) as [Ey [Em _]].
  pose proof (dim_pos y m Hm).
  rewrite replace_start by (cbn [kwarg]; rewrite ?Ey, ?Em; lia). cbn [bind kwarg].
  rewrite Ey, Em. unfold dt_sub.
  pose proof (ymd2ord_first_day y m ltac:(lia) Hm) as FD.
  pose proof (ymd2ord_pos y m 1 ltac:(lia) Hm ltac:(lia)) as P1.
  destruct (Z.eqb_spec y 1) as [Hy1|Hy1]; destruct (Z.eqb_spec m 1) as [Hm1|Hm1];
    cbn [andb].
  1: { rewrite dt_add_err by (cbn [dt_local]; assert (ymd2ord y m 1 = 1) by tauto;
                              rewrite DAY_lit; lia). reflexivity. }
  all: assert (P2 : 2 <= ymd2ord y m 1) by (assert (ymd2ord y m 1 <> 1) by tauto; lia).
  all: rewrite dt_add_ok by (cbn [dt_local]; rewrite MAX_LOCAL_eq, DAY_lit in *; lia).
  all: cbn [bind dt_local dt_tz].
  all: pose proof (ymd2ord_prev_month y m Hm) as PM.
  all: destruct (Z.eqb_spec m 1) as [Hm1'|Hm1']; try lia; cbv beta iota in PM |- *.
  all: destruct PM as [Hpm Hprev].
  all: match type of Hprev with ymd2ord ?py ?pm _ + 1 = _ =>
    assert (Hpy : 1 <= py) by lia;
    replace ((ymd2ord y m 1 - 1) * DAY + - DAY)
      with ((ymd2ord py pm (days_in_month py pm) - 1) * DAY + 0) by lia;
    pose proof (dim_pos py pm Hpm);
    pose proof (dt_ymd_mk py pm (days_in_month py pm) 0 (dt_tz now) Hpm
                  ltac:(lia) ltac:(rewrite DAY_lit; lia)) as EL;
    destruct (dt_fields _ _ _ _ EL) as [Ly [Lm _]];
    assert (Hpy' : py <= MAXYEAR) by
      (pose proof (ymd2ord_year_bounds py pm (days_in_month py pm) Hpm ltac:(lia));
       pose proof (ymd2ord_year_bounds y m 1 Hm ltac:(lia));
       pose proof (dby_mono (MAXYEAR + 1) py); rewrite MAX_LOCAL_eq, DAY_lit in *;
       destruct (Z_le_gt_dec py MAXYEAR); [assumption|];
       match goal with H : _ -> _ |- _ => specialize (H ltac:(lia)) end; lia);
    rewrite replace_start by (cbn [kwarg]; rewrite ?Ly, ?Lm; lia);
    cbn [bind kwarg dt_tz]; rewrite Ly, Lm;
    rewrite end_of_day_ok by (cbn [dt_local]; rewrite MAX_LOCAL_eq, DAY_lit in *; lia);
    cbn [bind dt_local dt_tz];
    rewrite div_day by (rewrite DAY_lit; lia);
    rewrite tz_tag; do 4 f_equal; lia
  end.
Qed.

Lemma gdr_next_month (now : datetime) (p : string) (aw : bool) (y m d : Z) :
  0 <= dt_local now < MAX_LOCAL -> dt_ymd now = (y, m, d) ->
  p = "next_month"%string \/ p = "next month"%string ->
  get_date_range now p aw =
  if (y =? MAXYEAR) && (m =? 12) then Error (ValueError "year 10000 is out of range")
  else
    let '(ny, nm) := if m =? 12 then (y + 1, 1) else (y, m + 1) in
    Ok (as_tz aw (mk_dt ((ymd2ord ny nm 1 - 1) * DAY) (dt_tz now)),
        as_tz aw (mk_dt (ymd2ord ny nm (days_in_month ny nm) * DAY - 1) (dt_tz now))).
Proof.
  intros Hv E Hp.
  replace (get_date_range now p aw) with (get_date_range now "next month" aw)
    by (destruct Hp as [->| ->]; [period_branch; reflexivity | reflexivity]).
  period_branch.
  pose proof (dt_ymd_valid now Hv) as V. rewrite E in V. destruct V as [Hy [Hm [Hd _]]].
  destruct (dt_fields _ _ _ _ E) as [Ey [Em _]].
  pose proof (dim_pos y m Hm).
  rewrite replace_start by (cbn [kwarg]; rewrite ?Ey, ?Em; lia). cbn [bind kwarg].
  rewrite Ey, Em, !replace_date_midnight by lia. cbn [kwarg].
  destruct (Z.eqb_spec m 12) as [Hm12|Hm12]; destruct (Z.eqb_spec y MAXYEAR) as [HyM|HyM];
    cbn [andb].
  1: { rewrite HyM. reflexivity. }
  all: cbv beta iota.
  all: match goal with |- context [datetime_full ?ny ?nm 1 0 0 0 0 ?tz] =>
    pose proof (dim_pos ny nm ltac:(lia));
    rewrite (datetime_full_ok ny nm 1 0 0 0 0 tz) by (unfold MAXYEAR in *; lia);
    cbn [bind];
    replace ((ymd2ord ny nm 1 - 1) * DAY + 0 * HOUR + 0 * MINUTE + 0 * SECOND + 0)
      with ((ymd2ord ny nm 1 - 1) * DAY + 0) by ring;
    pose proof (dt_ymd_mk ny nm 1 0 tz ltac:(lia) ltac:(lia) ltac:(rewrite DAY_lit; lia)) as ES;
    destruct (dt_fields _ _ _ _ ES) as [Sy [Sm _]];
    unfold monthrange_days; rewrite Sy, Sm;
    rewrite replace_end by (cbn [kwarg]; rewrite ?Sy, ?Sm; unfold MAXYEAR in *; lia);
    cbn [bind kwarg dt_tz]; rewrite Sy, Sm;
    rewrite tz_tag; do 4 f_equal; ring
  end.
Qed.

Lemma gdr_this_year (now : datetime) (p : string) (aw : bool) :
  0 <= dt_local now < MAX_LOCAL ->
  p = "this_year"%string \/ p = "this year"%string ->
  get_date_range now p aw =
  Ok (as_tz aw (mk_dt (days_before_year (dt_year now) * DAY) (dt_tz now)),
      as_tz aw (mk_dt (days_before_year (dt_year now + 1) * DAY - 1) (dt_tz now))).
Proof.
  intros Hv Hp.
  replace (get_date_range now p aw) with (get_date_range now "this year" aw)
    by (destruct Hp as [->| ->]; [period_branch; reflexivity | reflexivity]).
  period_branch.
  pose proof (dt_ymd_valid now Hv) as V. unfold dt_year.
  destruct (dt_ymd now) as [[y m] d] eqn:E. destruct V as [Hy _]. cbn [fst].
  destruct (dt_fields _ _ _ _ E) as [Ey _].
  assert (D12 : days_in_month y 12 = 31) by
    (rewrite days_in_month_l; apply (month_12_facts (is_leap y))).
  pose proof (dim_pos y 1 ltac:(lia)).
  rewrite replace_start by (cbn [kwarg]; rewrite ?Ey; lia). cbn [bind kwarg].
  rewrite replace_end by (cbn [kwarg]; rewrite ?Ey, ?D12; lia). cbn [bind kwarg].
  rewrite Ey, ymd2ord_year_start, ymd2ord_year_end, tz_tag. do 4 f_equal. ring.
Qed.

Lemma gdr_last_year (now : datetime) (p : string) (aw : bool) :
  0 <= dt_local now < MAX_LOCAL ->
  p = "last_year"%string \/ p = "last year"%string ->
  get_date_range now p aw =
  if dt_year now =? 1 then Error (ValueError "year 0 is out of range")
  else
    Ok (as_tz aw (mk_dt (days_before_year (dt_year now - 1) * DAY) (dt_tz now)),
        as_tz aw (mk_dt (days_before_year (dt_year now) * DAY - 1) (dt_tz now))).
Proof.
  intros Hv Hp.
  replace (get_date_range now p aw) with (get_date_range now "last year" aw)
    by (destruct Hp as [->| ->]; [period_branch; reflexivity | reflexivity]).
  period_branch.
  pose proof (dt_ymd_valid now Hv) as V.
  destruct (dt_ymd now) as [[y m] d] eqn:E. destruct V as [Hy _].
  destruct (dt_fields _ _ _ _ E) as [Ey _]. rewrite Ey.
  destruct (Z.eqb_spec y 1) as [->|Hy1].
  - rewrite dt_replace_eq, Ey. reflexivity.
  - assert (D12 : days_in_month (y - 1) 12 = 31) by
      (rewrite days_in_month_l; apply (month_12_facts (is_leap (y - 1)))).
    pose proof (dim_pos (y - 1) 1 ltac:(lia)).
    rewrite replace_start by (cbn [kwarg]; rewrite ?Ey; unfold MAXYEAR in *; lia).
    cbn [bind kwarg].
    rewrite replace_end by (cbn [kwarg]; rewrite ?Ey, ?D12; unfold MAXYEAR in *; lia).
    cbn [bind kwarg].
    rewrite ?Ey, ymd2ord_year_start, ymd2ord_year_end, tz_tag.
    replace (y - 1 + 1) with y by ring. do 4 f_equal. ring.
Qed.

Lemma as_tz_local (aw : bool) (d : datetime) : dt_local (as_tz aw d) = dt_local d.
Proof. destruct aw; reflexivity. Qed.

Lemma ok_pair_inv {A B : Type} (a a' : A) (b b' : B) :
  @Ok (A * B) (a, b) = Ok (a', b') -> a = a' /\ b = b'.
Proof. intros H. inversion H. auto. Qed.

Lemma local_day_bounds (l : Z) : 0 <= l -> l / DAY * DAY <= l < (l / DAY + 1) * DAY.
Proof. intros H. rewrite DAY_lit. Z.div_mod_to_equations. lia. Qed.

(** X12: For the periods 'today', 'this_week', 'this week', 'this_month', 'this month', 'this_year' and 'this year', a successful get_date_range returns a range whose start is at or before now and whose end is at or after now. *)
Theorem get_date_range_contains_now (now : datetime) (p : string) (aw : bool) (s e : datetime) :
  0 <= dt_local now < MAX_LOCAL ->
  In p ["today"; "this_week"; "this week"; "this_month"; "this month";
        "this_year"; "this year"]%string ->
  get_date_range now p aw = Ok (s, e) ->
  dt_local s <= dt_local now <= dt_local e.
Proof.
  intros Hv Hp Hr.
  pose proof (local_day_bounds (dt_local now) ltac:(lia)) as LB.
  pose proof (dt_ymd_valid now Hv) as V.
  destruct (dt_ymd now) as [[y m] d] eqn:E.
  destruct V as [Hy [Hm [Hd Ho]]].
  cbn [In] in Hp.
  destruct Hp as [<-|[<-|[<-|[<-|[<-|[<-|[<-|[]]]]]]]].
  - rewrite gdr_today in Hr by auto.
    apply ok_pair_inv in Hr. destruct Hr as [<- <-]. rewrite !as_tz_local. cbn [dt_local]. lia.
  - rewrite gdr_this_week in Hr by auto. cbv zeta in Hr.
    destruct (_ <=? MAX_LOCAL); [|discriminate].
    apply ok_pair_inv in Hr. destruct Hr as [<- <-]. rewrite !as_tz_local. cbn [dt_local].
    pose proof (Z.mod_pos_bound (dt_local now / DAY) 7 ltac:(lia)). rewrite DAY_lit in *. lia.
  - rewrite gdr_this_week in Hr by auto. cbv zeta in Hr.
    destruct (_ <=? MAX_LOCAL); [|discriminate].
    apply ok_pair_inv in Hr. destruct Hr as [<- <-]. rewrite !as_tz_local. cbn [dt_local].
    pose proof (Z.mod_pos_bound (dt_local now / DAY) 7 ltac:(lia)). rewrite DAY_lit in *. lia.
  - rewrite (gdr_this_month now _ aw y m d) in Hr by auto.
    apply ok_pair_inv in Hr. destruct Hr as [<- <-]. rewrite !as_tz_local. cbn [dt_local].
    pose proof (first_of_month_bounds now y m d Hv E).
    pose proof (ymd2ord_mono_day y m d (days_in_month y m) ltac:(lia)).
    rewrite DAY_lit in *. lia.
  - rewrite (gdr_this_month now _ aw y m d) in Hr by auto.
    apply ok_pair_inv in Hr. destruct Hr as [<- <-]. rewrite !as_tz_local. cbn [dt_local].
    pose proof (first_of_month_bounds now y m d Hv E).
    pose proof (ymd2ord_mono_day y m d (days_in_month y m) ltac:(lia)).
    rewrite DAY_lit in *. lia.
  - rewrite gdr_this_year in Hr by auto.
    apply ok_pair_inv in Hr. destruct Hr as [<- <-]. rewrite !as_tz_local. cbn [dt_local].
    destruct (dt_fields _ _ _ _ E) as [-> _].
    pose proof (ymd2ord_year_bounds y m d Hm Hd). rewrite DAY_lit in *. lia.
  - rewrite gdr_this_year in Hr by auto.
    apply ok_pair_inv in Hr. destruct Hr as [<- <-]. rewrite !as_tz_local. cbn [dt_local].
    destruct (dt_fields _ _ _ _ E) as [-> _].
    pose proof (ymd2ord_year_bounds y m d Hm Hd). rewrite DAY_lit in *. lia.
Qed.

(** X13: The ranges of consecutive periods touch with no gap or overlap. The end of 'last_week' is one microsecond before the start of 'this_week', and the same holds for this_week/next_week, last_month/this_month, this_month/next_month and last_year/this_year. *)
Theorem get_date_range_adjacent (now : datetime) (p q : string) (aw : bool) (s1 e1 s2 e2 : datetime) :
  0 <= dt_local now < MAX_LOCAL ->
  In (p, q) [("last_week", "this_week"); ("this_week", "next_week");
             ("last_month", "this_month"); ("this_month", "next_month");
             ("last_year", "this_year")]%string ->
  get_date_range now p aw = Ok (s1, e1) ->
  get_date_range now q aw = Ok (s2, e2) ->
  dt_local e1 + 1 = dt_local s2.
Proof.
  intros Hv Hpq H1 H2.
  pose proof (dt_ymd_valid now Hv) as V.
  destruct (dt_ymd now) as [[y m] d] eqn:E.
  destruct V as [Hy [Hm [Hd Ho]]].
  cbn [In] in Hpq.
  destruct Hpq as [Hpq|[Hpq|[Hpq|[Hpq|[Hpq|[]]]]]]; injection Hpq as <- <-.
  - rewrite gdr_last_week in H1 by auto.
    rewrite gdr_this_week in H2 by auto. cbv zeta in H1, H2.
    destruct (7 <=? _); [|discriminate]. destruct (_ <=? MAX_LOCAL); [|discriminate].
    apply ok_pair_inv in H1. apply ok_pair_inv in H2.
    destruct H1 as [_ <-]. destruct H2 as [<- _]. rewrite !as_tz_local. cbn [dt_local]. lia.
  - rewrite gdr_this_week in H1 by auto.
    rewrite gdr_next_week in H2 by auto. cbv zeta in H1, H2.
    destruct ((_ + 7) * DAY <=? MAX_LOCAL); [|discriminate].
    destruct ((_ + 14) * DAY <=? MAX_LOCAL); [|discriminate].
    apply ok_pair_inv in H1. apply ok_pair_inv in H2.
    destruct H1 as [_ <-]. destruct H2 as [<- _]. rewrite !as_tz_local. cbn [dt_local]. lia.
  - rewrite (gdr_last_month now _ aw y m d) in H1 by auto.
    rewrite (gdr_this_month now _ aw y m d) in H2 by auto.
    destruct ((y =? 1) && (m =? 1)); [discriminate|].
    destruct (m =? 1);
    apply ok_pair_inv in H1; apply ok_pair_inv in H2;
    destruct H1 as [_ <-]; destruct H2 as [<- _]; rewrite !as_tz_local; cbn [dt_local]; lia.
  - rewrite (gdr_this_month now _ aw y m d) in H1 by auto.
    rewrite (gdr_next_month now _ aw y m d) in H2 by auto.
    destruct ((y =? MAXYEAR) && (m =? 12)); [discriminate|].
    apply ok_pair_inv in H1. destruct H1 as [_ <-].
    destruct (Z.eqb_spec m 12) as [Hm12|Hm12]; [subst m|]; cbv beta iota in H2;
    apply ok_pair_inv in H2; destruct H2 as [<- _]; rewrite !as_tz_local; cbn [dt_local].
    + pose proof (ymd2ord_prev_month (y + 1) 1 ltac:(lia)) as P. cbv beta iota in P.
      replace (y + 1 - 1) with y in P by ring. destruct P as [_ P]. lia.
    + pose proof (ymd2ord_prev_month y (m + 1) ltac:(lia)) as P.
      destruct (Z.eqb_spec (m + 1) 1); [lia|]. cbv beta iota in P.
      replace (m + 1 - 1) with m in P by ring. destruct P as [_ P]. lia.
  - rewrite gdr_last_year in H1 by auto.
    rewrite gdr_this_year in H2 by auto.
    destruct (dt_year now =? 1); [discriminate|].
    apply ok_pair_inv in H1. apply ok_pair_inv in H2.
    destruct H1 as [_ <-]. destruct H2 as [<- _]. rewrite !as_tz_local. cbn [dt_local]. lia.
Qed.

Lemma today_of_ok (now : datetime) :
  0 <= dt_local now < MAX_LOCAL -> today_of now = Ok (mk_dt (dt_local now / DAY * DAY) None).
Proof.
  intros Hv. unfold today_of, dt_year, dt_month, dt_day.
  pose proof (dt_ymd_valid now Hv) as V.
  destruct (dt_ymd now) as [[y m] d]. destruct V as [Hy [Hm [Hd Ho]]]. cbn [fst snd].
  unfold datetime_new.
  repeat match goal with
  | |- context [negb ((?a <=? ?b) && (?b <=? ?c))] =>
      replace ((a <=? b) && (b <=? c)) with true
        by (symmetry; apply andb_true_iff; split; apply Z.leb_le; lia)
  end.
  cbn [negb]. rewrite Ho. do 2 f_equal. ring.
Qed.

Lemma weekday_day (l : Z) (tz : option Z) : 0 <= l -> weekday (mk_dt l tz) = (l / DAY) mod 7.
Proof.
  intros Hl. unfold weekday, toordinal, dt_ymd. cbn [dt_local].
  assert (0 <= l / DAY) by (apply Z.div_pos; rewrite ?DAY_lit; lia).
  pose proof (ord2ymd_valid (l / DAY + 1) ltac:(lia)) as V.
  destruct (ord2ymd _) as [[y m] d]. destruct V as [_ [_ [_ ->]]].
  replace (l / DAY + 1 + 6) with (l / DAY + 1 * 7) by ring. apply Z_mod_plus_full.
Qed.

Lemma nth_weekday_cons (d : string) (ds : list string) (j : Z) :
  0 < j -> nth (Z.to_nat j) (d :: ds) ""%string = nth (Z.to_nat (j - 1)) ds ""%string.
Proof.
  intros Hj. replace (Z.to_nat j) with (S (Z.to_nat (j - 1))) by lia. reflexivity.
Qed.

Lemma weekday_loop_hit (now : datetime) (text : string) (days : list string) (i0 j : Z) :
  0 <= j < Z.of_nat (length days) ->
  (forall j', 0 <= j' < j ->
     contains ("next " ++ nth (Z.to_nat j') days "") text = false /\
     contains ("last " ++ nth (Z.to_nat j') days "") text = false)%string ->
  weekday_phrase_loop now text days i0 =
  (if contains ("next " ++ nth (Z.to_nat j) days "") text then Some (next_branch now (i0 + j))
   else if contains ("last " ++ nth (Z.to_nat j) days "") text
   then Some (last_branch now (i0 + j))
   else weekday_phrase_loop now text (skipn (S (Z.to_nat j)) days) (i0 + j + 1))%string.
Proof.
  revert i0 j. induction days as [|d ds IH]; intros i0 j Hj Hb; cbn [length] in Hj; [lia|].
  destruct (Z.eq_dec j 0) as [->|Hj0].
  - cbn [weekday_phrase_loop nth Z.to_nat skipn]. rewrite !Z.add_0_r. reflexivity.
  - cbn [weekday_phrase_loop].
    destruct (Hb 0 ltac:(lia)) as [H1 H2]. cbn [nth Z.to_nat] in H1, H2. rewrite H1, H2.
    rewrite (IH (i0 + 1) (j - 1)) by
      (try lia; intros j' Hj'; pose proof (Hb (j' + 1) ltac:(lia)) as Hb';
       rewrite nth_weekday_cons in Hb' by lia;
       replace (j' + 1 - 1) with j' in Hb' by ring; exact Hb').
    rewrite !nth_weekday_cons by lia.
    replace (i0 + 1 + (j - 1)) with (i0 + j) by ring.
    replace (S (Z.to_nat j)) with (S (S (Z.to_nat (j - 1)))) by lia. reflexivity.
Qed.

Lemma weekday_loop_none (now : datetime) (text : string) (days : list string) (i0 : Z) :
  forallb (fun day => negb (contains ("next " ++ day) text) &&
                      negb (contains ("last " ++ day) text))%string days = true ->
  weekday_phrase_loop now text days i0 = None.
Proof.
  revert i0. induction days as [|d ds IH]; intros i0 H; [reflexivity|].
  cbn [forallb] in H. apply andb_true_iff in H. destruct H as [H Hr].
  apply andb_true_iff in H. destruct H as [H1 H2].
  apply negb_true_iff in H1. apply negb_true_iff in H2.
  cbn [weekday_phrase_loop]. rewrite H1, H2. apply IH, Hr.
Qed.

Lemma text_of (now : datetime) (t : string) :
  parse_natural_language_date now t =
  (let text := strip (lower t) in
   if String.eqb text "today" then d <- today_of now;; Ok (Some d)
   else if String.eqb text "tomorrow" then
     today <- today_of now;; td <- timedelta_days 1;; d <- dt_add today td;; Ok (Some d)
   else if String.eqb text "yesterday" then
     today <- today_of now;; td <- timedelta_days 1;; d <- dt_sub today td;; Ok (Some d)
   else
     match weekday_phrase_loop now text WEEKDAYS 0 with
     | Some r => r
     | None =>
         let in_branch :=
           match match_in text with
           | Some (g1, unit) =>
               match unit_days unit (decimal_value g1) with
               | Some n => Some (td <- timedelta_days n;; d <- dt_add now td;; Ok (Some d))
               | None => None
               end
           | None => None
           end in
         match in_branch with
         | Some r => r
         | None =>
             match match_ago text with
             | Some (g1, unit) =>
                 match unit_days unit (decimal_value g1) with
                 | Some n => td <- timedelta_days n;; d <- dt_sub now td;; Ok (Some d)
                 | None => Ok None
                 end
             | None => Ok None
             end
         end
     end)%string.
Proof. reflexivity. Qed.

(** X14: parse_natural_language_date on a text that is 'today', 'tomorrow' or 'yesterday' after lower() and strip() returns the naive midnight of the current day shifted by 0, +1 or -1 days. It raises OverflowError when that day is outside 0001-01-01..9999-12-31. *)
Theorem parse_nl_relative_day (now : datetime) (t : string) (k : Z) :
  0 <= dt_local now < MAX_LOCAL ->
  In (strip (lower t), k) [("today", 0); ("tomorrow", 1); ("yesterday", -1)]%string ->
  parse_natural_language_date now t =
  if (0 <=? dt_local now / DAY + k) && ((dt_local now / DAY + k + 1) * DAY <=? MAX_LOCAL)
  then Ok (Some (mk_dt ((dt_local now / DAY + k) * DAY) None))
  else Error (OverflowError "date value out of range").
Proof.
  intros Hv Hin. rewrite text_of. cbv zeta.
  pose proof (local_day_bounds (dt_local now) ltac:(lia)) as LB.
  pose proof (Z.div_pos (dt_local now) DAY ltac:(lia) ltac:(rewrite DAY_lit; lia)) as Hp.
  assert (HM : (dt_local now / DAY + 1) * DAY <= MAX_LOCAL).
  { rewrite MAX_LOCAL_eq in *. rewrite DAY_lit in *. lia. }
  rewrite today_of_ok by exact Hv.
  cbn [In] in Hin.
  destruct Hin as [Hin|[Hin|[Hin|[]]]]; injection Hin as <- <-;
    cbn [String.eqb Ascii.eqb Bool.eqb andb bind].
  - replace ((0 <=? dt_local now / DAY + 0) && ((dt_local now / DAY + 0 + 1) * DAY <=? MAX_LOCAL))
      with true by (symmetry; apply andb_true_iff; split; [apply Z.leb_le | apply Z.leb_le]; lia).
    cbv iota. do 3 f_equal. ring.
  - rewrite timedelta_days_ok by lia. cbn [bind].
    destruct ((dt_local now / DAY + 1 + 1) * DAY <=? MAX_LOCAL) eqn:E;
      [apply Z.leb_le in E | apply Z.leb_gt in E];
      replace (0 <=? dt_local now / DAY + 1) with true by (symmetry; apply Z.leb_le; lia);
      cbn [andb].
    + rewrite dt_add_ok by (cbn [dt_local]; day_lia). cbn [bind dt_local dt_tz].
      do 3 f_equal. ring.
    + rewrite dt_add_err by (cbn [dt_local]; day_lia). reflexivity.
  - rewrite timedelta_days_ok by lia. cbn [bind]. unfold dt_sub.
    replace ((dt_local now / DAY + -1 + 1) * DAY <=? MAX_LOCAL) with true
      by (symmetry; apply Z.leb_le; lia).
    rewrite andb_true_r.
    destruct (0 <=? dt_local now / DAY + -1) eqn:E; [apply Z.leb_le in E | apply Z.leb_gt in E].
    + rewrite dt_add_ok by (cbn [dt_local]; day_lia). cbn [bind dt_local dt_tz].
      do 3 f_equal. ring.
    + rewrite dt_add_err by (cbn [dt_local]; day_lia). reflexivity.
Qed.

Lemma not_in3_eqb (s : string) :
  ~ In s ["today"; "tomorrow"; "yesterday"]%string ->
  String.eqb s "today" = false /\ String.eqb s "tomorrow" = false /\
  String.eqb s "yesterday" = false.
Proof.
  intros H. repeat split; apply String.eqb_neq; intros ->; apply H; cbn; tauto.
Qed.

Lemma length_WEEKDAYS : Z.of_nat (length WEEKDAYS) = 7.
Proof. reflexivity. Qed.

(** X15: When the first weekday phrase found, scanning Monday to Sunday, is 'next <day>', parse_natural_language_date returns a naive midnight 1 to 7 days after today that falls on that weekday. It raises OverflowError past 9999-12-31. *)
Theorem parse_nl_next_weekday (now : datetime) (t : string) (i : Z) :
  0 <= dt_local now < MAX_LOCAL -> 0 <= i < 7 ->
  ~ In (strip (lower t)) ["today"; "tomorrow"; "yesterday"]%string ->
  (forall j, 0 <= j < i ->
     contains ("next " ++ nth (Z.to_nat j) WEEKDAYS "") (strip (lower t)) = false /\
     contains ("last " ++ nth (Z.to_nat j) WEEKDAYS "") (strip (lower t)) = false)%string ->
  contains ("next " ++ nth (Z.to_nat i) WEEKDAYS "") (strip (lower t)) = true ->
  exists k, 1 <= k <= 7 /\
    weekday (mk_dt ((dt_local now / DAY + k) * DAY) None) = i /\
    parse_natural_language_date now t =
    if (dt_local now / DAY + k + 1) * DAY <=? MAX_LOCAL
    then Ok (Some (mk_dt ((dt_local now / DAY + k) * DAY) None))
    else Error (OverflowError "date value out of range").
Proof.
  intros Hv Hi Hn Hb Hc. rewrite text_of. cbv zeta.
  destruct (not_in3_eqb _ Hn) as [E1 [E2 E3]]. rewrite E1, E2, E3.
  rewrite (weekday_loop_hit now _ WEEKDAYS 0 i) by (rewrite ?length_WEEKDAYS; auto).
  rewrite Hc, Z.add_0_l. unfold next_branch. cbv zeta.
  rewrite weekday_eq, today_of_ok by exact Hv. cbn [bind].
  pose proof (Z.div_pos (dt_local now) DAY ltac:(lia) ltac:(rewrite DAY_lit; lia)) as Hp.
  set (o := dt_local now / DAY) in *.
  pose proof (Z.mod_pos_bound o 7 ltac:(lia)) as Hw.
  pose proof (Z.mod_pos_bound (i - o mod 7) 7 ltac:(lia)) as Hx.
  exists (if (i - o mod 7) mod 7 =? 0 then 7 else (i - o mod 7) mod 7).
  assert (Hk : 1 <= (if (i - o mod 7) mod 7 =? 0 then 7 else (i - o mod 7) mod 7) <= 7)
    by (destruct (Z.eqb_spec ((i - o mod 7) mod 7) 0); lia).
  assert (Hwd : (o + (if (i - o mod 7) mod 7 =? 0 then 7 else (i - o mod 7) mod 7)) mod 7 = i).
  { destruct (Z.eqb_spec ((i - o mod 7) mod 7) 0) as [H0|H0];
      Z.div_mod_to_equations; lia. }
  set (k := if (i - o mod 7) mod 7 =? 0 then 7 else (i - o mod 7) mod 7) in *.
  split; [exact Hk|]. split.
  - rewrite weekday_day by (rewrite DAY_lit; lia).
    replace ((o + k) * DAY) with ((o + k) * DAY + 0) by ring.
    rewrite div_day by (rewrite DAY_lit; lia). exact Hwd.
  - rewrite timedelta_days_ok by lia. cbn [bind].
    assert (LB : o * DAY <= dt_local now) by (apply (local_day_bounds (dt_local now)); lia).
    destruct ((o + k + 1) * DAY <=? MAX_LOCAL) eqn:E; [apply Z.leb_le in E | apply Z.leb_gt in E].
    + rewrite dt_add_ok by (cbn [dt_local]; day_lia). cbn [bind dt_local dt_tz].
      do 3 f_equal. ring.
    + rewrite dt_add_err by (cbn [dt_local]; day_lia). reflexivity.
Qed.

(** X16: When the first weekday phrase found, scanning Monday to Sunday, is 'last <day>', parse_natural_language_date returns a naive midnight 1 to 7 days before today that falls on that weekday. It raises OverflowError before 0001-01-01. *)
Theorem parse_nl_last_weekday (now : datetime) (t : string) (i : Z) :
  0 <= dt_local now < MAX_LOCAL -> 0 <= i < 7 ->
  ~ In (strip (lower t)) ["today"; "tomorrow"; "yesterday"]%string ->
  (forall j, 0 <= j < i ->
     contains ("next " ++ nth (Z.to_nat j) WEEKDAYS "") (strip (lower t)) = false /\
     contains ("last " ++ nth (Z.to_nat j) WEEKDAYS "") (strip (lower t)) = false)%string ->
  contains ("next " ++ nth (Z.to_nat i) WEEKDAYS "") (strip (lower t)) = false ->
  contains ("last " ++ nth (Z.to_nat i) WEEKDAYS "") (strip (lower t)) = true ->
  exists k, 1 <= k <= 7 /\
    (0 <= dt_local now / DAY - k -> weekday (mk_dt ((dt_local now / DAY - k) * DAY) None) = i) /\
    parse_natural_language_date now t =
    if 0 <=? dt_local now / DAY - k
    then Ok (Some (mk_dt ((dt_local now / DAY - k) * DAY) None))
    else Error (OverflowError "date value out of range").
Proof.
  intros Hv Hi Hn Hb Hc1 Hc. rewrite text_of. cbv zeta.
  destruct (not_in3_eqb _ Hn) as [E1 [E2 E3]]. rewrite E1, E2, E3.
  rewrite (weekday_loop_hit now _ WEEKDAYS 0 i) by (rewrite ?length_WEEKDAYS; auto).
  rewrite Hc1, Hc, Z.add_0_l. unfold last_branch. cbv zeta.
  rewrite weekday_eq, today_of_ok by exact Hv. cbn [bind].
  pose proof (Z.div_pos (dt_local now) DAY ltac:(lia) ltac:(rewrite DAY_lit; lia)) as Hp.
  set (o := dt_local now / DAY) in *.
  pose proof (Z.mod_pos_bound o 7 ltac:(lia)) as Hw.
  pose proof (Z.mod_pos_bound (o mod 7 - i) 7 ltac:(lia)) as Hx.
  exists (if (o mod 7 - i) mod 7 =? 0 then 7 else (o mod 7 - i) mod 7).
  assert (Hk : 1 <= (if (o mod 7 - i) mod 7 =? 0 then 7 else (o mod 7 - i) mod 7) <= 7)
    by (destruct (Z.eqb_spec ((o mod 7 - i) mod 7) 0); lia).
  assert (Hwd : (o - (if (o mod 7 - i) mod 7 =? 0 then 7 else (o mod 7 - i) mod 7)) mod 7 = i).
  { destruct (Z.eqb_spec ((o mod 7 - i) mod 7) 0) as [H0|H0];
      Z.div_mod_to_equations; lia. }
  set (k := if (o mod 7 - i) mod 7 =? 0 then 7 else (o mod 7 - i) mod 7) in *.
  split; [exact Hk|]. split.
  - intros Hok. rewrite weekday_day by (rewrite DAY_lit; lia).
    replace ((o - k) * DAY) with ((o - k) * DAY + 0) by ring.
    rewrite div_day by (rewrite DAY_lit; lia). exact Hwd.
  - rewrite timedelta_days_ok by lia. cbn [bind]. unfold dt_sub.
    assert (LB : o * DAY <= dt_local now) by (apply (local_day_bounds (dt_local now)); lia).
    destruct (0 <=? o - k) eqn:E; [apply Z.leb_le in E | apply Z.leb_gt in E].
    + rewrite dt_add_ok by (cbn [dt_local]; day_lia). cbn [bind dt_local dt_tz].
      do 3 f_equal. ring.
    + rewrite dt_add_err by (cbn [dt_local]; day_lia). reflexivity.
Qed.

Lemma drop_prefix_app (p s : string) : drop_prefix p (p ++ s) = Some s.
Proof. induction p as [|c p IH]; cbn; [reflexivity|]. now rewrite Ascii.eqb_refl. Qed.

Lemma take_digits_app (ds r : string) :
  forallb is_digit (list_ascii_of_string ds) = true ->
  take_digits (ds ++ String " " r) = (ds, String " " r).
Proof.
  induction ds as [|c ds IH]; intros H; [reflexivity|].
  cbn [forallb list_ascii_of_string] in H. apply andb_true_iff in H. destruct H as [Hc H].
  cbn [String.append take_digits]. rewrite Hc, IH by exact H. reflexivity.
Qed.

Lemma decimal_value_aux_nonneg (ds : string) (acc : Z) :
  0 <= acc -> forallb is_digit (list_ascii_of_string ds) = true -> 0 <= decimal_value_aux ds acc.
Proof.
  revert acc. induction ds as [|c ds IH]; intros acc Ha H; [exact Ha|].
  cbn [forallb list_ascii_of_string] in H. apply andb_true_iff in H. destruct H as [Hc H].
  cbn [decimal_value_aux]. apply IH; [|exact H].
  unfold is_digit in Hc. apply andb_true_iff in Hc. destruct Hc as [Hc _].
  apply Nat.leb_le in Hc. lia.
Qed.

Lemma decimal_value_nonneg (ds : string) :
  forallb is_digit (list_ascii_of_string ds) = true -> 0 <= decimal_value ds.
Proof. intros H. apply decimal_value_aux_nonneg; [lia | exact H]. Qed.

Lemma eqb_head_false (c d : ascii) (r s : string) :
  c <> d -> String.eqb (String c r) (String d s) = false.
Proof. intros H. apply String.eqb_neq. intros E. injection E. auto. Qed.

Lemma match_unit_in (u rest : string) (f v : Z) :
  In (u, f) unit_factors ->
  exists u', match_unit "" (u ++ rest) = Some u' /\ unit_days u' v = Some (v * f).
Proof.
  unfold unit_factors. cbn [In].
  intros H; repeat destruct H as [H|H]; try contradiction; injection H as <- <-;
    (eexists; split; [destruct rest; reflexivity | unfold unit_days; cbn; f_equal; ring]).
Qed.

Lemma match_unit_ago (u rest : string) (f v : Z) :
  In (u, f) unit_factors ->
  exists u', match_unit " ago" (u ++ " ago" ++ rest) = Some u' /\ unit_days u' v = Some (v * f).
Proof.
  unfold unit_factors. cbn [In].
  intros H; repeat destruct H as [H|H]; try contradiction; injection H as <- <-;
    (eexists; split; [destruct rest; reflexivity | unfold unit_days; cbn; f_equal; ring]).
Qed.

Lemma timedelta_days_big (n : Z) :
  999999999 < n -> exists msg, timedelta_days n = Error (OverflowError msg).
Proof.
  intros H. unfold timedelta_days.
  replace (Z.abs n <=? 999999999) with false by (symmetry; apply Z.leb_gt; lia).
  destruct (_ && _); eexists; reflexivity.
Qed.

(** X17: For a text 'in N day(s)/week(s)/month(s)...' with no weekday phrase, parse_natural_language_date returns now plus N, 7N or 30N days, keeping the time of day and tzinfo. It raises OverflowError past 9999-12-31, and also when that day count exceeds 999999999, the timedelta limit. *)
Theorem parse_nl_in_units (now : datetime) (t ds u rest : string) (f : Z) :
  0 <= dt_local now < MAX_LOCAL ->
  strip (lower t) = ("in " ++ ds ++ " " ++ u ++ rest)%string ->
  ds <> ""%string -> forallb is_digit (list_ascii_of_string ds) = true ->
  In (u, f) unit_factors ->
  forallb (fun day => negb (contains ("next " ++ day) (strip (lower t))) &&
                      negb (contains ("last " ++ day) (strip (lower t))))%string WEEKDAYS = true ->
  (decimal_value ds * f <= 999999999 ->
   parse_natural_language_date now t =
   if dt_local now + decimal_value ds * f * DAY <? MAX_LOCAL
   then Ok (Some (mk_dt (dt_local now + decimal_value ds * f * DAY) (dt_tz now)))
   else Error (OverflowError "date value out of range")) /\
  (999999999 < decimal_value ds * f ->
   exists msg, parse_natural_language_date now t = Error (OverflowError msg)).
Proof.
  intros Hv Ht Hne Hd Hu Hw.
  pose proof (decimal_value_nonneg ds Hd) as Hpos.
  assert (Hf : 1 <= f) by (unfold unit_factors in Hu; cbn [In] in Hu;
    repeat destruct Hu as [Hu|Hu]; try contradiction; injection Hu as _ <-; lia).
  rewrite text_of. cbv zeta. rewrite Ht in *.
  replace (String.eqb ("in " ++ ds ++ " " ++ u ++ rest) "today") with false by reflexivity.
  replace (String.eqb ("in " ++ ds ++ " " ++ u ++ rest) "tomorrow") with false by reflexivity.
  replace (String.eqb ("in " ++ ds ++ " " ++ u ++ rest) "yesterday") with false by reflexivity.
  rewrite weekday_loop_none by exact Hw.
  unfold match_in. rewrite drop_prefix_app.
  change (" " ++ u ++ rest)%string with (String " " (u ++ rest)).
  rewrite take_digits_app by exact Hd.
  replace (String.eqb ds "") with false by (symmetry; apply String.eqb_neq; exact Hne).
  change (drop_prefix " " (String " " (u ++ rest))) with (Some (u ++ rest)%string).
  destruct (match_unit_in u rest f (decimal_value ds) Hu) as [u' [Hm Hud]].
  rewrite Hm. cbn [option_map]. rewrite Hud.
  split.
  - intros Hs. rewrite timedelta_days_ok by lia. cbn [bind].
    destruct (dt_local now + decimal_value ds * f * DAY <? MAX_LOCAL) eqn:E;
      [apply Z.ltb_lt in E | apply Z.ltb_ge in E].
    + rewrite dt_add_ok by (rewrite DAY_lit in *; nia). reflexivity.
    + rewrite dt_add_err by lia. reflexivity.
  - intros Hs. destruct (timedelta_days_big _ Hs) as [msg Hmsg].
    exists msg. rewrite Hmsg. reflexivity.
Qed.

(** X18: For a text 'N day(s)/week(s)/month(s) ago...' with no weekday phrase, parse_natural_language_date returns now minus N, 7N or 30N days, keeping the time of day and tzinfo. It raises OverflowError before 0001-01-01, and also when that day count exceeds 999999999. *)
Theorem parse_nl_units_ago (now : datetime) (t ds u rest : string) (f : Z) :
  0 <= dt_local now < MAX_LOCAL ->
  strip (lower t) = (ds ++ " " ++ u ++ " ago" ++ rest)%string ->
  ds <> ""%string -> forallb is_digit (list_ascii_of_string ds) = true ->
  In (u, f) unit_factors ->
  forallb (fun day => negb (contains ("next " ++ day) (strip (lower t))) &&
                      negb (contains ("last " ++ day) (strip (lower t))))%string WEEKDAYS = true ->
  (decimal_value ds * f <= 999999999 ->
   parse_natural_language_date now t =
   if 0 <=? dt_local now - decimal_value ds * f * DAY
   then Ok (Some (mk_dt (dt_local now - decimal_value ds * f * DAY) (dt_tz now)))
   else Error (OverflowError "date value out of range")) /\
  (999999999 < decimal_value ds * f ->
   exists msg, parse_natural_language_date now t = Error (OverflowError msg)).
Proof.
  intros Hv Ht Hne Hd Hu Hw.
  pose proof (decimal_value_nonneg ds Hd) as Hpos.
  assert (Hf : 1 <= f) by (unfold unit_factors in Hu; cbn [In] in Hu;
    repeat destruct Hu as [Hu|Hu]; try contradiction; injection Hu as _ <-; lia).
  rewrite text_of. cbv zeta. rewrite Ht in *.
  destruct ds as [|c ds0]; [contradiction|].
  cbn [forallb list_ascii_of_string] in Hd. apply andb_true_iff in Hd. destruct Hd as [Hc Hd0].
  assert (Hd : forallb is_digit (list_ascii_of_string (String c ds0)) = true)
    by (cbn [forallb list_ascii_of_string]; now rewrite Hc, Hd0).
  assert (Hneq : forall d, is_digit d = false -> c <> d) by (intros d Hdd ->; congruence).
  change (String c ds0 ++ " " ++ u ++ " ago" ++ rest)%string
    with (String c (ds0 ++ " " ++ u ++ " ago" ++ rest))%string.
  rewrite !eqb_head_false by (apply Hneq; reflexivity).
  rewrite weekday_loop_none by exact Hw.
  unfold match_in. cbn [drop_prefix].
  replace (Ascii.eqb "i" c) with false
    by (symmetry; apply Ascii.eqb_neq; intros E; apply (Hneq "i"%char); [reflexivity | auto]).
  unfold match_ago.
  change (String c (ds0 ++ " " ++ u ++ " ago" ++ rest))%string
    with (String c ds0 ++ String " " (u ++ " ago" ++ rest))%string.
  rewrite take_digits_app by exact Hd.
  change (String.eqb (String c ds0) "") with false.
  change (drop_prefix " " (String " " (u ++ " ago" ++ rest))) with (Some (u ++ " ago" ++ rest)%string).
  destruct (match_unit_ago u rest f (decimal_value (String c ds0)) Hu) as [u' [Hm Hud]].
  rewrite Hm. cbn [option_map]. rewrite Hud.
  split.
  - intros Hs. rewrite timedelta_days_ok by lia. cbn [bind]. unfold dt_sub.
    destruct (0 <=? dt_local now - decimal_value (String c ds0) * f * DAY) eqn:E;
      [apply Z.leb_le in E | apply Z.leb_gt in E].
    + rewrite dt_add_ok by (rewrite DAY_lit in *; nia). cbn [bind].
      reflexivity.
    + rewrite dt_add_err by lia. reflexivity.
  - intros Hs. destruct (timedelta_days_big _ Hs) as [msg Hmsg].
    exists msg. rewrite Hmsg. reflexivity.
Qed.

Lemma as_tz_tz (aw : bool) (a : Z) (tz : option Z) :
  dt_tz (as_tz aw (mk_dt a tz)) = if aw then UTC else tz.
Proof. destruct aw; reflexivity. Qed.

(** [ring] with [DAY] abstracted: left as a constant it makes [ring] slow. *)
Ltac day_ring := first [reflexivity | generalize DAY; intro; ring].

Ltac whole_fin a b :=
  match goal with
  | Hr : Ok (_, _) = Ok (?s, ?e) |- _ =>
      apply ok_pair_inv in Hr; destruct Hr as [<- <-];
      exists a, b; rewrite !as_tz_local; cbn [dt_local];
      split; [day_ring | split; [day_ring | split; [| split; apply as_tz_tz]]]
  end.

Lemma gdr_whole_days (now : datetime) (p : string) (aw : bool) (s e : datetime) :
  0 <= dt_local now < MAX_LOCAL ->
  get_date_range now p aw = Ok (s, e) ->
  exists a b, dt_local s = a * DAY /\ dt_local e = b * DAY - 1 /\ a < b /\
              dt_tz s = (if aw then UTC else dt_tz now) /\
              dt_tz e = (if aw then UTC else dt_tz now).
Proof.
  intros Hv Hr.
  pose proof (dt_ymd_valid now Hv) as V.
  destruct (dt_ymd now) as [[y m] d] eqn:E.
  destruct V as [Hy [Hm [Hd Ho]]].
  destruct (in_dec string_dec p named_periods) as [Hp|Hp].
  2: { rewrite gdr_today in Hr by auto.
       whole_fin (dt_local now / DAY) (dt_local now / DAY + 1); clear; lia. }
  unfold named_periods in Hp. cbn [In] in Hp.
  repeat destruct Hp as [<-|Hp]; try contradiction.
  - rewrite gdr_today in Hr by auto.
    whole_fin (dt_local now / DAY) (dt_local now / DAY + 1); clear; lia.
  - rewrite gdr_yesterday in Hr by auto.
    destruct (Z.eqb_spec (dt_local now / DAY) 0) as [H0|H0]; [discriminate|].
    whole_fin (dt_local now / DAY - 1) (dt_local now / DAY); clear; lia.
  - rewrite gdr_this_week in Hr by auto. cbv zeta in Hr.
    destruct (_ <=? MAX_LOCAL); [|discriminate].
    whole_fin (dt_local now / DAY - (dt_local now / DAY) mod 7)
              (dt_local now / DAY - (dt_local now / DAY) mod 7 + 7); clear; lia.
  - rewrite gdr_this_week in Hr by auto. cbv zeta in Hr.
    destruct (_ <=? MAX_LOCAL); [|discriminate].
    whole_fin (dt_local now / DAY - (dt_local now / DAY) mod 7)
              (dt_local now / DAY - (dt_local now / DAY) mod 7 + 7); clear; lia.
  - rewrite gdr_last_week in Hr by auto. cbv zeta in Hr.
    destruct (7 <=? _); [|discriminate].
    whole_fin (dt_local now / DAY - (dt_local now / DAY) mod 7 - 7)
              (dt_local now / DAY - (dt_local now / DAY) mod 7); clear; lia.
  - rewrite gdr_last_week in Hr by auto. cbv zeta in Hr.
    destruct (7 <=? _); [|discriminate].
    whole_fin (dt_local now / DAY - (dt_local now / DAY) mod 7 - 7)
              (dt_local now / DAY - (dt_local now / DAY) mod 7); clear; lia.
  - rewrite gdr_next_week in Hr by auto. cbv zeta in Hr.
    destruct (_ <=? MAX_LOCAL); [|discriminate].
    whole_fin (dt_local now / DAY - (dt_local now / DAY) mod 7 + 7)
              (dt_local now / DAY - (dt_local now / DAY) mod 7 + 14); clear; lia.
  - rewrite gdr_next_week in Hr by auto. cbv zeta in Hr.
    destruct (_ <=? MAX_LOCAL); [|discriminate].
    whole_fin (dt_local now / DAY - (dt_local now / DAY) mod 7 + 7)
              (dt_local now / DAY - (dt_local now / DAY) mod 7 + 14); clear; lia.
  - rewrite (gdr_this_month now _ aw y m d) in Hr by auto.
    pose proof (dim_pos y m Hm) as Hdim.
    whole_fin (ymd2ord y m 1 - 1) (ymd2ord y m (days_in_month y m)).
    clear - Hdim. unfold ymd2ord. lia.
  - rewrite (gdr_this_month now _ aw y m d) in Hr by auto.
    pose proof (dim_pos y m Hm) as Hdim.
    whole_fin (ymd2ord y m 1 - 1) (ymd2ord y m (days_in_month y m)).
    clear - Hdim. unfold ymd2ord. lia.
  - rewrite (gdr_last_month now _ aw y m d) in Hr by auto.
    destruct ((y =? 1) && (m =? 1)); [discriminate|].
    pose proof (ymd2ord_prev_month y m Hm) as PM.
    destruct (m =? 1); destruct PM as [Hpm PM];
    match type of PM with ymd2ord ?py ?pm _ + 1 = _ =>
      pose proof (dim_pos py pm Hpm) as Hdim;
      whole_fin (ymd2ord py pm 1 - 1) (ymd2ord y m 1 - 1);
      clear - PM Hdim; unfold ymd2ord in *; lia end.
  - rewrite (gdr_last_month now _ aw y m d) in Hr by auto.
    destruct ((y =? 1) && (m =? 1)); [discriminate|].
    pose proof (ymd2ord_prev_month y m Hm) as PM.
    destruct (m =? 1); destruct PM as [Hpm PM];
    match type of PM with ymd2ord ?py ?pm _ + 1 = _ =>
      pose proof (dim_pos py pm Hpm) as Hdim;
      whole_fin (ymd2ord py pm 1 - 1) (ymd2ord y m 1 - 1);
      clear - PM Hdim; unfold ymd2ord in *; lia end.
  - rewrite (gdr_next_month now _ aw y m d) in Hr by auto.
    destruct ((y =? MAXYEAR) && (m =? 12)); [discriminate|].
    destruct (Z.eqb_spec m 12); cbv beta iota in Hr;
    match type of Hr with
    | Ok (as_tz _ (mk_dt ((ymd2ord ?ny ?nm 1 - 1) * DAY) _), _) = _ =>
        assert (Hnm : 1 <= nm <= 12) by lia; pose proof (dim_pos ny nm Hnm) as Hdim;
        whole_fin (ymd2ord ny nm 1 - 1) (ymd2ord ny nm (days_in_month ny nm));
        clear - Hdim; unfold ymd2ord; lia
    end.
  - rewrite (gdr_next_month now _ aw y m d) in Hr by auto.
    destruct ((y =? MAXYEAR) && (m =? 12)); [discriminate|].
    destruct (Z.eqb_spec m 12); cbv beta iota in Hr;
    match type of Hr with
    | Ok (as_tz _ (mk_dt ((ymd2ord ?ny ?nm 1 - 1) * DAY) _), _) = _ =>
        assert (Hnm : 1 <= nm <= 12) by lia; pose proof (dim_pos ny nm Hnm) as Hdim;
        whole_fin (ymd2ord ny nm 1 - 1) (ymd2ord ny nm (days_in_month ny nm));
        clear - Hdim; unfold ymd2ord; lia
    end.
  - rewrite gdr_this_year in Hr by auto.
    pose proof (dby_succ (dt_year now)) as Hs.
    whole_fin (days_before_year (dt_year now)) (days_before_year (dt_year now + 1)).
    clear - Hs. destruct (is_leap _); lia.
  - rewrite gdr_this_year in Hr by auto.
    pose proof (dby_succ (dt_year now)) as Hs.
    whole_fin (days_before_year (dt_year now)) (days_before_year (dt_year now + 1)).
    clear - Hs. destruct (is_leap _); lia.
  - rewrite gdr_last_year in Hr by auto.
    destruct (dt_year now =? 1); [discriminate|].
    pose proof (dby_succ (dt_year now - 1)) as Hs.
    replace (dt_year now - 1 + 1) with (dt_year now) in Hs by ring.
    whole_fin (days_before_year (dt_year now - 1)) (days_before_year (dt_year now)).
    clear - Hs. destruct (is_leap _); lia.
  - rewrite gdr_last_year in Hr by auto.
    destruct (dt_year now =? 1); [discriminate|].
    pose proof (dby_succ (dt_year now - 1)) as Hs.
    replace (dt_year now - 1 + 1) with (dt_year now) in Hs by ring.
    whole_fin (days_before_year (dt_year now - 1)) (days_before_year (dt_year now)).
    clear - Hs. destruct (is_leap _); lia.
Qed.

(** X19: With two timezone-aware bounds, _filter_records_by_date_range keeps, in order, exactly the records whose SentTime is non-empty and parses to a time t with start <= t < end. A naive parsed value is read as UTC. *)
Theorem filter_records_by_date_range_aware (dateutil_parse : string -> option datetime)
  (records : list (option announcement)) (start_date end_date : datetime) :
  dt_tz start_date <> None -> dt_tz end_date <> None ->
  filter_records_by_date_range dateutil_parse records start_date end_date =
  filter (record_in_range_utc dateutil_parse start_date end_date) records.
Proof.
  intros Hs He. induction records as [|record r IH]; [reflexivity|].
  cbn [filter_records_by_date_range filter]. rewrite IH.
  unfold record_in_range_utc, in_range_utc.
  destruct record as [a|]; [|reflexivity].
  destruct (SentTime a) as [st|]; [|reflexivity].
  destruct (String.eqb st ""); [reflexivity|].
  destruct (dateutil_parse st) as [t|]; [|reflexivity].
  destruct start_date as [ls [os|]]; [|contradiction].
  destruct end_date as [le [oe|]]; [|contradiction].
  destruct t as [lt [ot|]];
  unfold dt_le, dt_lt, dt_compare, utc_instant, replace_tz, UTC; cbn [dt_tz dt_local bind].
  - destruct (ls - os <=? lt - ot); cbn [andb]; [|reflexivity].
    destruct (lt - ot <? le - oe); reflexivity.
  - replace (lt - 0) with lt by ring.
    destruct (ls - os <=? lt); cbn [andb]; [|reflexivity].
    destruct (lt <? le - oe); reflexivity.
Qed.

(** X20: If either bound is naive, _filter_records_by_date_range returns an empty list whatever the records are. The parsed SentTime is always made aware, so every comparison raises TypeError, and the handler skips the record. *)
Theorem filter_records_by_date_range_naive_bound (dateutil_parse : string -> option datetime)
  (records : list (option announcement)) (start_date end_date : datetime) :
  dt_tz start_date = None \/ dt_tz end_date = None ->
  filter_records_by_date_range dateutil_parse records start_date end_date = [].
Proof.
  intros Hn. induction records as [|record r IH]; [reflexivity|].
  cbn [filter_records_by_date_range]. rewrite IH.
  destruct record as [a|]; [|reflexivity].
  destruct (SentTime a) as [st|]; [|reflexivity].
  destruct (String.eqb st ""); [reflexivity|].
  destruct (dateutil_parse st) as [t|]; [|reflexivity].
  assert (Ht : exists o, dt_tz (match dt_tz t with None => replace_tz t UTC | Some _ => t end) = Some o)
    by (destruct t as [lt [ot|]]; eexists; reflexivity).
  destruct Ht as [o Ho].
  set (t' := match dt_tz t with None => replace_tz t UTC | Some _ => t end) in *.
  clearbody t'.
  unfold dt_le, dt_lt, dt_compare. rewrite Ho.
  destruct Hn as [Hn|Hn].
  - rewrite Hn. reflexivity.
  - destruct (dt_tz start_date); cbn [bind]; [|reflexivity].
    rewrite Hn. destruct (_ <=? _); reflexivity.
Qed.

Lemma find_eqb_in (x : string) (l : list string) :
  In x l -> find (fun p => String.eqb x p) l = Some x.
Proof.
  induction l as [|a l IH]; [contradiction|]. intros H. cbn [find].
  destruct (String.eqb_spec x a) as [->|Hne]; [reflexivity|].
  apply IH. destruct H as [->|H]; [contradiction|exact H].
Qed.

Lemma find_eqb_notin (x : string) (l : list string) :
  ~ In x l -> find (fun p => String.eqb x p) l = None.
Proof.
  induction l as [|a l IH]; [reflexivity|]. intros H. cbn [find].
  destruct (String.eqb_spec x a) as [->|Hne]; [exfalso; apply H; left; reflexivity|].
  apply IH. intros H'. apply H. right. exact H'.
Qed.

Lemma try_time_formats_first (strptime : string -> string -> option datetime)
  (date_dt : datetime) (time_text : string) (fmts : list string) :
  try_time_formats strptime date_dt time_text fmts =
  match try_formats strptime time_text fmts with
  | Some time_dt =>
      end_dt <- dt_add (combine date_dt time_dt) HOUR;;
      Ok (Some (combine date_dt time_dt, end_dt))
  | None => Ok None
  end.
Proof.
  induction fmts as [|fmt r IH]; [reflexivity|]. cbn [try_time_formats try_formats].
  destruct (strptime time_text fmt); [reflexivity | exact IH].
Qed.

(** X21: When the lower-cased, stripped text is one of the 18 relative period names, extract_date_time_range returns the naive range of get_date_range for that period. With a naive now, both ends are set, naive, and span whole days (midnight to 23:59:59.999999). *)
Theorem extract_date_time_range_relative
  (fromisoformat : string -> option datetime) (strptime : string -> string -> option datetime)
  (re_search : string -> string -> option (string * string)) (now : datetime) (t : string) :
  0 <= dt_local now < MAX_LOCAL -> dt_tz now = None ->
  In (strip (lower t)) RELATIVE_PERIODS ->
  extract_date_time_range fromisoformat strptime re_search now t =
    (r <- get_date_range now (strip (lower t)) false;; Ok (Some (fst r), Some (snd r))) /\
  forall start_opt end_opt,
    extract_date_time_range fromisoformat strptime re_search now t = Ok (start_opt, end_opt) ->
    exists s e a b, start_opt = Some s /\ end_opt = Some e /\
      dt_tz s = None /\ dt_tz e = None /\
      dt_local s = a * DAY /\ dt_local e = b * DAY - 1 /\ a < b.
Proof.
  intros Hv Hnaive Hin.
  assert (Eq : extract_date_time_range fromisoformat strptime re_search now t =
    (r <- get_date_range now (strip (lower t)) false;; Ok (Some (fst r), Some (snd r))))
    by (unfold extract_date_time_range; cbv zeta; rewrite find_eqb_in by exact Hin; reflexivity).
  split; [exact Eq|].
  intros so eo. rewrite Eq.
  destruct (get_date_range now (strip (lower t)) false) as [[s e]|x] eqn:G; cbn [bind];
    [|discriminate].
  intros H. injection H as <- <-. cbn [fst snd].
  destruct (gdr_whole_days now _ false s e Hv G) as (a & b & Hs & He & Hab & Ts & Te).
  rewrite Hnaive in Ts, Te.
  exists s, e, a, b. auto 10.
Qed.

(** X22: When no relative period or from/between/on-at pattern matches and parse_date_time parses the text to d, extract_date_time_range returns d's day from 00:00:00.000000 to 23:59:59.999999, keeping d's tzinfo. *)
Theorem extract_date_time_range_single_day
  (fromisoformat : string -> option datetime) (strptime : string -> string -> option datetime)
  (re_search : string -> string -> option (string * string)) (now : datetime) (t : string)
  (d : datetime) :
  ~ In (strip (lower t)) RELATIVE_PERIODS ->
  re_search FROM_TO_RE (strip (lower t)) = None ->
  re_search BETWEEN_RE (strip (lower t)) = None ->
  re_search ON_AT_RE (strip (lower t)) = None ->
  parse_date_time fromisoformat strptime now (strip (lower t)) = Ok (Some d) ->
  0 <= dt_local d < MAX_LOCAL ->
  extract_date_time_range fromisoformat strptime re_search now t =
  Ok (Some (mk_dt (dt_local d / DAY * DAY) (dt_tz d)),
      Some (mk_dt (dt_local d / DAY * DAY + DAY - 1) (dt_tz d))).
Proof.
  intros Hin H1 H2 H3 Hp Hd.
  unfold extract_date_time_range. cbv zeta.
  rewrite find_eqb_notin by exact Hin. rewrite H1, H2, H3. cbn [bind].
  rewrite Hp. cbn [bind].
  rewrite start_of_day_ok, end_of_day_ok by exact Hd. reflexivity.
Qed.

(** X23: When the 'on X at Y' pattern matches first, X parses to a date and Y parses with one of the time formats, extract_date_time_range returns a naive start combining that date and time, and an end one hour later. It raises OverflowError if the end passes 9999-12-31. *)
Theorem extract_date_time_range_on_at
  (fromisoformat : string -> option datetime) (strptime : string -> string -> option datetime)
  (re_search : string -> string -> option (string * string)) (now : datetime) (t : string)
  (date_text time_text : string) (d time_dt : datetime) :
  ~ In (strip (lower t)) RELATIVE_PERIODS ->
  re_search FROM_TO_RE (strip (lower t)) = None ->
  re_search BETWEEN_RE (strip (lower t)) = None ->
  re_search ON_AT_RE (strip (lower t)) = Some (date_text, time_text) ->
  parse_date_time fromisoformat strptime now date_text = Ok (Some d) ->
  try_formats strptime time_text TIME_FORMATS = Some time_dt ->
  0 <= dt_local d ->
  let start_dt := mk_dt (dt_local d / DAY * DAY + dt_local time_dt mod DAY) None in
  extract_date_time_range fromisoformat strptime re_search now t =
  if dt_local start_dt + HOUR <? MAX_LOCAL
  then Ok (Some start_dt, Some (mk_dt (dt_local start_dt + HOUR) None))
  else Error (OverflowError "date value out of range").
Proof.
  intros Hin H1 H2 H3 Hp Ht Hd start_dt.
  unfold extract_date_time_range. cbv zeta.
  rewrite find_eqb_notin by exact Hin. rewrite H1, H2, H3. cbn [bind].
  rewrite Hp. cbn [bind]. rewrite try_time_formats_first, Ht.
  change (combine d time_dt) with start_dt.
  assert (0 <= dt_local start_dt + HOUR).
  { subst start_dt. cbn [dt_local].
    pose proof (Z.mod_pos_bound (dt_local time_dt) DAY ltac:(rewrite DAY_lit; lia)).
    assert (0 <= dt_local d / DAY) by (apply Z.div_pos; [lia | rewrite DAY_lit; lia]).
    unfold HOUR. rewrite DAY_lit in *. lia. }
  unfold dt_add.
  destruct (Z.ltb_spec (dt_local start_dt + HOUR) MAX_LOCAL) as [Hl|Hl].
  - rewrite (proj2 (Z.leb_le _ _) H). reflexivity.
  - rewrite (proj2 (Z.leb_le _ _) H). reflexivity.
Qed.

Lemma filter_announcements_by_date_body_count
  (gr : string -> result (list (option announcement)))
  (edr : string -> result (option datetime * option datetime))
  (pdt : string -> result (option datetime)) (ny : Z) (q : string) (resp : response) :
  filter_announcements_by_date_body gr edr pdt ny q = Ok resp ->
  count resp = Z.of_nat (length (announcements resp)).
Proof.
  unfold filter_announcements_by_date_body, formula_response, bind.
  intros H.
  repeat match type of H with
  | context [match ?x with _ => _ end] => destruct x
  end; try discriminate; injection H as <-; reflexivity.
Qed.

(** X24: Every result of filter_announcements_by_date has count equal to the length of its announcements list, on success and on every error path. *)
Theorem filter_announcements_by_date_count
  (gr : string -> result (list (option announcement)))
  (edr : string -> result (option datetime * option datetime))
  (pdt : string -> result (option datetime)) (ny : Z) (c : client) (q : string) :
  let r := filter_announcements_by_date gr edr pdt ny c q in
  count r = Z.of_nat (length (announcements r)).
Proof.
  cbv zeta. unfold filter_announcements_by_date.
  destruct (airtable c); [|reflexivity]. cbn [negb].
  destruct (filter_announcements_by_date_body gr edr pdt ny q) as [resp|e] eqn:E;
    [|reflexivity].
  exact (filter_announcements_by_date_body_count gr edr pdt ny q resp E).
Qed.

Lemma find_month_range (q name : string) (m : Z) :
  find_month q = Some (name, m) -> 1 <= m <= 12.
Proof.
  unfold find_month. intros H. apply find_some in H. destruct H as [H _].
  unfold month_names in H. cbn [In] in H.
  repeat destruct H as [H|H]; try contradiction; injection H as _ <-; lia.
Qed.

Lemma strftime_month_start (y m : Z) (tz : option Z) :
  1 <= m <= 12 ->
  strftime_api (mk_dt ((ymd2ord y m 1 - 1) * DAY) tz) =
  (zero_pad 4 y ++ "-" ++ zero_pad 2 m ++ "-01T00:00:00.000Z")%string.
Proof.
  intros Hm. pose proof (dim_pos y m Hm). unfold strftime_api.
  pose proof (dt_ymd_mk y m 1 0 tz Hm ltac:(lia) ltac:(rewrite DAY_lit; lia)) as E.
  rewrite Z.add_0_r in E. rewrite E.
  destruct (midnight_fields (ymd2ord y m 1 - 1) tz) as (-> & -> & -> & _).
  reflexivity.
Qed.

(** X25: When the query names a month (first in calendar order) and the current year is between 1000 and 9999 (not December 9999), filter_announcements_by_date queries Airtable with AND(IS_AFTER({SentTime}, 'Y-MM-01T00:00:00.000Z'), IS_BEFORE({SentTime}, next month's first day)). Its message ends with 'from <Month name>.' *)
Theorem filter_announcements_by_date_month_formula
  (gr : string -> result (list (option announcement)))
  (edr : string -> result (option datetime * option datetime))
  (pdt : string -> result (option datetime)) (ny : Z) (q name : string) (m : Z) :
  find_month (strip (lower q)) = Some (name, m) ->
  1000 <= ny <= MAXYEAR -> ~ (ny = MAXYEAR /\ m = 12) ->
  let '(ey, em) := if m =? 12 then (ny + 1, 1) else (ny, m + 1) in
  filter_announcements_by_date_body gr edr pdt ny q =
  formula_response gr
    (date_range_formula
       (zero_pad 4 ny ++ "-" ++ zero_pad 2 m ++ "-01T00:00:00.000Z")
       (zero_pad 4 ey ++ "-" ++ zero_pad 2 em ++ "-01T00:00:00.000Z"))%string
    ("from " ++ calendar_month_name m)%string.
Proof.
  intros Hf Hy Hmax. pose proof (find_month_range _ _ _ Hf) as Hm.
  unfold filter_announcements_by_date_body. cbv zeta. rewrite Hf.
  rewrite datetime_new_first by lia. cbn [bind].
  destruct (Z.eqb_spec m 12) as [->|Hm12].
  - rewrite datetime_new_first by lia. unfold replace_tz; cbn [bind dt_local].
    rewrite !strftime_month_start by lia. reflexivity.
  - rewrite datetime_new_first by lia. unfold replace_tz; cbn [bind dt_local].
    rewrite !strftime_month_start by lia. reflexivity.
Qed.

(** X26: In year 9999, a query naming December makes filter_announcements_by_date return count 0, no announcements, and the error 'Error filtering announcements by date: year 10000 is out of range'. The end bound datetime(10000, 1, 1) cannot be built. *)
Theorem filter_announcements_by_date_december_max
  (gr : string -> result (list (option announcement)))
  (edr : string -> result (option datetime * option datetime))
  (pdt : string -> result (option datetime)) (c : client) (q name : string) :
  airtable c = true ->
  find_month (strip (lower q)) = Some (name, 12) ->
  filter_announcements_by_date gr edr pdt MAXYEAR c q =
  mk_resp 0 [] None (Some "Error filtering announcements by date: year 10000 is out of range").
Proof.
  intros Ha Hf. unfold filter_announcements_by_date. rewrite Ha. cbn [negb].
  unfold filter_announcements_by_date_body. cbv zeta. rewrite Hf.
  rewrite datetime_new_first by (unfold MAXYEAR; lia). cbn [bind].
  reflexivity.
Qed.


(** X27: When the query names no month, the range extraction lacks a bound and parse_date_time returns None, filter_announcements_by_date returns count 0 and the error: Could not parse date query: '<query>'. Please try a different format. The query is lower-cased and stripped. *)
Theorem filter_announcements_by_date_unparsed
  (gr : string -> result (list (option announcement)))
  (edr : string -> result (option datetime * option datetime))
  (pdt : string -> result (option datetime)) (ny : Z) (c : client) (q : string)
  (a b : option datetime) :
  airtable c = true ->
  find_month (strip (lower q)) = None ->
  edr (strip (lower q)) = Ok (a, b) -> a = None \/ b = None ->
  pdt (strip (lower q)) = Ok None ->
  filter_announcements_by_date gr edr pdt ny c q =
  mk_resp 0 [] None
    (Some ("Could not parse date query: '" ++ strip (lower q)
           ++ "'. Please try a different format.")%string).
Proof.
  intros Ha Hf He Hab Hp. unfold filter_announcements_by_date. rewrite Ha. cbn [negb].
  unfold filter_announcements_by_date_body. cbv zeta. rewrite Hf, He. cbn [bind].
  destruct Hab as [->| ->].
  - rewrite Hp. reflexivity.
  - destruct a; rewrite Hp; reflexivity.
Qed.

Lemma escape_head (s : string) (r : string) :
  escape_search_text s <> String "'" r.
Proof.
  unfold escape_search_text. destruct s as [|c s]; cbn [replace_char]; [discriminate|].
  destruct (Ascii.eqb c "'") eqn:E; cbn [String.append]; [discriminate|].
  intros H. injection H as -> _. discriminate.
Qed.

(** X28: In the search text escaped by search_announcements, every single quote is preceded by a backslash. Replacing each backslash-quote pair by a quote gives back the original text, so the escaping loses nothing. *)
Theorem escape_search_text_quotes (s : string) :
  (forall pre post, escape_search_text s = (pre ++ String "'" post)%string ->
     exists pre', pre = (pre' ++ "\")%string) /\
  unescape_quotes (escape_search_text s) = s.
Proof.
  split.
  - induction s as [|c r IH]; intros pre post H.
    + destruct pre; discriminate.
    + unfold escape_search_text in H. cbn [replace_char] in H.
      destruct (Ascii.eqb_spec c "'") as [->|Hc]; cbn [String.append] in H.
      * destruct pre as [|c1 [|c2 pre]]; cbn [String.append] in H.
        -- discriminate.
        -- injection H as <- _. exists ""%string. reflexivity.
        -- injection H as <- <- H. destruct (IH pre post H) as [pre' ->].
           exists (String "\" (String "'" pre')). reflexivity.
      * destruct pre as [|c1 pre]; cbn [String.append] in H.
        -- injection H as -> _. contradiction.
        -- injection H as <- H. destruct (IH pre post H) as [pre' ->].
           exists (String c pre'). reflexivity.
  - induction s as [|c r IH]; [reflexivity|].
    unfold escape_search_text in *. cbn [replace_char].
    destruct (Ascii.eqb_spec c "'") as [->|Hc]; cbn [String.append unescape_quotes].
    + rewrite IH. reflexivity.
    + destruct (replace_char "'" "\'" r) as [|c' r'] eqn:E.
      * destruct r; [reflexivity|]. cbn [replace_char] in E.
        destruct (Ascii.eqb _ _); discriminate.
      * destruct (Ascii.eqb_spec c "\") as [->|Hb]; cbn [andb].
        -- destruct (Ascii.eqb_spec c' "'") as [->|Hq].
           ++ exfalso. apply (escape_head r r'). exact E.
           ++ cbn [andb]. rewrite IH. reflexivity.
        -- rewrite IH. reflexivity.
Qed.

(** X29: _get_first_attachment_url looks only at the first element of each attachment field. If that element has no 'url' key in every field, it returns (None, None) even when a later attachment has a url. *)
Theorem get_first_attachment_url_first_only (record_fields : list (string * pyval)) :
  (forall field_name first rest a,
     In field_name ATTACHMENT_FIELD_NAMES ->
     dict_get record_fields field_name = Some (PList (first :: rest)) ->
     first = PDict a -> dict_get a "url" = None) ->
  get_first_attachment_url record_fields = (PNone, PNone).
Proof.
  unfold get_first_attachment_url. generalize ATTACHMENT_FIELD_NAMES as names.
  intros names H. induction names as [|name names IH]; [reflexivity|].
  cbn [first_attachment_loop].
  assert (IH' : first_attachment_loop record_fields names = (PNone, PNone))
    by (apply IH; intros; eapply H; eauto; right; assumption).
  destruct (dict_get record_fields name) as [v|] eqn:Ev; [|exact IH'].
  destruct v as [| |[|first rest]| |]; try exact IH'.
  destruct first as [| | |a|]; try exact IH'.
  rewrite (H name _ rest a (or_introl eq_refl) Ev eq_refl). exact IH'.
Qed.

(** X1: For a current time in the datetime range, get_date_range with period 'today', or with any period it does not recognise, returns the current day from 00:00:00.000000 to 23:59:59.999999. Both bounds carry tzinfo UTC when as_timezone_aware is true and the tzinfo of now otherwise. *)
Theorem get_date_range_today (now : datetime) (p : string) (aw : bool) :
  0 <= dt_local now < MAX_LOCAL ->
  p = "today"%string \/ ~ In p named_periods ->
  get_date_range now p aw =
  Ok (as_tz aw (mk_dt (dt_local now / DAY * DAY) (dt_tz now)),
      as_tz aw (mk_dt (dt_local now / DAY * DAY + DAY - 1) (dt_tz now))).
Proof. exact (gdr_today now p aw). Qed.

(** X2: get_date_range with period 'yesterday' returns the whole previous day, from 00:00:00.000000 to 23:59:59.999999. On 0001-01-01 the subtraction of one day raises OverflowError. *)
Theorem get_date_range_yesterday (now : datetime) (aw : bool) :
  0 <= dt_local now < MAX_LOCAL ->
  get_date_range now "yesterday" aw =
  if dt_local now / DAY =? 0 then Error (OverflowError "date value out of range")
  else Ok (as_tz aw (mk_dt ((dt_local now / DAY - 1) * DAY) (dt_tz now)),
           as_tz aw (mk_dt (dt_local now / DAY * DAY - 1) (dt_tz now))).
Proof. exact (gdr_yesterday now aw). Qed.

(** X3: get_date_range with period 'this_week' or 'this week' returns Monday 00:00:00.000000 of the current week to Sunday 23:59:59.999999 of the same week. It raises OverflowError only when that Sunday lies after 9999-12-31. *)
Theorem get_date_range_this_week (now : datetime) (p : string) (aw : bool) :
  0 <= dt_local now < MAX_LOCAL ->
  p = "this_week"%string \/ p = "this week"%string ->
  let monday := dt_local now / DAY - (dt_local now / DAY) mod 7 in
  get_date_range now p aw =
  if (monday + 7) * DAY <=? MAX_LOCAL then
    Ok (as_tz aw (mk_dt (monday * DAY) (dt_tz now)),
        as_tz aw (mk_dt ((monday + 7) * DAY - 1) (dt_tz now)))
  else Error (OverflowError "date value out of range").
Proof. exact (gdr_this_week now p aw). Qed.

(** X4: get_date_range with period 'last_week' or 'last week' returns the Monday-to-Sunday week before the current one, as whole days. It raises OverflowError only when that Monday would lie before 0001-01-01. *)
Theorem get_date_range_last_week (now : datetime) (p : string) (aw : bool) :
  0 <= dt_local now < MAX_LOCAL ->
  p = "last_week"%string \/ p = "last week"%string ->
  let monday := dt_local now / DAY - (dt_local now / DAY) mod 7 in
  get_date_range now p aw =
  if 7 <=? monday then
    Ok (as_tz aw (mk_dt ((monday - 7) * DAY) (dt_tz now)),
        as_tz aw (mk_dt (monday * DAY - 1) (dt_tz now)))
  else Error (OverflowError "date value out of range").
Proof. exact (gdr_last_week now p aw). Qed.

(** X5: get_date_range with period 'next_week' or 'next week' returns the Monday-to-Sunday week after the current one, as whole days. It raises OverflowError only when that Sunday would lie after 9999-12-31. *)
Theorem get_date_range_next_week (now : datetime) (p : string) (aw : bool) :
  0 <= dt_local now < MAX_LOCAL ->
  p = "next_week"%string \/ p = "next week"%string ->
  let monday := dt_local now / DAY - (dt_local now / DAY) mod 7 in
  get_date_range now p aw =
  if (monday + 14) * DAY <=? MAX_LOCAL then
    Ok (as_tz aw (mk_dt ((monday + 7) * DAY) (dt_tz now)),
        as_tz aw (mk_dt ((monday + 14) * DAY - 1) (dt_tz now)))
  else Error (OverflowError "date value out of range").
Proof. exact (gdr_next_week now p aw). Qed.

(** X6: get_date_range with period 'this_month' or 'this month' returns the first day of the current month at 00:00:00.000000 to its last day (calendar.monthrange) at 23:59:59.999999. It never fails. *)
Theorem get_date_range_this_month (now : datetime) (p : string) (aw : bool) (y m d : Z) :
  0 <= dt_local now < MAX_LOCAL -> dt_ymd now = (y, m, d) ->
  p = "this_month"%string \/ p = "this month"%string ->
  get_date_range now p aw =
  Ok (as_tz aw (mk_dt ((ymd2ord y m 1 - 1) * DAY) (dt_tz now)),
      as_tz aw (mk_dt (ymd2ord y m (days_in_month y m) * DAY - 1) (dt_tz now))).
Proof. exact (gdr_this_month now p aw y m d). Qed.

(** X7: get_date_range with period 'last_month' or 'last month' returns the whole previous calendar month, which is December of the previous year when the current month is January. It raises OverflowError only in January of year 1. *)
Theorem get_date_range_last_month (now : datetime) (p : string) (aw : bool) (y m d : Z) :
  0 <= dt_local now < MAX_LOCAL -> dt_ymd now = (y, m, d) ->
  p = "last_month"%string \/ p = "last month"%string ->
  get_date_range now p aw =
  if (y =? 1) && (m =? 1) then Error (OverflowError "date value out of range")
  else
    let '(py, pm) := if m =? 1 then (y - 1, 12) else (y, m - 1) in
    Ok (as_tz aw (mk_dt ((ymd2ord py pm 1 - 1) * DAY) (dt_tz now)),
        as_tz aw (mk_dt ((ymd2ord y m 1 - 1) * DAY - 1) (dt_tz now))).
Proof. exact (gdr_last_month now p aw y m d). Qed.

(** X8: get_date_range with period 'next_month' or 'next month' returns the whole next calendar month, which is January of the next year when the current month is December. In December of year 9999 it raises ValueError('year 10000 is out of range'). *)
Theorem get_date_range_next_month (now : datetime) (p : string) (aw : bool) (y m d : Z) :
  0 <= dt_local now < MAX_LOCAL -> dt_ymd now = (y, m, d) ->
  p = "next_month"%string \/ p = "next month"%string ->
  get_date_range now p aw =
  if (y =? MAXYEAR) && (m =? 12) then Error (ValueError "year 10000 is out of range")
  else
    let '(ny, nm) := if m =? 12 then (y + 1, 1) else (y, m + 1) in
    Ok (as_tz aw (mk_dt ((ymd2ord ny nm 1 - 1) * DAY) (dt_tz now)),
        as_tz aw (mk_dt (ymd2ord ny nm (days_in_month ny nm) * DAY - 1) (dt_tz now))).
Proof. exact (gdr_next_month now p aw y m d). Qed.

(** X9: get_date_range with period 'this_year' or 'this year' returns January 1 00:00:00.000000 to December 31 23:59:59.999999 of the current year. It never fails. *)
Theorem get_date_range_this_year (now : datetime) (p : string) (aw : bool) :
  0 <= dt_local now < MAX_LOCAL ->
  p = "this_year"%string \/ p = "this year"%string ->
  get_date_range now p aw =
  Ok (as_tz aw (mk_dt (days_before_year (dt_year now) * DAY) (dt_tz now)),
      as_tz aw (mk_dt (days_before_year (dt_year now + 1) * DAY - 1) (dt_tz now))).
Proof. exact (gdr_this_year now p aw). Qed.

(** X10: get_date_range with period 'last_year' or 'last year' returns the whole previous calendar year. When the current year is 1 it raises ValueError('year 0 is out of range'). *)
Theorem get_date_range_last_year (now : datetime) (p : string) (aw : bool) :
  0 <= dt_local now < MAX_LOCAL ->
  p = "last_year"%string \/ p = "last year"%string ->
  get_date_range now p aw =
  if dt_year now =? 1 then Error (ValueError "year 0 is out of range")
  else
    Ok (as_tz aw (mk_dt (days_before_year (dt_year now - 1) * DAY) (dt_tz now)),
        as_tz aw (mk_dt (days_before_year (dt_year now) * DAY - 1) (dt_tz now))).
Proof. exact (gdr_last_year now p aw). Qed.

(** X11: Whenever get_date_range succeeds, its start is a midnight and its end is 23:59:59.999999 of the same or a later day. Both bounds have tzinfo UTC when as_timezone_aware is true and the tzinfo of now otherwise. *)
Theorem get_date_range_whole_days (now : datetime) (p : string) (aw : bool) (s e : datetime) :
  0 <= dt_local now < MAX_LOCAL ->
  get_date_range now p aw = Ok (s, e) ->
  exists a b, dt_local s = a * DAY /\ dt_local e = b * DAY - 1 /\ a < b /\
              dt_tz s = (if aw then UTC else dt_tz now) /\
              dt_tz e = (if aw then UTC else dt_tz now).
Proof. exact (gdr_whole_days now p aw s e). Qed.

Ltac in_list := simpl; repeat (first [left; reflexivity | right]).
Ltac not_in := let H := fresh in intro H; vm_compute in H; intuition discriminate.
Ltac valid_now := unfold sample_now; split; vm_compute; congruence.

(** X1 at a sample input. *)
Lemma get_date_range_today_witness :
  get_date_range sample_now "today" false =
  Ok (as_tz false (mk_dt (dt_local sample_now / DAY * DAY) (dt_tz sample_now)),
      as_tz false (mk_dt (dt_local sample_now / DAY * DAY + DAY - 1) (dt_tz sample_now))).
Proof. apply get_date_range_today; [valid_now | left; reflexivity]. Defined.

(** X2 at a sample input. *)
Lemma get_date_range_yesterday_witness :
  get_date_range sample_now "yesterday" false =
  if dt_local sample_now / DAY =? 0 then Error (OverflowError "date value out of range")
  else Ok (as_tz false (mk_dt ((dt_local sample_now / DAY - 1) * DAY) (dt_tz sample_now)),
           as_tz false (mk_dt (dt_local sample_now / DAY * DAY - 1) (dt_tz sample_now))).
Proof. apply get_date_range_yesterday; valid_now. Defined.

(** X3 at a sample input. *)
Lemma get_date_range_this_week_witness :
  let monday := dt_local sample_now / DAY - (dt_local sample_now / DAY) mod 7 in
  get_date_range sample_now "this week" true =
  if (monday + 7) * DAY <=? MAX_LOCAL then
    Ok (as_tz true (mk_dt (monday * DAY) (dt_tz sample_now)),
        as_tz true (mk_dt ((monday + 7) * DAY - 1) (dt_tz sample_now)))
  else Error (OverflowError "date value out of range").
Proof. apply (get_date_range_this_week sample_now "this week" true); [valid_now | right; reflexivity]. Defined.

(** X4 at a sample input. *)
Lemma get_date_range_last_week_witness :
  let monday := dt_local sample_now / DAY - (dt_local sample_now / DAY) mod 7 in
  get_date_range sample_now "last_week" false =
  if 7 <=? monday then
    Ok (as_tz false (mk_dt ((monday - 7) * DAY) (dt_tz sample_now)),
        as_tz false (mk_dt (monday * DAY - 1) (dt_tz sample_now)))
  else Error (OverflowError "date value out of range").
Proof. apply (get_date_range_last_week sample_now "last_week" false); [valid_now | left; reflexivity]. Defined.

(** X5 at a sample input. *)
Lemma get_date_range_next_week_witness :
  let monday := dt_local sample_now / DAY - (dt_local sample_now / DAY) mod 7 in
  get_date_range sample_now "next week" false =
  if (monday + 14) * DAY <=? MAX_LOCAL then
    Ok (as_tz false (mk_dt ((monday + 7) * DAY) (dt_tz sample_now)),
        as_tz false (mk_dt ((monday + 14) * DAY - 1) (dt_tz sample_now)))
  else Error (OverflowError "date value out of range").
Proof. apply (get_date_range_next_week sample_now "next week" false); [valid_now | right; reflexivity]. Defined.

(** X6 at a sample input. *)
Lemma get_date_range_this_month_witness :
  get_date_range sample_now "this month" true =
  Ok (as_tz true (mk_dt ((ymd2ord 2024 5 1 - 1) * DAY) (dt_tz sample_now)),
      as_tz true (mk_dt (ymd2ord 2024 5 (days_in_month 2024 5) * DAY - 1) (dt_tz sample_now))).
Proof.
  apply (get_date_range_this_month sample_now "this month" true 2024 5 15);
    [valid_now | vm_compute; reflexivity | right; reflexivity].
Defined.

(** X7 at a sample input. *)
Lemma get_date_range_last_month_witness :
  get_date_range sample_now "last_month" false =
  if (2024 =? 1) && (5 =? 1) then Error (OverflowError "date value out of range")
  else
    let '(py, pm) := if 5 =? 1 then (2024 - 1, 12) else (2024, 5 - 1) in
    Ok (as_tz false (mk_dt ((ymd2ord py pm 1 - 1) * DAY) (dt_tz sample_now)),
        as_tz false (mk_dt ((ymd2ord 2024 5 1 - 1) * DAY - 1) (dt_tz sample_now))).
Proof.
  apply (get_date_range_last_month sample_now "last_month" false 2024 5 15);
    [valid_now | vm_compute; reflexivity | left; reflexivity].
Defined.

(** X8 at a sample input. *)
Lemma get_date_range_next_month_witness :
  get_date_range sample_now "next_month" true =
  if (2024 =? MAXYEAR) && (5 =? 12) then Error (ValueError "year 10000 is out of range")
  else
    let '(ny, nm) := if 5 =? 12 then (2024 + 1, 1) else (2024, 5 + 1) in
    Ok (as_tz true (mk_dt ((ymd2ord ny nm 1 - 1) * DAY) (dt_tz sample_now)),
        as_tz true (mk_dt (ymd2ord ny nm (days_in_month ny nm) * DAY - 1) (dt_tz sample_now))).
Proof.
  apply (get_date_range_next_month sample_now "next_month" true 2024 5 15);
    [valid_now | vm_compute; reflexivity | left; reflexivity].
Defined.

(** X9 at a sample input. *)
Lemma get_date_range_this_year_witness :
  get_date_range sample_now "this year" false =
  Ok (as_tz false (mk_dt (days_before_year (dt_year sample_now) * DAY) (dt_tz sample_now)),
      as_tz false (mk_dt (days_before_year (dt_year sample_now + 1) * DAY - 1) (dt_tz sample_now))).
Proof. apply (get_date_range_this_year sample_now "this year" false); [valid_now | right; reflexivity]. Defined.

(** X10 at a sample input. *)
Lemma get_date_range_last_year_witness :
  get_date_range sample_now "last_year" true =
  if dt_year sample_now =? 1 then Error (ValueError "year 0 is out of range")
  else
    Ok (as_tz true (mk_dt (days_before_year (dt_year sample_now - 1) * DAY) (dt_tz sample_now)),
        as_tz true (mk_dt (days_before_year (dt_year sample_now) * DAY - 1) (dt_tz sample_now))).
Proof. apply (get_date_range_last_year sample_now "last_year" true); [valid_now | left; reflexivity]. Defined.

(** X11 at a sample input. *)
Lemma get_date_range_whole_days_witness :
  exists a b, dt_local (mk_dt 63847526400000000 UTC) = a * DAY /\
          dt_local (mk_dt 63850118399999999 UTC) = b * DAY - 1 /\ a < b /\
          dt_tz (mk_dt 63847526400000000 UTC) = (if true then UTC else dt_tz sample_now) /\
          dt_tz (mk_dt 63850118399999999 UTC) = (if true then UTC else dt_tz sample_now).
Proof.
  apply (get_date_range_whole_days sample_now "last month" true
           (mk_dt 63847526400000000 UTC) (mk_dt 63850118399999999 UTC));
    [valid_now | vm_compute; reflexivity].
Defined.

(** X12 at a sample input. *)
Lemma get_date_range_contains_now_witness :
  dt_local (mk_dt 63851155200000000 None) <= dt_local sample_now <=
  dt_local (mk_dt 63851759999999999 None).
Proof.
  apply (get_date_range_contains_now sample_now "this week" false
           (mk_dt 63851155200000000 None) (mk_dt 63851759999999999 None));
    [valid_now | in_list | vm_compute; reflexivity].
Defined.

(** X13 at a sample input. *)
Lemma get_date_range_adjacent_witness :
  dt_local (mk_dt 63850118399999999 UTC) + 1 = dt_local (mk_dt 63850118400000000 UTC).
Proof.
  apply (get_date_range_adjacent sample_now "last_month" "this_month" true
           (mk_dt 63847526400000000 UTC) (mk_dt 63850118399999999 UTC)
           (mk_dt 63850118400000000 UTC) (mk_dt 63852796799999999 UTC));
    [valid_now | in_list | vm_compute; reflexivity | vm_compute; reflexivity].
Defined.

(** X14 at a sample input. *)
Lemma parse_nl_relative_day_witness :
  parse_natural_language_date sample_now " Tomorrow" =
  if (0 <=? dt_local sample_now / DAY + 1) &&
     ((dt_local sample_now / DAY + 1 + 1) * DAY <=? MAX_LOCAL)
  then Ok (Some (mk_dt ((dt_local sample_now / DAY + 1) * DAY) None))
  else Error (OverflowError "date value out of range").
Proof.
  apply (parse_nl_relative_day sample_now " Tomorrow" 1); [valid_now | vm_compute; in_list].
Defined.

(** X15 at a sample input. *)
Lemma parse_nl_next_weekday_witness :
  exists k, 1 <= k <= 7 /\
    weekday (mk_dt ((dt_local sample_now / DAY + k) * DAY) None) = 4 /\
    parse_natural_language_date sample_now "next Friday" =
    if (dt_local sample_now / DAY + k + 1) * DAY <=? MAX_LOCAL
    then Ok (Some (mk_dt ((dt_local sample_now / DAY + k) * DAY) None))
    else Error (OverflowError "date value out of range").
Proof.
  apply (parse_nl_next_weekday sample_now "next Friday" 4);
    [valid_now | lia | not_in | | vm_compute; reflexivity].
  intros j Hj.
  assert (Hc : j = 0 \/ j = 1 \/ j = 2 \/ j = 3) by lia.
  destruct Hc as [-> | [-> | [-> | ->]]]; split; vm_compute; reflexivity.
Defined.

(** X16 at a sample input. *)
Lemma parse_nl_last_weekday_witness :
  exists k, 1 <= k <= 7 /\
    (0 <= dt_local sample_now / DAY - k ->
     weekday (mk_dt ((dt_local sample_now / DAY - k) * DAY) None) = 0) /\
    parse_natural_language_date sample_now "last monday" =
    if 0 <=? dt_local sample_now / DAY - k
    then Ok (Some (mk_dt ((dt_local sample_now / DAY - k) * DAY) None))
    else Error (OverflowError "date value out of range").
Proof.
  apply (parse_nl_last_weekday sample_now "last monday" 0);
    [valid_now | lia | not_in | intros j Hj; lia | vm_compute; reflexivity
    | vm_compute; reflexivity].
Defined.

(** X17 at a sample input. *)
Lemma parse_nl_in_units_witness :
  (decimal_value "2" * 7 <= 999999999 ->
   parse_natural_language_date sample_now "in 2 weeks" =
   if dt_local sample_now + decimal_value "2" * 7 * DAY <? MAX_LOCAL
   then Ok (Some (mk_dt (dt_local sample_now + decimal_value "2" * 7 * DAY) (dt_tz sample_now)))
   else Error (OverflowError "date value out of range")) /\
  (999999999 < decimal_value "2" * 7 ->
   exists msg, parse_natural_language_date sample_now "in 2 weeks" = Error (OverflowError msg)).
Proof.
  apply (parse_nl_in_units sample_now "in 2 weeks" "2" "weeks" "" 7);
    [valid_now | vm_compute; reflexivity | discriminate | reflexivity | in_list
    | vm_compute; reflexivity].
Defined.

(** X18 at a sample input. *)
Lemma parse_nl_units_ago_witness :
  (decimal_value "3" * 1 <= 999999999 ->
   parse_natural_language_date sample_now "3 days ago" =
   if 0 <=? dt_local sample_now - decimal_value "3" * 1 * DAY
   then Ok (Some (mk_dt (dt_local sample_now - decimal_value "3" * 1 * DAY) (dt_tz sample_now)))
   else Error (OverflowError "date value out of range")) /\
  (999999999 < decimal_value "3" * 1 ->
   exists msg, parse_natural_language_date sample_now "3 days ago" = Error (OverflowError msg)).
Proof.
  apply (parse_nl_units_ago sample_now "3 days ago" "3" "days" "" 1);
    [valid_now | vm_compute; reflexivity | discriminate | reflexivity | in_list
    | vm_compute; reflexivity].
Defined.

(** X19 at a sample input. *)
Lemma filter_records_by_date_range_aware_witness :
  filter_records_by_date_range sample_parse_sent_time
    [Some lunch_ann; None; Some trip_ann; Some naive_ann] (month_start 2025 5) (month_end 2025 5) =
  filter (record_in_range_utc sample_parse_sent_time (month_start 2025 5) (month_end 2025 5))
    [Some lunch_ann; None; Some trip_ann; Some naive_ann].
Proof. apply filter_records_by_date_range_aware; discriminate. Defined.

(** X20 at a sample input. *)
Lemma filter_records_by_date_range_naive_bound_witness :
  filter_records_by_date_range sample_parse_sent_time
    [Some lunch_ann; None; Some trip_ann; Some naive_ann]
    (mk_dt ((ymd2ord 2025 5 1 - 1) * DAY) None) (month_end 2025 5) = [].
Proof. apply filter_records_by_date_range_naive_bound; left; reflexivity. Defined.

(** X21 at a sample input. *)
Lemma extract_date_time_range_relative_witness :
  extract_date_time_range no_isoformat no_strptime no_search sample_now "Last Week" =
    (r <- get_date_range sample_now (strip (lower "Last Week")) false;;
     Ok (Some (fst r), Some (snd r))) /\
  forall start_opt end_opt,
    extract_date_time_range no_isoformat no_strptime no_search sample_now "Last Week"
    = Ok (start_opt, end_opt) ->
    exists s e a b, start_opt = Some s /\ end_opt = Some e /\
      dt_tz s = None /\ dt_tz e = None /\
      dt_local s = a * DAY /\ dt_local e = b * DAY - 1 /\ a < b.
Proof.
  apply (extract_date_time_range_relative no_isoformat no_strptime no_search sample_now
           "Last Week"); [valid_now | reflexivity | vm_compute; in_list].
Defined.

(** X22 at a sample input. *)
Lemma extract_date_time_range_single_day_witness :
  extract_date_time_range no_isoformat no_strptime no_search sample_now "tomorrow" =
  Ok (Some (mk_dt (63851414400000000 / DAY * DAY) None),
      Some (mk_dt (63851414400000000 / DAY * DAY + DAY - 1) None)).
Proof.
  apply (extract_date_time_range_single_day no_isoformat no_strptime no_search sample_now
           "tomorrow" (mk_dt 63851414400000000 None));
    [not_in | reflexivity | reflexivity | reflexivity | vm_compute; reflexivity
    | split; vm_compute; congruence].
Defined.

(** X23 at a sample input. *)
Lemma extract_date_time_range_on_at_witness :
  let start_dt := mk_dt (63851328000000000 / DAY * DAY + 59926645800000000 mod DAY) None in
  extract_date_time_range no_isoformat sample_time_strptime sample_on_at_search sample_now
    "On today at 10:30" =
  if dt_local start_dt + HOUR <? MAX_LOCAL
  then Ok (Some start_dt, Some (mk_dt (dt_local start_dt + HOUR) None))
  else Error (OverflowError "date value out of range").
Proof.
  apply (extract_date_time_range_on_at no_isoformat sample_time_strptime sample_on_at_search
           sample_now "On today at 10:30" "today" "10:30"
           (mk_dt 63851328000000000 None) (mk_dt 59926645800000000 None));
    [not_in | vm_compute; reflexivity | vm_compute; reflexivity | vm_compute; reflexivity
    | vm_compute; reflexivity | vm_compute; reflexivity | vm_compute; congruence].
Defined.

(** X25 at a sample input. *)
Lemma filter_announcements_by_date_month_formula_witness :
  let '(ey, em) := if 5 =? 12 then (2025 + 1, 1) else (2025, 5 + 1) in
  filter_announcements_by_date_body (fun _ => Ok []) no_range no_date 2025 "Sent in May" =
  formula_response (fun _ => Ok [])
    (date_range_formula
       (zero_pad 4 2025 ++ "-" ++ zero_pad 2 5 ++ "-01T00:00:00.000Z")
       (zero_pad 4 ey ++ "-" ++ zero_pad 2 em ++ "-01T00:00:00.000Z"))%string
    ("from " ++ calendar_month_name 5)%string.
Proof.
  apply (filter_announcements_by_date_month_formula (fun _ => Ok []) no_range no_date 2025
           "Sent in May" "may" 5);
    [vm_compute; reflexivity | unfold MAXYEAR; lia | unfold MAXYEAR; lia].
Defined.

(** X26 at a sample input. *)
Lemma filter_announcements_by_date_december_max_witness :
  filter_announcements_by_date (fun _ => Ok []) no_range no_date MAXYEAR sample_client
    "posts from December" =
  mk_resp 0 [] None (Some "Error filtering announcements by date: year 10000 is out of range").
Proof.
  apply (filter_announcements_by_date_december_max (fun _ => Ok []) no_range no_date
           sample_client "posts from December" "december");
    [reflexivity | vm_compute; reflexivity].
Defined.

(** X27 at a sample input. *)
Lemma filter_announcements_by_date_unparsed_witness :
  filter_announcements_by_date (fun _ => Ok []) no_range no_date 2025 sample_client
    "Nonsense" =
  mk_resp 0 [] None
    (Some ("Could not parse date query: '" ++ strip (lower "Nonsense")
           ++ "'. Please try a different format.")%string).
Proof.
  apply (filter_announcements_by_date_unparsed (fun _ => Ok []) no_range no_date 2025
           sample_client "Nonsense" None None);
    [reflexivity | vm_compute; reflexivity | reflexivity | left; reflexivity | reflexivity].
Defined.

(** X29 at a sample input. *)
Lemma get_first_attachment_url_first_only_witness :
  get_first_attachment_url sample_attachment_fields = (PNone, PNone).
Proof.
  apply get_first_attachment_url_first_only.
  intros field_name first rest a Hin Hget Hfirst.
  simpl in Hin.
  destruct Hin as [<- | [<- | [<- | [<- | []]]]]; vm_compute in Hget;
    try discriminate.
  injection Hget as <- _. injection Hfirst as <-. reflexivity.
Defined.

Close Scope Z_scope.
